(** * Query-and-ranking layer of the course/survey MCP tools

    A shallow embedding of the Python handlers

    - [functions/mcpTriggers/_common.py]            (module [Common])
    - [functions/mcpTriggers/course_search_mcp.py]  (modules [CourseSearch]
                                                     and [Binary64])
    - [triggers/courses.py]                         (module [Courses])
    - [functions/mcpTriggers/user_query_mcp.py]     (module [UserQuery])
    - [functions/mcpTriggers/survey_query_mcp.py]   (module [SurveyQuery])
    - [functions/mcpTriggers/course_list_mcp.py]    (module [CourseList])

    Conventions of the embedding.

    - A Python [str] is a list of Unicode code points ([list N]); [len] is
      the length of that list.  String literals of the source are written
      [u "..."], which decodes the UTF-8 bytes of a literal.
    - JSON-like Python values are the inductive [pyval]; a [dict] is an
      association list read with [dict_get] (Python's [d.get(k)]).
    - A Python [float] is an exact rational ([Q]): the binary64 rounding
      error of each single operation is abstracted, comparisons and
      [round(x, 4)] (half-to-even) are exact.  NaN and infinities have no
      representation.  Where the value of a score or the order of two
      scores a rounding error apart is at stake, the predicate search is
      embedded a second time with the IEEE 754 binary64 numbers of
      [PrimFloat] (module [Binary64]).
    - A call either returns or raises: [outcome A].  Module globals
      ([_client], [_container]) and the store are the explicit [world].
    - Library functions whose tables or algorithms live outside the
      repository ([str.lower], [json.loads], [float] on a string,
      [difflib.SequenceMatcher.ratio], [traceback.format_exception]) are the
      fields of the class [PyRuntime]. *)

From Stdlib Require Import String Ascii.
From Stdlib Require Import ZArith NArith QArith Qround Qminmax List Bool Lia Lqa.
From Stdlib Require Import Permutation Sorted.
From Stdlib Require Import Floats.
Import ListNotations.

(** A decimal literal of a float denotes the nearest double, as in Python. *)
Set Warnings "-inexact-float".

Local Open Scope Z_scope.

(* ===================================================================== *)
(** ** Python strings, values and builtins                                *)
(* ===================================================================== *)

Module Py.

(** A [str]: a sequence of code points. *)
Definition str := list N.

Definition len {A} (l : list A) : Z := Z.of_nat (List.length l).

(** UTF-8 decoding, used only to write the literals of the source. *)
Fixpoint utf8_decode (bs : list N) : str :=
  match bs with
  | [] => []
  | b :: r =>
      if (b <? 128)%N then b :: utf8_decode r
      else if (b <? 224)%N then
        match r with
        | c1 :: r1 => ((b - 192) * 64 + (c1 - 128))%N :: utf8_decode r1
        | _ => []
        end
      else if (b <? 240)%N then
        match r with
        | c1 :: c2 :: r2 =>
            ((b - 224) * 4096 + (c1 - 128) * 64 + (c2 - 128))%N :: utf8_decode r2
        | _ => []
        end
      else
        match r with
        | c1 :: c2 :: c3 :: r3 =>
            ((b - 240) * 262144 + (c1 - 128) * 4096 + (c2 - 128) * 64 + (c3 - 128))%N
              :: utf8_decode r3
        | _ => []
        end
  end.

Definition u (s : string) : str :=
  utf8_decode (List.map N_of_ascii (list_ascii_of_string s)).

Fixpoint str_eqb (a b : str) : bool :=
  match a, b with
  | [], [] => true
  | x :: a', y :: b' => (x =? y)%N && str_eqb a' b'
  | _, _ => false
  end.

(** [str.isspace] of one code point (CPython's [_PyUnicode_IsWhitespace]). *)
Definition is_space (c : N) : bool :=
  ((9 <=? c) && (c <=? 13) || (28 <=? c) && (c <=? 32)
   || (c =? 133) || (c =? 160) || (c =? 5760)
   || (8192 <=? c) && (c <=? 8202)
   || (c =? 8232) || (c =? 8233) || (c =? 8239) || (c =? 8287)
   || (c =? 12288))%N.

Fixpoint lstrip (s : str) : str :=
  match s with
  | [] => []
  | c :: r => if is_space c then lstrip r else s
  end.

Definition rstrip (s : str) : str := rev (lstrip (rev s)).

(** [s.strip()] *)
Definition strip (s : str) : str := rstrip (lstrip s).

(** [s.replace(a, b)] for one-character [a] and [b]. *)
Definition replace (a b : N) (s : str) : str :=
  List.map (fun c => if (c =? a)%N then b else c) s.

(** [s.split(sep)] for a one-character separator: never returns []. *)
Fixpoint split (sep : N) (s : str) : list str :=
  match s with
  | [] => [[]]
  | c :: r =>
      if (c =? sep)%N then [] :: split sep r
      else match split sep r with
           | w :: ws => (c :: w) :: ws
           | [] => [[c]]
           end
  end.

(** [sep.join(parts)] *)
Fixpoint join (sep : str) (parts : list str) : str :=
  match parts with
  | [] => []
  | [p] => p
  | p :: ps => p ++ sep ++ join sep ps
  end.

Fixpoint starts_with (needle hay : str) : bool :=
  match needle, hay with
  | [], _ => true
  | x :: n', y :: h' => (x =? y)%N && starts_with n' h'
  | _ :: _, [] => false
  end.

(** [needle in hay] *)
Fixpoint contains (needle hay : str) : bool :=
  starts_with needle hay ||
  match hay with
  | [] => false
  | _ :: h' => contains needle h'
  end.

(** [l[:k]], with Python's reading of a negative bound. *)
Definition slice_to {A} (k : Z) (l : list A) : list A :=
  if 0 <=? k then firstn (Z.to_nat k) l
  else firstn (Z.to_nat (len l + k)) l.

(** [l[-k:]] for a positive constant [k]. *)
Definition slice_last {A} (k : nat) (l : list A) : list A :=
  skipn (List.length l - k) l.

(** [str(n)] of a natural number. *)
Fixpoint digits_of (fuel : nat) (n : N) (acc : str) : str :=
  match fuel with
  | O => acc
  | S fuel' =>
      let acc' := (48 + n mod 10)%N :: acc in
      if (n / 10 =? 0)%N then acc' else digits_of fuel' (n / 10)%N acc'
  end.

Definition str_of_nat (n : nat) : str := digits_of (S n) (N.of_nat n) [].

(** *** Values *)

#[warnings="-register-all"]
Inductive pyval : Type :=
| VNone
| VBool (b : bool)
| VInt (z : Z)
| VFloat (q : Q)
| VStr (s : str)
| VList (l : list pyval)
| VDict (d : list (str * pyval)).

Definition dict := list (str * pyval).

(** [d.get(k)]: [None] when the key is absent. *)
Fixpoint dict_get (k : str) (d : dict) : pyval :=
  match d with
  | [] => VNone
  | (k', v) :: d' => if str_eqb k k' then v else dict_get k d'
  end.

(** Truth value of an object. *)
Definition truthy (v : pyval) : bool :=
  match v with
  | VNone => false
  | VBool b => b
  | VInt z => negb (z =? 0)
  | VFloat q => negb (Qeq_bool q 0)
  | VStr s => match s with [] => false | _ => true end
  | VList l => match l with [] => false | _ => true end
  | VDict d => match d with [] => false | _ => true end
  end.

(** [a or b] *)
Definition py_or (a b : pyval) : pyval := if truthy a then a else b.

(** *** Exceptions *)

Inductive exn_class :=
| ValueError | TypeError | AttributeError | JSONDecodeError
| CosmosHttpResponseError | OtherException.

Record exn := mk_exn { exn_type : exn_class; exn_str : str }.

Inductive outcome (A : Type) : Type :=
| Return (a : A)
| Raise (e : exn).
Arguments Return {A} a.
Arguments Raise {A} e.

Definition bind {A B} (m : outcome A) (k : A -> outcome B) : outcome B :=
  match m with
  | Return a => k a
  | Raise e => Raise e
  end.

Definition is_cosmos_http_error (e : exn) : bool :=
  match exn_type e with CosmosHttpResponseError => true | _ => false end.

(** [v.strip()] where [v] may be any object: only [str] has the method. *)
Definition py_strip (v : pyval) : outcome str :=
  match v with
  | VStr s => Return (strip s)
  | _ => Raise (mk_exn AttributeError (u "object has no attribute 'strip'"))
  end.

(** *** Numbers *)

Definition digit_val (c : N) : option Z :=
  if ((48 <=? c) && (c <=? 57))%N then Some (Z.of_N (c - 48)) else None.

(** Decimal digits, single underscores allowed between two digits. *)
Fixpoint digits_acc (s : str) (acc : Z) (after_digit : bool) : option Z :=
  match s with
  | [] => if after_digit then Some acc else None
  | c :: r =>
      if (c =? 95)%N then
        if after_digit then digits_acc r acc false else None
      else
        match digit_val c with
        | Some d => digits_acc r (10 * acc + d) true
        | None => None
        end
  end.

(** [int(s)] for a string, base 10 (ASCII digits; the other Unicode decimal
    digits that CPython also accepts are read as invalid here). *)
Definition int_of_str (s : str) : option Z :=
  match strip s with
  | 45%N :: r => option_map Z.opp (digits_acc r 0 false)
  | 43%N :: r => digits_acc r 0 false
  | t => digits_acc t 0 false
  end.

(** [int(q)] of a float: truncation toward zero. *)
Definition trunc (q : Q) : Z := Z.quot (Qnum q) (Zpos (Qden q)).

(** [int(v)] *)
Definition py_int (v : pyval) : outcome Z :=
  match v with
  | VBool b => Return (if b then 1 else 0)
  | VInt z => Return z
  | VFloat q => Return (trunc q)
  | VStr s =>
      match int_of_str s with
      | Some z => Return z
      | None => Raise (mk_exn ValueError (u "invalid literal for int() with base 10"))
      end
  | VNone | VList _ | VDict _ =>
      Raise (mk_exn TypeError (u "int() argument must be a string, a bytes-like object or a real number"))
  end.

(** [a / b] on integers (true division); every divisor in the handlers is
    [max(_, 1)]. *)
Definition truediv (a b : Z) : Q := (inject_Z a / inject_Z b)%Q.

(** [min(a, b)]: the first argument unless the second is smaller. *)
Definition py_min (a b : Q) : Q := if Qle_bool a b then a else b.

(** Nearest integer, ties to the even one. *)
Definition round_half_even (q : Q) : Z :=
  let f := Qfloor q in
  match (q - inject_Z f ?= 1 # 2)%Q with
  | Lt => f
  | Gt => f + 1
  | Eq => if Z.even f then f else f + 1
  end.

(** [round(x, 4)] *)
Definition round4 (x : Q) : Q :=
  Qred (inject_Z (round_half_even (x * 10000)) / 10000)%Q.

(** *** The runtime library *)

Class PyRuntime := {
  (** [s.lower()] *)
  lower : str -> str;
  (** [json.loads(s)] *)
  json_loads : str -> outcome pyval;
  (** [float(s)] of a string; [None] is [ValueError] *)
  float_of_str : str -> option Q;
  (** [SequenceMatcher(None, a, b).ratio()] *)
  ratio : str -> str -> Q;
  (** ["".join(traceback.format_exception(type(e), e, e.__traceback__))] *)
  format_exception : exn -> str
}.

(** [float(v)] *)
Definition py_float `{PyRuntime} (v : pyval) : outcome Q :=
  match v with
  | VBool b => Return (if b then 1 else 0)%Q
  | VInt z => Return (inject_Z z)
  | VFloat q => Return q
  | VStr s =>
      match float_of_str s with
      | Some q => Return q
      | None => Raise (mk_exn ValueError (u "could not convert string to float"))
      end
  | VNone | VList _ | VDict _ =>
      Raise (mk_exn TypeError (u "float() argument must be a string or a real number"))
  end.

End Py.

Import Py.

(* ===================================================================== *)
(** ** functions/mcpTriggers/_common.py                                   *)
(* ===================================================================== *)

Module Common.
Section WithRuntime.
Context `{PyRuntime}.

(** The tail of [parse_args]: unwrap the standard wrapper keys. *)
Definition unwrap_args (parsed : pyval) : dict :=
  match parsed with
  | VDict d =>
      match dict_get (u "arguments") d with
      | VDict a => a
      | _ =>
          match dict_get (u "mcpToolArgs") d with
          | VDict m => m
          | _ => d
          end
      end
  | _ => []
  end.

Definition parse_args (context : pyval) : dict :=
  match context with
  | VNone => []
  | VStr s =>
      let txt := strip s in
      match txt with
      | [] => []
      | _ =>
          match json_loads txt with
          | Raise _ => [(u "raw", VStr txt)]
          | Return parsed => unwrap_args parsed
          end
      end
  | parsed => unwrap_args parsed
  end.

(** [payload.update(extra)] on association lists. *)
Fixpoint dict_set (k : str) (v : pyval) (d : dict) : dict :=
  match d with
  | [] => [(k, v)]
  | (k', v') :: d' =>
      if str_eqb k k' then (k, v) :: d' else (k', v') :: dict_set k v d'
  end.

Definition dict_update (d extra : dict) : dict :=
  fold_left (fun acc kv => dict_set (fst kv) (snd kv) acc) extra d.

(** [build_error(message, details=, kind=, extra=)]; [traceId] is the value
    [uuid.uuid4().hex] draws for this call. *)
Definition build_error (message : str) (details : option str) (kind : str)
    (extra : dict) (traceId : str) : dict :=
  let payload :=
    [(u "error", VStr message); (u "type", VStr kind); (u "traceId", VStr traceId)] in
  let payload :=
    match details with
    | Some ((_ :: _) as d) => payload ++ [(u "details", VStr d)]
    | _ => payload
    end in
  dict_update payload extra.

Definition log_and_build_unhandled (exc : exn) (tool : str) (traceId : str) : dict :=
  build_error (u "内部エラーが発生しました")
    (Some (slice_last 4000 (format_exception exc)))
    (u "UnhandledException")
    [(u "tool", VStr tool)] traceId.

End WithRuntime.
End Common.

(* ===================================================================== *)
(** ** The document store and the module globals                          *)
(* ===================================================================== *)

Module Cosmos.

(** What iterating a query result does: yield documents, end, or raise. *)
Inductive feed :=
| Yield (d : dict) (rest : feed)
| Exhausted
| Broken (e : exn).

(** A container client: its answers to [query_items] and [read_all_items]. *)
Record container := {
  query_items : str -> list dict -> feed;
  read_all_items : Z -> feed
}.

(** What [CosmosClient(...)], [get_database_client] and
    [get_container_client] do in this process. *)
Inductive sdk :=
| ClientFails
| ContainerFails
| Connected (c : container).

Inductive store_call :=
| Connect
| QueryItems (query : str) (parameters : list dict)
| ReadAllItems (max_item_count : Z).

(** Environment, SDK behaviour, the globals [_client] (set or not) and
    [_container], and the journal of calls made to the store. *)
Record world := {
  COSMOS_ENDPOINT : option str;
  COSMOS_KEY : option str;
  cosmos : sdk;
  _client : bool;
  _container : option container;
  calls : list store_call
}.

Definition unset (v : option str) : bool :=
  match v with
  | Some (_ :: _) => false
  | _ => true
  end.

(** [_init_cosmos()] / [_init_client()]: every exception is logged and
    swallowed. *)
Definition _init_cosmos (w : world) : world :=
  if _client w then w
  else if unset (COSMOS_ENDPOINT w) || unset (COSMOS_KEY w) then w
  else
    let journal := calls w ++ [Connect] in
    match cosmos w with
    | ClientFails =>
        Build_world (COSMOS_ENDPOINT w) (COSMOS_KEY w) (cosmos w) false None journal
    | ContainerFails =>
        Build_world (COSMOS_ENDPOINT w) (COSMOS_KEY w) (cosmos w) true None journal
    | Connected c =>
        Build_world (COSMOS_ENDPOINT w) (COSMOS_KEY w) (cosmos w) true (Some c) journal
    end.

Definition record_call (c : store_call) (w : world) : world :=
  Build_world (COSMOS_ENDPOINT w) (COSMOS_KEY w) (cosmos w) (_client w)
    (_container w) (calls w ++ [c]).

(** [for doc in feed: items.append(doc); if len(items) >= limit: break] *)
Fixpoint collect (f : feed) (limit : Z) (items : list dict) : outcome (list dict) :=
  match f with
  | Exhausted => Return items
  | Broken e => Raise e
  | Yield d rest =>
      let items := items ++ [d] in
      if len items >=? limit then Return items else collect rest limit items
  end.

End Cosmos.
Import Cosmos.

(* ===================================================================== *)
(** ** Ranking shared by both search implementations                      *)
(* ===================================================================== *)

Module Ranking.

(** One entry of ["results"]. *)
Record hit := {
  id : pyval;
  score : Q;
  fieldValue : str;
  snippet : str;
  doc : dict
}.

(** [value[:120] + ("..." if len(value) > 120 else "")] *)
Definition make_snippet (value : str) : str :=
  firstn 120 value ++ (if len value >? 120 then u "..." else []).

(** [results.sort(key=lambda x: x["score"], reverse=True)]: a stable sort,
    largest score first, equal scores in their original order. *)
Fixpoint insert_desc (x : hit) (l : list hit) : list hit :=
  match l with
  | [] => [x]
  | y :: l' =>
      if Qle_bool (score y) (score x) then x :: l
      else y :: insert_desc x l'
  end.

Fixpoint sort_desc (l : list hit) : list hit :=
  match l with
  | [] => []
  | x :: l' => insert_desc x (sort_desc l')
  end.

End Ranking.
Import Ranking.

(* ===================================================================== *)
(** ** functions/mcpTriggers/course_search_mcp.py                         *)
(* ===================================================================== *)

Module CourseSearch.
Section WithRuntime.
Context `{PyRuntime}.

Definition _tokenize (term : str) : list str :=
  match term with
  | [] => []
  | _ =>
      filter (fun t => match t with [] => false | _ => true end)
        (split 32 (replace 12288 32 term))
  end.

(** [enumerate(tokens)] *)
Definition enumerate {A} (l : list A) : list (nat * A) :=
  combine (seq 0 (List.length l)) l.

Definition _build_query (field : str) (tokens : list str) : str :=
  match tokens with
  | [] => u "SELECT * FROM c WHERE IS_DEFINED(c." ++ field ++ u ")"
  | _ =>
      let conds :=
        List.map (fun it => u "CONTAINS(LOWER(c." ++ field ++ u "), @t"
                              ++ str_of_nat (fst it) ++ u ")")
          (enumerate tokens) in
      let where_ := join (u " AND ") conds in
      u "SELECT * FROM c WHERE " ++ where_
  end.

(** [[{"name": f"@t{i}", "value": tok} for i, tok in enumerate(tokens)]]
    (source line 64). *)
Definition query_params (tokens : list str) : list dict :=
  List.map (fun it => [(u "name", VStr (u "@t" ++ str_of_nat (fst it)));
                       (u "value", VStr (snd it))])
    (enumerate tokens).

(** The successful reply of [_search_field]. *)
Record reply := {
  query : str;
  field : str;
  tokens : list str;
  cosmosQuery : str;
  matched : Z;
  topK : Z;
  results : list hit
}.

Inductive response :=
| Failure (payload : dict)
| Success (r : reply).

(** The scoring loop [for d in items: ...] (source lines 78-96). *)
Fixpoint score_items (field term : str) (tokens : list str) (items : list dict)
  : list hit :=
  match items with
  | [] => []
  | d :: rest =>
      match dict_get field d with
      | VStr val =>
          let lv := lower val in
          if forallb (fun tok => contains tok lv) tokens then
            let token_hits := len (filter (fun tok => contains tok lv) tokens) in
            let length_bonus :=
              py_min (truediv (len term) (Z.max (len val) 1)) 1 in
            let score :=
              round4 (truediv token_hits (Z.max (len tokens) 1) * (7 # 10)
                      + length_bonus * (3 # 10))%Q in
            {| id := dict_get (u "id") d;
               score := score;
               fieldValue := val;
               snippet := make_snippet val;
               doc := d |} :: score_items field term tokens rest
          else score_items field term tokens rest
      | _ => score_items field term tokens rest
      end
  end.

(** [(args.get("searchTerm") or args.get("raw") or "")] before [.strip()]. *)
Definition search_term_arg (args : dict) : pyval :=
  py_or (py_or (dict_get (u "searchTerm") args) (dict_get (u "raw") args)) (VStr []).

(** [args.get("topK") or 5] before [int(...)]. *)
Definition topK_arg (args : dict) : pyval :=
  py_or (dict_get (u "topK") args) (VInt 5).

Definition _search_field (field : str) (context : pyval) (traceId : str) (w : world)
  : outcome response * world :=
  let args := Common.parse_args context in
  match py_strip (search_term_arg args) with
  | Raise e => (Raise e, w)
  | Return term =>
  match term with
  | [] =>
      (Return (Failure (Common.build_error (u "searchTerm は必須です") None
                          (u "ValidationError")
                          [(u "field", VStr (u "searchTerm"))] traceId)), w)
  | _ =>
  match py_int (topK_arg args) with
  | Raise e => (Raise e, w)
  | Return top_k =>
  let tokens := _tokenize (lower term) in
  let w := _init_cosmos w in
  match _container w with
  | None =>
      (Return (Failure (Common.build_error (u "Cosmos コンテナー未初期化") None
                          (u "DependencyNotReady") [] traceId)), w)
  | Some container =>
  let query := _build_query field tokens in
  let params := query_params tokens in
  let w := record_call (QueryItems query params) w in
  match collect (query_items container query params) (top_k * 3) [] with
  | Raise e =>
      if is_cosmos_http_error e then
        (Return (Failure (Common.build_error (u "Cosmos クエリ失敗") (Some (exn_str e))
                            (u "CosmosQueryError")
                            [(u "query", VStr query)] traceId)), w)
      else
        (Return (Failure (Common.log_and_build_unhandled e (u "search_" ++ field)
                            traceId)), w)
  | Return items =>
      let results := sort_desc (score_items field term tokens items) in
      let trimmed := slice_to top_k results in
      (Return (Success {| query := term;
                          field := field;
                          tokens := tokens;
                          cosmosQuery := query;
                          matched := len trimmed;
                          topK := top_k;
                          results := trimmed |}), w)
  end end end end end.

Definition search_courses_by_name_mcp := _search_field (u "courseName").
Definition search_courses_by_description_mcp := _search_field (u "description").
Definition search_courses_by_company_mcp := _search_field (u "targetCompany").

End WithRuntime.
End CourseSearch.

(* ===================================================================== *)
(** ** course_search_mcp.py with binary64 scores                          *)
(* ===================================================================== *)

(** The handler of [CourseSearch] once more, its scores being the binary64
    numbers the interpreter computes: each division, product and sum rounds
    to the nearest double, [round(x, 4)] returns the double nearest to the
    rounded decimal, and the sort compares doubles. *)
Module Binary64.

(** [float(n)] of an integer: the nearest double. *)
Definition float_of_int (n : Z) : float :=
  SF2Prim (binary_normalize prec emax n 0 false).

(** [a / b] on integers (true division): the quotient of the two
    conversions, which is the interpreter's result for operands below
    [2^53], as lengths and counts are; every divisor in the handler is
    [max(_, 1)]. *)
Definition truediv (a b : Z) : float := (float_of_int a / float_of_int b)%float.

(** [min(a, b)]: the first argument unless the second is smaller. *)
Definition py_min (a b : float) : float := if (b <? a)%float then b else a.

(** [round(x, 4)]: the exact value of [x] is rounded to the nearest multiple
    of [10^-4] (ties to the even one), and the result is the double nearest
    to that decimal; zeros, infinities and NaN round to themselves, and the
    sign is kept. *)
Definition round4 (x : float) : float :=
  match Prim2SF x with
  | S754_finite s m e =>
      match round_half_even (inject_Z (Zpos m) * 2 ^ e * 10000)%Q with
      | Zpos n => SF2Prim (SF64div (S754_finite s n 0) (S754_finite false 10000 0))
      | _ => SF2Prim (S754_zero s)
      end
  | _ => x
  end.

(** One entry of ["results"]. *)
Record hit := {
  id : pyval;
  score : float;
  fieldValue : str;
  snippet : str;
  doc : dict
}.

(** [results.sort(key=lambda x: x["score"], reverse=True)]: the sort only
    asks whether one key is [<] another; an entry stays in front of a later
    one unless its score is smaller. *)
Fixpoint insert_desc (x : hit) (l : list hit) : list hit :=
  match l with
  | [] => [x]
  | y :: l' =>
      if (score x <? score y)%float then y :: insert_desc x l'
      else x :: l
  end.

Fixpoint sort_desc (l : list hit) : list hit :=
  match l with
  | [] => []
  | x :: l' => insert_desc x (sort_desc l')
  end.

Section WithRuntime.
Context `{PyRuntime}.

(** The successful reply of [_search_field]. *)
Record reply := {
  query : str;
  field : str;
  tokens : list str;
  cosmosQuery : str;
  matched : Z;
  topK : Z;
  results : list hit
}.

Inductive response :=
| Failure (payload : dict)
| Success (r : reply).

(** The scoring loop [for d in items: ...] (source lines 78-96). *)
Fixpoint score_items (field term : str) (tokens : list str) (items : list dict)
  : list hit :=
  match items with
  | [] => []
  | d :: rest =>
      match dict_get field d with
      | VStr val =>
          let lv := lower val in
          if forallb (fun tok => contains tok lv) tokens then
            let token_hits := len (filter (fun tok => contains tok lv) tokens) in
            let length_bonus :=
              py_min (truediv (len term) (Z.max (len val) 1)) 1 in
            let score :=
              round4 (truediv token_hits (Z.max (len tokens) 1) * 0.7
                      + length_bonus * 0.3)%float in
            {| id := dict_get (u "id") d;
               score := score;
               fieldValue := val;
               snippet := make_snippet val;
               doc := d |} :: score_items field term tokens rest
          else score_items field term tokens rest
      | _ => score_items field term tokens rest
      end
  end.

Definition _search_field (field : str) (context : pyval) (traceId : str) (w : world)
  : outcome response * world :=
  let args := Common.parse_args context in
  match py_strip (CourseSearch.search_term_arg args) with
  | Raise e => (Raise e, w)
  | Return term =>
  match term with
  | [] =>
      (Return (Failure (Common.build_error (u "searchTerm は必須です") None
                          (u "ValidationError")
                          [(u "field", VStr (u "searchTerm"))] traceId)), w)
  | _ =>
  match py_int (CourseSearch.topK_arg args) with
  | Raise e => (Raise e, w)
  | Return top_k =>
  let tokens := CourseSearch._tokenize (lower term) in
  let w := _init_cosmos w in
  match _container w with
  | None =>
      (Return (Failure (Common.build_error (u "Cosmos コンテナー未初期化") None
                          (u "DependencyNotReady") [] traceId)), w)
  | Some container =>
  let query := CourseSearch._build_query field tokens in
  let params := CourseSearch.query_params tokens in
  let w := record_call (QueryItems query params) w in
  match collect (query_items container query params) (top_k * 3) [] with
  | Raise e =>
      if is_cosmos_http_error e then
        (Return (Failure (Common.build_error (u "Cosmos クエリ失敗") (Some (exn_str e))
                            (u "CosmosQueryError")
                            [(u "query", VStr query)] traceId)), w)
      else
        (Return (Failure (Common.log_and_build_unhandled e (u "search_" ++ field)
                            traceId)), w)
  | Return items =>
      let results := sort_desc (score_items field term tokens items) in
      let trimmed := slice_to top_k results in
      (Return (Success {| query := term;
                          field := field;
                          tokens := tokens;
                          cosmosQuery := query;
                          matched := len trimmed;
                          topK := top_k;
                          results := trimmed |}), w)
  end end end end end.

Definition search_courses_by_name_mcp := _search_field (u "courseName").
Definition search_courses_by_description_mcp := _search_field (u "description").
Definition search_courses_by_company_mcp := _search_field (u "targetCompany").

End WithRuntime.
End Binary64.

(* ===================================================================== *)
(** ** triggers/courses.py                                                *)
(* ===================================================================== *)

Module Courses.
Section WithRuntime.
Context `{PyRuntime}.

(** The loop of [_fetch_courses]: an exception is logged and the items read
    so far are kept. *)
Fixpoint read_up_to (f : feed) (max_items : Z) (items : list dict) : list dict :=
  match f with
  | Exhausted => items
  | Broken _ => items
  | Yield d rest =>
      let items := items ++ [d] in
      if len items >=? max_items then items else read_up_to rest max_items items
  end.

Definition _fetch_courses (max_items : Z) (w : world) : list dict * world :=
  let w := _init_cosmos w in
  match _container w with
  | None => ([], w)
  | Some container =>
      let w := record_call (ReadAllItems max_items) w in
      (read_up_to (read_all_items container max_items) max_items [], w)
  end.

Definition _score (a b : str) : Q :=
  match a, b with
  | [], _ | _, [] => 0
  | _, _ => if contains a b then 1 else ratio a b
  end.

Record reply := {
  query : str;
  field : str;
  topK : Z;
  maxScan : Z;
  minScore : Q;
  matched : Z;
  results : list hit
}.

(** The scoring loop of [_fuzzy_search] (source lines 81-97). *)
Fixpoint score_docs (field term_norm : str) (min_score : Q) (docs : list dict)
  : list hit :=
  match docs with
  | [] => []
  | d :: rest =>
      match dict_get field d with
      | VStr value =>
          let v_norm := lower value in
          let s := _score term_norm v_norm in
          if Qle_bool min_score s then
            {| id := dict_get (u "id") d;
               score := round4 s;
               snippet := make_snippet value;
               fieldValue := value;
               doc := d |} :: score_docs field term_norm min_score rest
          else score_docs field term_norm min_score rest
      | _ => score_docs field term_norm min_score rest
      end
  end.

Definition _fuzzy_search (field term : str) (top_k max_scan : Z) (min_score : Q)
    (w : world) : reply * world :=
  let term_norm := lower (strip term) in
  let (docs, w) := _fetch_courses max_scan w in
  let scored := sort_desc (score_docs field term_norm min_score docs) in
  ({| query := term;
      field := field;
      topK := top_k;
      maxScan := max_scan;
      minScore := min_score;
      matched := len (slice_to top_k scored);
      results := slice_to top_k scored |}, w).

Inductive response :=
| Failure (payload : dict)
| Success (r : reply).

(** The argument parsing at the head of [_handler] (source lines 155-169);
    [inl] is the early error return. *)
Definition handler_args (context : pyval) : dict + dict :=
  let parsed :=
    match context with
    | VStr s => json_loads s
    | _ => Return context
    end in
  match parsed with
  | Raise e => inl [(u "error", VStr (u "入力解析に失敗")); (u "details", VStr (exn_str e))]
  | Return (VDict d) =>
      match dict_get (u "arguments") d with
      | VDict a => inr a
      | _ =>
          match dict_get (u "mcpToolArgs") d with
          | VDict m => inr m
          | _ => inr d
          end
      end
  | Return _ => inr []
  end.

(** [_handler] of [_register_search_trigger(spec)], for [spec.field = field].
    Nothing in the model of [_fuzzy_search] raises, so the [except] clause
    around its call has no case here. *)
Definition _handler (field : str) (context : pyval) (w : world)
  : outcome response * world :=
  match handler_args context with
  | inl err => (Return (Failure err), w)
  | inr args =>
  match py_strip (py_or (dict_get (u "searchTerm") args) (VStr [])) with
  | Raise e => (Raise e, w)
  | Return term =>
  match term with
  | [] => (Return (Failure [(u "error", VStr (u "searchTerm は必須です"))]), w)
  | _ =>
  match py_int (py_or (dict_get (u "topK") args) (VInt 5)) with
  | Raise e => (Raise e, w)
  | Return top_k =>
  match py_int (py_or (dict_get (u "maxScan") args) (VInt 200)) with
  | Raise e => (Raise e, w)
  | Return max_scan =>
  match py_float (py_or (dict_get (u "minScore") args) (VFloat (4 # 10))) with
  | Raise e => (Raise e, w)
  | Return min_score =>
      let (r, w) := _fuzzy_search field term top_k max_scan min_score w in
      (Return (Success r), w)
  end end end end end end.

End WithRuntime.
End Courses.

(* ===================================================================== *)
(** ** functions/mcpTriggers/user_query_mcp.py                            *)
(* ===================================================================== *)

Module UserQuery.
Section WithRuntime.
Context `{PyRuntime}.

Definition _normalize_ids (raw : pyval) : list str :=
  match raw with
  | VStr raw =>
      let raw := strip raw in
      match raw with
      | [] => []
      | _ =>
          let parts := List.map strip (split 44 (replace 10 44 raw)) in
          filter (fun p => match p with [] => false | _ => true end) parts
      end
  | _ => []
  end.

Inductive response :=
| Failure (payload : dict)
(** the usage guide: ["query": None], [count], [results], [info], [usageExample] *)
| Usage (count : Z) (results : list dict) (info : str) (usageExample : dict)
(** [query], [requested], [count], [missingIds], [results] *)
| Users (query : str) (requested count : Z) (missingIds : list str)
        (results : list dict)
(** [query], [companyName], [count], [truncated], [results] *)
| CompanyUsers (query : str) (companyName : str) (count : Z) (truncated : bool)
        (results : list dict).

(** Lists and dicts cannot be members of a [set]. *)
Definition hashable (v : pyval) : bool :=
  match v with
  | VList _ | VDict _ => false
  | _ => true
  end.

(** [{d.get("id") for d in items}] *)
Definition id_set (items : list dict) : outcome (list pyval) :=
  let ids := List.map (dict_get (u "id")) items in
  if forallb hashable ids then Return ids
  else Raise (mk_exn TypeError (u "unhashable type")).

(** [i in found_ids] for a string [i]: only an equal string compares equal. *)
Definition str_in (i : str) (found_ids : list pyval) : bool :=
  existsb (fun v => match v with VStr s => str_eqb i s | _ => false end) found_ids.

(** The body of the outer [try] of [get_users_by_ids_mcp]. *)
Definition get_users_by_ids_body (context : pyval) (traceId : str) (w : world)
  : outcome response * world :=
  let args := Common.parse_args context in
  let ids := _normalize_ids (dict_get (u "userIds") args) in
  match ids with
  | [] =>
      (Return (Usage 0 []
                 (u "userIds にカンマ区切り文字列を指定してください (例: id1,id2,id3)")
                 [(u "userIds", VStr (u "id1,id2,id3"))]), w)
  | _ =>
  let w := _init_cosmos w in
  match _container w with
  | None =>
      (Return (Failure (Common.build_error (u "Cosmos コンテナー未初期化") None
                          (u "DependencyNotReady") [] traceId)), w)
  | Some container =>
  let query := u "SELECT * FROM c WHERE ARRAY_CONTAINS(@ids, c.id)" in
  let params := [[(u "name", VStr (u "@ids")); (u "value", VList (List.map VStr ids))]] in
  let w := record_call (QueryItems query params) w in
  match collect (query_items container query params) (len ids) [] with
  | Raise e =>
      if is_cosmos_http_error e then
        (Return (Failure (Common.build_error (u "Cosmos クエリ失敗") (Some (exn_str e))
                            (u "CosmosQueryError")
                            [(u "query", VStr query);
                             (u "ids", VList (List.map VStr (slice_to 10 ids)))]
                            traceId)), w)
      else (Raise e, w)
  | Return items =>
      match id_set items with
      | Raise e => (Raise e, w)
      | Return found_ids =>
          let missing := filter (fun i => negb (str_in i found_ids)) ids in
          (Return (Users query (len ids) (len items) missing items), w)
      end
  end end end.

(** [try: ... except Exception as e: return log_and_build_unhandled(...)] *)
Definition get_users_by_ids_mcp (context : pyval) (traceId : str) (w : world)
  : outcome response * world :=
  match get_users_by_ids_body context traceId w with
  | (Raise e, w) =>
      (Return (Failure (Common.log_and_build_unhandled e (u "get_users_by_ids")
                          traceId)), w)
  | r => r
  end.

(** [for doc in feed: items.append(doc); if len(items) >= top_k: truncated =
    True; break] *)
Fixpoint collect_flag (f : feed) (top_k : Z) (items : list dict)
  : outcome (list dict * bool) :=
  match f with
  | Exhausted => Return (items, false)
  | Broken e => Raise e
  | Yield d rest =>
      let items := items ++ [d] in
      if len items >=? top_k then Return (items, true)
      else collect_flag rest top_k items
  end.

Definition get_users_by_company_body (context : pyval) (traceId : str) (w : world)
  : outcome response * world :=
  let args := Common.parse_args context in
  match py_strip (py_or (dict_get (u "companyName") args) (VStr [])) with
  | Raise e => (Raise e, w)
  | Return company =>
  match py_int (py_or (dict_get (u "topK") args) (VInt 200)) with
  | Raise e => (Raise e, w)
  | Return top_k =>
  match company with
  | [] =>
      (Return (Usage 0 [] (u "companyName を指定してください")
                 [(u "companyName", VStr (u "ABC商事株式会社"))]), w)
  | _ =>
  let w := _init_cosmos w in
  match _container w with
  | None =>
      (Return (Failure (Common.build_error (u "Cosmos コンテナー未初期化") None
                          (u "DependencyNotReady") [] traceId)), w)
  | Some container =>
  let query := u "SELECT * FROM c WHERE c.companyName = @company ORDER BY c.userName" in
  let params := [[(u "name", VStr (u "@company")); (u "value", VStr company)]] in
  let w := record_call (QueryItems query params) w in
  match collect_flag (query_items container query params) top_k [] with
  | Raise e =>
      if is_cosmos_http_error e then
        (Return (Failure (Common.build_error (u "Cosmos クエリ失敗") (Some (exn_str e))
                            (u "CosmosQueryError")
                            [(u "query", VStr query); (u "company", VStr company)]
                            traceId)), w)
      else (Raise e, w)
  | Return (items, truncated) =>
      (Return (CompanyUsers query company (len items) truncated items), w)
  end end end end end.

Definition get_users_by_company_mcp (context : pyval) (traceId : str) (w : world)
  : outcome response * world :=
  match get_users_by_company_body context traceId w with
  | (Raise e, w) =>
      (Return (Failure (Common.log_and_build_unhandled e (u "get_users_by_company")
                          traceId)), w)
  | r => r
  end.

End WithRuntime.
End UserQuery.

(* ===================================================================== *)
(** ** functions/mcpTriggers/survey_query_mcp.py                          *)
(* ===================================================================== *)

Module SurveyQuery.
Section WithRuntime.
Context `{PyRuntime}.

Definition _build_query (by_course : bool) : str :=
  if by_course then u "SELECT * FROM c WHERE c.courseId = @id"
  else u "SELECT * FROM c WHERE c.userId = @id".

Inductive response :=
| Failure (payload : dict)
(** the help reply: ["mode": None], ["id": None], ["query": None], [count],
    [results], [info], [raw] (only in the raw-string case), [usageExamples] *)
| Usage (count : Z) (results : list dict) (info : str) (raw : option pyval)
        (usageExamples : list dict)
(** [mode], [id], [query], [count], [results] *)
| Surveys (mode : str) (id : str) (query : str) (count : Z) (results : list dict).

Definition usage_examples : list dict :=
  [[(u "courseId", VStr (u "<course-id>"))]; [(u "userId", VStr (u "<user-id>"))]].

Definition query_surveys_mcp (context : pyval) (traceId : str) (w : world)
  : outcome response * world :=
  let args := Common.parse_args context in
  match py_strip (py_or (dict_get (u "courseId") args) (VStr [])) with
  | Raise e => (Raise e, w)
  | Return course_id =>
  match py_strip (py_or (dict_get (u "userId") args) (VStr [])) with
  | Raise e => (Raise e, w)
  | Return user_id =>
  match py_int (py_or (dict_get (u "topK") args) (VInt 20)) with
  | Raise e => (Raise e, w)
  | Return top_k =>
  let no_course := match course_id with [] => true | _ => false end in
  let no_user := match user_id with [] => true | _ => false end in
  if no_course && no_user && truthy (dict_get (u "raw") args) then
    (Return (Usage 0 [] (u "courseId か userId を JSON で指定してください")
               (Some (dict_get (u "raw") args)) usage_examples), w)
  else if negb no_course && negb no_user then
    (Return (Failure (Common.build_error (u "courseId と userId は同時指定できません")
                        None (u "ValidationError") [] traceId)), w)
  else if no_course && no_user then
    (Return (Usage 0 []
               (u "courseId か userId のいずれかを指定するとアンケートを取得します")
               None usage_examples), w)
  else
  let by_course := negb no_course in
  let target_id := if by_course then course_id else user_id in
  let w := _init_cosmos w in
  match _container w with
  | None =>
      (Return (Failure (Common.build_error (u "Cosmos コンテナー未初期化") None
                          (u "DependencyNotReady") [] traceId)), w)
  | Some container =>
  let query := _build_query by_course in
  let params := [[(u "name", VStr (u "@id")); (u "value", VStr target_id)]] in
  let w := record_call (QueryItems query params) w in
  match collect (query_items container query params) top_k [] with
  | Raise e =>
      if is_cosmos_http_error e then
        (Return (Failure (Common.build_error (u "Cosmos クエリ失敗") (Some (exn_str e))
                            (u "CosmosQueryError")
                            [(u "query", VStr query); (u "id", VStr target_id)]
                            traceId)), w)
      else
        (Return (Failure (Common.log_and_build_unhandled e (u "query_surveys")
                            traceId)), w)
  | Return items =>
      (Return (Surveys (if by_course then u "courseId" else u "userId")
                 target_id query (len items) items), w)
  end end end end end.

End WithRuntime.
End SurveyQuery.

(* ===================================================================== *)
(** ** functions/mcpTriggers/course_list_mcp.py                           *)
(* ===================================================================== *)

Module CourseList.
Section WithRuntime.
Context `{PyRuntime}.

Inductive response :=
| Failure (payload : dict)
(** [query], [count], [truncated], [results] *)
| Listing (query : str) (count : Z) (truncated : bool) (results : list dict).

(** The body of the outer [try] of [list_all_courses_mcp]; the query is
    issued without parameters. *)
Definition list_all_courses_body (context : pyval) (traceId : str) (w : world)
  : outcome response * world :=
  let _ := Common.parse_args context in
  let w := _init_cosmos w in
  match _container w with
  | None =>
      (Return (Failure (Common.build_error (u "Cosmos コンテナー未初期化") None
                          (u "DependencyNotReady") [] traceId)), w)
  | Some container =>
  let query := u "SELECT * FROM c" in
  let w := record_call (QueryItems query []) w in
  match UserQuery.collect_flag (query_items container query []) 1000 [] with
  | Raise e =>
      if is_cosmos_http_error e then
        (Return (Failure (Common.build_error (u "Cosmos クエリ失敗") (Some (exn_str e))
                            (u "CosmosQueryError")
                            [(u "query", VStr query)] traceId)), w)
      else (Raise e, w)
  | Return (items, truncated) =>
      (Return (Listing query (len items) truncated items), w)
  end end.

Definition list_all_courses_mcp (context : pyval) (traceId : str) (w : world)
  : outcome response * world :=
  match list_all_courses_body context traceId w with
  | (Raise e, w) =>
      (Return (Failure (Common.log_and_build_unhandled e (u "list_all_courses")
                          traceId)), w)
  | r => r
  end.

End WithRuntime.
End CourseList.

(* ===================================================================== *)
(** ** A runtime to run the handlers on concrete inputs                   *)
(* ===================================================================== *)

Module Sample.

(** ASCII lowercasing; every other code point is left alone. *)
Definition ascii_lower (s : str) : str :=
  List.map (fun c => if ((65 <=? c) && (c <=? 90))%N then (c + 32)%N else c) s.

(** [SequenceMatcher(None, "ab", "bxxx").ratio()] is [2 * 1 / (2 + 4)]: the
    only matching block is ["b"].  Strings without a common character have
    ratio 0. *)
Definition ratio_table (a b : str) : Q :=
  if str_eqb a (u "ab") && str_eqb b (u "bxxx") then 1 # 3 else 0.

(** The handlers below are run on dict contexts, which never reach
    [json.loads]; decimal integers are the only strings [float] is asked to
    read. *)
#[export] Instance runtime : PyRuntime := {
  lower := ascii_lower;
  json_loads := fun _ => Raise (mk_exn JSONDecodeError (u "Expecting value"));
  float_of_str := fun s => option_map inject_Z (int_of_str s);
  ratio := ratio_table;
  format_exception := fun e => exn_str e
}.

(** A store whose courses container yields the given documents and then
    ends. *)
Fixpoint feed_of (docs : list dict) : feed :=
  match docs with
  | [] => Exhausted
  | d :: rest => Yield d (feed_of rest)
  end.

Definition container_of (docs : list dict) : container :=
  {| query_items := fun _ _ => feed_of docs;
     read_all_items := fun _ => feed_of docs |}.

Definition world_of (docs : list dict) : world :=
  {| COSMOS_ENDPOINT := Some (u "https://localhost:8081");
     COSMOS_KEY := Some (u "key");
     cosmos := Connected (container_of docs);
     _client := false;
     _container := None;
     calls := [] |}.

Definition course (i name : string) : dict :=
  [(u "id", VStr (u i)); (u "courseName", VStr (u name))].

Definition courses : list dict :=
  [course "c1" "Python 入門講座";
   course "c2" "Advanced PYTHON 入門";
   course "c3" "Rust 入門";
   course "c4" "python 入門 python 入門";
   course "c5" "Python 入門講座"].

Definition user (i : string) : dict := [(u "id", VStr (u i))].

(** [{"searchTerm": " Python 入門 ", "topK": 5}] *)
Definition search_context : pyval :=
  VDict [(u "searchTerm", VStr (u " Python 入門 ")); (u "topK", VInt 5)].

Definition no_search_reply : CourseSearch.reply :=
  {| CourseSearch.query := []; CourseSearch.field := []; CourseSearch.tokens := [];
     CourseSearch.cosmosQuery := []; CourseSearch.matched := 0;
     CourseSearch.topK := 0; CourseSearch.results := [] |}.

(** The reply of [search_courses_by_name] to [search_context] over
    [courses]. *)
Definition search_reply : CourseSearch.reply :=
  Eval vm_compute in
    match fst (CourseSearch.search_courses_by_name_mcp search_context (u "trace")
                 (world_of courses)) with
    | Return (CourseSearch.Success r) => r
    | _ => no_search_reply
    end.

(** Course names a rounding error apart: the query ["a"] is 1/80 of the
    first name and 1/79 of the other two.  The first sum is the double
    nearest to 0.70375, which lies below that decimal and rounds to 0.7037
    (the rational 0.70375 is a tie and rounds to 0.7038); the others round
    to 0.7038. *)
Definition long_name : str := u "a" ++ repeat 98%N 79.
Definition short_name : str := u "a" ++ repeat 98%N 78.

Definition named (i : string) (name : str) : dict :=
  [(u "id", VStr (u i)); (u "courseName", VStr name)].

Definition near_tie_courses : list dict :=
  [named "long" long_name; named "short" short_name; named "short2" short_name].

(** [{"searchTerm": "a"}] *)
Definition near_tie_context : pyval := VDict [(u "searchTerm", VStr (u "a"))].

(** What [search_courses_by_name] answers to [near_tie_context] over
    [near_tie_courses]. *)
Definition near_tie_reply : Binary64.reply :=
  {| Binary64.query := u "a";
     Binary64.field := u "courseName";
     Binary64.tokens := [u "a"];
     Binary64.cosmosQuery :=
       u "SELECT * FROM c WHERE CONTAINS(LOWER(c.courseName), @t0)";
     Binary64.matched := 3;
     Binary64.topK := 5;
     Binary64.results :=
       [ {| Binary64.id := VStr (u "short"); Binary64.score := 0.7038;
            Binary64.fieldValue := short_name; Binary64.snippet := short_name;
            Binary64.doc := named "short" short_name |};
         {| Binary64.id := VStr (u "short2"); Binary64.score := 0.7038;
            Binary64.fieldValue := short_name; Binary64.snippet := short_name;
            Binary64.doc := named "short2" short_name |};
         {| Binary64.id := VStr (u "long"); Binary64.score := 0.7037;
            Binary64.fieldValue := long_name; Binary64.snippet := long_name;
            Binary64.doc := named "long" long_name |} ] |}.

(** [{"searchTerm": "python", "topK": -1}] *)
Definition negative_topK_context : pyval :=
  VDict [(u "searchTerm", VStr (u "python")); (u "topK", VInt (-1))].

(** [{"searchTerm": "ab", "minScore": 0.33333}] *)
Definition threshold_context : pyval :=
  VDict [(u "searchTerm", VStr (u "ab")); (u "minScore", VFloat (33333 # 100000))].

(** [{"searchTerm": "   "}] *)
Definition blank_context : pyval := VDict [(u "searchTerm", VStr (u "   "))].

(** [{"searchTerm": "python", "topK": "abc"}] *)
Definition word_topK_context : pyval :=
  VDict [(u "searchTerm", VStr (u "python")); (u "topK", VStr (u "abc"))].

(** [{"searchTerm": "python", "topK": 0, "maxScan": 0, "minScore": 0.0}] *)
Definition zero_limits_context : pyval :=
  VDict [(u "searchTerm", VStr (u "python")); (u "topK", VInt 0);
         (u "maxScan", VInt 0); (u "minScore", VFloat 0)].

(** [{"searchTerm": "python", "topK": "0", "maxScan": "0", "minScore": "0"}] *)
Definition zero_string_limits_context : pyval :=
  VDict [(u "searchTerm", VStr (u "python")); (u "topK", VStr (u "0"));
         (u "maxScan", VStr (u "0")); (u "minScore", VStr (u "0"))].

(** [{"searchTerm": "python", "topK": 0.5}] *)
Definition half_topK_context : pyval :=
  VDict [(u "searchTerm", VStr (u "python")); (u "topK", VFloat (1 # 2))].

(** [{"userIds": "u1,u2,u3"}] *)
Definition users_context : pyval := VDict [(u "userIds", VStr (u "u1,u2,u3"))].

(** [{"courseId": "c1", "userId": "u1", "topK": "abc"}] *)
Definition survey_word_topK_context : pyval :=
  VDict [(u "courseId", VStr (u "c1")); (u "userId", VStr (u "u1"));
         (u "topK", VStr (u "abc"))].

(** [{"courseId": "c1", "userId": "u1"}] *)
Definition survey_both_context : pyval :=
  VDict [(u "courseId", VStr (u "c1")); (u "userId", VStr (u "u1"))].

(** [{"companyName": "Acme", "topK": "abc"}] *)
Definition company_word_topK_context : pyval :=
  VDict [(u "companyName", VStr (u "Acme")); (u "topK", VStr (u "abc"))].

Definition no_scan_reply : Courses.reply :=
  {| Courses.query := []; Courses.field := []; Courses.topK := 0;
     Courses.maxScan := 0; Courses.minScore := 0; Courses.matched := 0;
     Courses.results := [] |}.

(** The reply of the scan handler for [courseName] to [search_context]
    over [courses]. *)
Definition scan_reply : Courses.reply :=
  Eval vm_compute in
    match fst (Courses._handler (u "courseName") search_context (world_of courses)) with
    | Return (Courses.Success r) => r
    | _ => no_scan_reply
    end.

(** The replies of both tools to [zero_limits_context] over [courses]. *)
Definition zero_limits_search_reply : CourseSearch.reply :=
  Eval vm_compute in
    match fst (CourseSearch.search_courses_by_name_mcp zero_limits_context (u "trace")
                 (world_of courses)) with
    | Return (CourseSearch.Success r) => r
    | _ => no_search_reply
    end.

Definition zero_limits_scan_reply : Courses.reply :=
  Eval vm_compute in
    match fst (Courses._handler (u "courseName") zero_limits_context (world_of courses)) with
    | Return (Courses.Success r) => r
    | _ => no_scan_reply
    end.

(** A [json.loads] that reads three literals and rejects the rest. *)
Definition literal_loads (s : str) : outcome pyval :=
  if str_eqb s (u "{}") then Return (VDict [])
  else if str_eqb s (u "null") then Return VNone
  else if str_eqb s (u "5") then Return (VInt 5)
  else Raise (mk_exn JSONDecodeError (u "Expecting value")).

Definition literal_runtime : PyRuntime := {|
  lower := ascii_lower;
  json_loads := literal_loads;
  float_of_str := fun s => option_map inject_Z (int_of_str s);
  ratio := ratio_table;
  format_exception := fun e => exn_str e
|}.

(** A feed that yields the given documents and then raises. *)
Fixpoint broken_feed_of (docs : list dict) (e : exn) : feed :=
  match docs with
  | [] => Broken e
  | d :: rest => Yield d (broken_feed_of rest e)
  end.

Definition broken_world_of (docs : list dict) (e : exn) : world :=
  {| COSMOS_ENDPOINT := Some (u "https://localhost:8081");
     COSMOS_KEY := Some (u "key");
     cosmos := Connected {| query_items := fun _ _ => broken_feed_of docs e;
                            read_all_items := fun _ => broken_feed_of docs e |};
     _client := false;
     _container := None;
     calls := [] |}.

(** A process without [COSMOS_ENDPOINT] and [COSMOS_KEY]. *)
Definition unconfigured_world : world :=
  {| COSMOS_ENDPOINT := None;
     COSMOS_KEY := None;
     cosmos := ClientFails;
     _client := false;
     _container := None;
     calls := [] |}.

Definition throttled : exn := mk_exn CosmosHttpResponseError (u "429 Too Many Requests").

(** [{"companyName": "Acme", "topK": 2}] *)
Definition company_context : pyval :=
  VDict [(u "companyName", VStr (u "Acme")); (u "topK", VInt 2)].

(** A users container that answers a query with the documents whose
    [companyName] is the value bound to the first parameter. *)
Definition bound_value (parameters : list dict) : pyval :=
  match parameters with
  | p :: _ => dict_get (u "value") p
  | [] => VNone
  end.

Definition company_is (v : pyval) (d : dict) : bool :=
  match v, dict_get (u "companyName") d with
  | VStr a, VStr b => str_eqb a b
  | _, _ => false
  end.

Definition users_container (docs : list dict) : container :=
  {| query_items := fun _ parameters =>
       feed_of (filter (company_is (bound_value parameters)) docs);
     read_all_items := fun _ => feed_of docs |}.

Definition users_world (docs : list dict) : world :=
  {| COSMOS_ENDPOINT := Some (u "https://localhost:8081");
     COSMOS_KEY := Some (u "key");
     cosmos := Connected (users_container docs);
     _client := false;
     _container := None;
     calls := [] |}.

Definition employee (i company : string) : dict :=
  [(u "id", VStr (u i)); (u "companyName", VStr (u company))].

Definition employees : list dict :=
  [employee "u1" "Acme"; employee "u2" "Globex";
   employee "u3" "Acme"; employee "u4" "Acme"].

(** [{"courseId": " c1 ", "topK": 2}] *)
Definition survey_course_context : pyval :=
  VDict [(u "courseId", VStr (u " c1 ")); (u "topK", VInt 2)].

Definition surveys : list dict :=
  [[(u "id", VStr (u "s1")); (u "courseId", VStr (u "c1"))];
   [(u "id", VStr (u "s2")); (u "courseId", VStr (u "c1"))];
   [(u "id", VStr (u "s3")); (u "courseId", VStr (u "c1"))]].

End Sample.

(* ===================================================================== *)
(** ** Vocabulary of the specification                                    *)
(* ===================================================================== *)

Module Spec.

(** One of the two separators of [_tokenize]: the ASCII space and the
    full-width space U+3000. *)
Definition is_sep (c : N) : bool := ((c =? 32) || (c =? 12288))%N.

(** The string has a character that belongs to a token. *)
Definition has_text (s : str) : bool := existsb (fun c => negb (is_sep c)) s.

Definition nonempty (t : str) : bool := match t with [] => false | _ => true end.

(** The order of a ranked list: no later entry has a larger score. *)
Definition score_ge (a b : hit) : Prop := (score b <= score a)%Q.

(** The same order on binary64 scores, between neighbours: an entry is not
    followed by one with a larger score. *)
Definition not_below (a b : Binary64.hit) : Prop :=
  (Binary64.score a <? Binary64.score b)%float = false.

(** The entries of a list whose score equals [s], in list order. *)
Definition with_score (s : float) (l : list Binary64.hit) : list Binary64.hit :=
  filter (fun h => (Binary64.score h =? s)%float) l.

(** The entry is shaped as section 3 describes a SearchResult: a score in
    [0, 1] and a snippet of the first 120 characters of the field value,
    followed by an ellipsis exactly when the value is longer. *)
Definition well_shaped (h : hit) : Prop :=
  (0 <= score h <= 1)%Q
  /\ (len (fieldValue h) <= 120 -> snippet h = fieldValue h)
  /\ (120 < len (fieldValue h) -> snippet h = firstn 120 (fieldValue h) ++ u "...")
  /\ len (snippet h) <= 123.

(** The documents a feed yields before it ends or raises. *)
Fixpoint docs_of (f : feed) : list dict :=
  match f with
  | Yield d rest => d :: docs_of rest
  | Exhausted | Broken _ => []
  end.

(** The keys of a dict, in order. *)
Definition keys (d : dict) : list str := List.map fst d.

(** [a] is a suffix of [b]. *)
Definition suffix_of {A} (a b : list A) : Prop := exists pre, b = pre ++ a.

(** The first character is not white space. *)
Definition clean_head (s : str) : Prop :=
  match s with
  | [] => False
  | c :: _ => is_space c = false
  end.

(** An id as [_normalize_ids] produces them: not empty, without comma or
    newline, and unchanged by trimming. *)
Definition normal_id (i : str) : Prop :=
  i <> [] /\ strip i = i
  /\ forallb (fun c => negb (c =? 44)%N && negb (c =? 10)%N) i = true.

(** The well-formed states of the module globals: a container is only
    ever held together with its client. *)
Definition globals_consistent (w : world) : Prop :=
  _container w <> None -> _client w = true.

Section WithRuntime.
Context `{PyRuntime}.

(** What the handlers rely on from [str.lower]: the empty string stays
    empty, and text other than the two token separators does not vanish. *)
Class LowerLaws : Prop := {
  lower_nil : lower [] = [];
  lower_text : forall s, has_text s = true -> has_text (lower s) = true
}.

(** The score in the words of the specification (section 4.1):
    [tokenCoverage = (tokens matched)/(tokens total)],
    [lengthBonus = min(len(query)/len(v), 1.0)],
    [score = round(0.7 * tokenCoverage + 0.3 * lengthBonus, 4)]. *)
Definition spec_score (query v : str) (tokens : list str) : float :=
  let tokenCoverage :=
    Binary64.truediv (len (filter (fun t => contains t (lower v)) tokens))
      (len tokens) in
  let lengthBonus := Binary64.py_min (Binary64.truediv (len query) (len v)) 1 in
  Binary64.round4 (0.7 * tokenCoverage + 0.3 * lengthBonus)%float.

(** The rows the specification asks for: one per fetched document whose
    field is a string containing, case-insensitively, every token; in fetch
    order; scored by [spec_score]. *)
Definition spec_rows (field query : str) (tokens : list str) (items : list dict)
  : list Binary64.hit :=
  flat_map
    (fun d =>
       match dict_get field d with
       | VStr v =>
           if forallb (fun t => contains t (lower v)) tokens then
             [{| Binary64.id := dict_get (u "id") d;
                 Binary64.score := spec_score query v tokens;
                 Binary64.fieldValue := v;
                 Binary64.snippet := make_snippet v;
                 Binary64.doc := d |}]
           else []
       | _ => []
       end)
    items.

End WithRuntime.
End Spec.
Import Spec.

(** Closed statements about concrete calls run on the sample runtime. *)
#[local] Existing Instance Sample.runtime.

(** Closes a closed goal (an equation, a disequation or a refuted bound)
    by evaluating both sides. *)
Ltac by_evaluation :=
  vm_compute;
  first [ reflexivity
        | let C := fresh in intros C; first [discriminate C | apply C; reflexivity] ].

(* ===================================================================== *)
(** ** Facts about the builtins                                           *)
(* ===================================================================== *)

Module PyFacts.

Lemma len_nonneg {A} (l : list A) : 0 <= len l.
Proof. unfold len. lia. Qed.

Lemma len_nil_iff {A} (l : list A) : len l = 0 <-> l = [].
Proof.
  unfold len. destruct l; simpl; split; intro E; try reflexivity; try discriminate; lia.
Qed.

Lemma str_eqb_eq a b : str_eqb a b = true <-> a = b.
Proof.
  revert b. induction a as [|x a IH]; intros [|y b]; simpl; split; intro E;
    try reflexivity; try discriminate.
  - apply andb_true_iff in E. destruct E as [E1 E2].
    apply N.eqb_eq in E1. apply IH in E2. congruence.
  - injection E as -> ->. rewrite N.eqb_refl. simpl. now apply IH.
Qed.

(** *** Substring test *)

Lemma starts_with_spec n h :
  starts_with n h = true <-> exists post, h = n ++ post.
Proof.
  revert h. induction n as [|x n IH]; intros h; simpl.
  - split; [intros _; now exists h | reflexivity].
  - destruct h as [|y h].
    + split; [discriminate | intros [post E]; discriminate].
    + rewrite andb_true_iff, N.eqb_eq, IH. split.
      * intros [-> [post ->]]. now exists post.
      * intros [post E]. injection E as -> ->. split; [reflexivity | now exists post].
Qed.

Lemma contains_spec n h :
  contains n h = true <-> exists pre post, h = pre ++ n ++ post.
Proof.
  induction h as [|y h IH]; simpl.
  - rewrite orb_false_r, starts_with_spec. split.
    + intros [post E]. now exists [], post.
    + intros [pre [post E]]. destruct pre; simpl in E; [now exists post | discriminate].
  - rewrite orb_true_iff, starts_with_spec, IH. split.
    + intros [[post E] | [pre [post E]]].
      * now exists [], post.
      * exists (y :: pre), post. simpl. now rewrite E.
    + intros [pre [post E]]. destruct pre as [|p pre]; simpl in E.
      * left. now exists post.
      * right. injection E as _ E. now exists pre, post.
Qed.

Lemma contains_nonempty n h : contains n h = true -> n <> [] -> h <> [].
Proof.
  intros C Hn ->. apply contains_spec in C. destruct C as [pre [post E]].
  symmetry in E. apply app_eq_nil in E. destruct E as [_ E].
  apply app_eq_nil in E. tauto.
Qed.

(** *** Stripping *)

Lemma lstrip_head s c r : lstrip s = c :: r -> is_space c = false.
Proof.
  induction s as [|x s IH]; simpl; [discriminate|].
  destruct (is_space x) eqn:E; [exact IH|]. intros [= -> _]. exact E.
Qed.

Lemma lstrip_snoc s c :
  is_space c = false -> exists l, lstrip (s ++ [c]) = l ++ [c].
Proof.
  intros Hc. induction s as [|x s IH]; simpl.
  - rewrite Hc. now exists [].
  - destruct (is_space x); [exact IH|]. now exists (x :: s).
Qed.

Lemma strip_head s c r : strip s = c :: r -> is_space c = false.
Proof.
  unfold strip, rstrip. destruct (lstrip s) as [|x t] eqn:E; simpl; [discriminate|].
  pose proof (lstrip_head _ _ _ E) as Hx.
  destruct (lstrip_snoc (rev t) x Hx) as [l ->].
  rewrite rev_app_distr. simpl. now intros [= <- _].
Qed.

Lemma lstrip_fixed c r : is_space c = false -> lstrip (c :: r) = c :: r.
Proof. intros E. simpl. now rewrite E. Qed.

(** *** Separators of the tokenizer *)

Lemma is_sep_space c : is_sep c = true -> is_space c = true.
Proof.
  unfold is_sep. rewrite orb_true_iff, !N.eqb_eq. now intros [-> | ->].
Qed.

Lemma strip_has_text s : strip s <> [] -> has_text (strip s) = true.
Proof.
  destruct (strip s) as [|c r] eqn:E; [congruence|]. intros _.
  apply strip_head in E. simpl.
  destruct (is_sep c) eqn:S; [|reflexivity].
  apply is_sep_space in S. congruence.
Qed.

Lemma has_text_nonempty s : has_text s = true -> s <> [].
Proof. now destruct s. Qed.

(** *** Splitting *)

Lemma split_not_nil sep s : split sep s <> [].
Proof.
  destruct s as [|c r]; simpl; [discriminate|].
  destruct (c =? sep)%N; [discriminate|]. now destruct (split sep r).
Qed.

Lemma concat_split sep s :
  concat (split sep s) = filter (fun c => negb (c =? sep)%N) s.
Proof.
  induction s as [|c r IH]; simpl; [reflexivity|].
  destruct (c =? sep)%N; simpl; [exact IH|].
  destruct (split sep r) as [|w ws2] eqn:E.
  - now destruct (split_not_nil sep r).
  - simpl in *. now rewrite IH.
Qed.

Lemma split_pieces sep s :
  Forall (fun w => forallb (fun c => negb (c =? sep)%N) w = true) (split sep s).
Proof.
  induction s as [|c r IH]; simpl.
  - now repeat constructor.
  - destruct (c =? sep)%N eqn:E.
    + now constructor.
    + destruct (split sep r) as [|w ws2].
      * constructor; [simpl; now rewrite E | constructor].
      * inversion IH; subst. constructor; [simpl; now rewrite E | assumption].
Qed.

Lemma concat_filter_nonempty (l : list str) : concat (filter nonempty l) = concat l.
Proof.
  induction l as [|w l IH]; simpl; [reflexivity|].
  destruct w; simpl; [exact IH | now rewrite IH].
Qed.

Lemma replace_filter_sep s :
  filter (fun c => negb (c =? 32)%N) (replace 12288 32 s)
  = filter (fun c => negb (is_sep c)) s.
Proof.
  unfold replace, is_sep. induction s as [|c r IH]; simpl; [reflexivity|].
  destruct (c =? 12288)%N eqn:E1; simpl.
  - rewrite orb_true_r. simpl. exact IH.
  - rewrite orb_false_r. destruct (c =? 32)%N; simpl; now rewrite IH.
Qed.

Lemma replace_no_fullwidth s :
  forallb (fun c => negb (c =? 12288)%N) (replace 12288 32 s) = true.
Proof.
  unfold replace. induction s as [|c r IH]; simpl; [reflexivity|].
  destruct (c =? 12288)%N eqn:E; simpl; [exact IH|]. now rewrite E.
Qed.

Lemma forallb_concat_in {A} (p : A -> bool) (l : list (list A)) w :
  forallb p (concat l) = true -> In w l -> forallb p w = true.
Proof.
  induction l as [|x l IH]; simpl; [tauto|].
  rewrite forallb_app, andb_true_iff. intros [H1 H2] [-> | Hin]; auto.
Qed.

Lemma filter_forallb {A} (p : A -> bool) (l : list A) : forallb p (filter p l) = true.
Proof.
  induction l as [|x l IH]; simpl; [reflexivity|].
  destruct (p x) eqn:E; simpl; [now rewrite E|exact IH].
Qed.

Lemma filter_nonempty_has {A} (p : A -> bool) (l : list A) :
  existsb p l = true -> filter p l <> [].
Proof.
  induction l as [|x l IH]; simpl; [discriminate|].
  destruct (p x); [discriminate | exact IH].
Qed.

End PyFacts.
Import PyFacts.
Module NumFacts.

Lemma round_half_even_compat x y : (x == y)%Q -> round_half_even x = round_half_even y.
Proof.
  intros E. unfold round_half_even.
  assert (F : Qfloor x = Qfloor y) by now apply Qfloor_comp.
  rewrite F.
  assert (C : (x - inject_Z (Qfloor y) ?= 1 # 2)%Q = (y - inject_Z (Qfloor y) ?= 1 # 2)%Q).
  { apply Qcompare_comp; [now rewrite E | reflexivity]. }
  now rewrite C.
Qed.

Lemma round_half_even_cases q :
  (round_half_even q = Qfloor q /\ (q - inject_Z (Qfloor q) <= 1 # 2)%Q)
  \/ (round_half_even q = Qfloor q + 1 /\ (1 # 2 <= q - inject_Z (Qfloor q))%Q).
Proof.
  unfold round_half_even.
  destruct (Qcompare_spec (q - inject_Z (Qfloor q)) (1 # 2)) as [E | L | G].
  - destruct (Z.even (Qfloor q)); [left | right]; (split; [reflexivity | rewrite E; apply Qle_refl]).
  - left. split; [reflexivity | now apply Qlt_le_weak].
  - right. split; [reflexivity | now apply Qlt_le_weak].
Qed.

Lemma round_half_even_mono x y : (x <= y)%Q -> round_half_even x <= round_half_even y.
Proof.
  intros L.
  pose proof (Qfloor_resp_le _ _ L) as F.
  destruct (Z.eq_dec (Qfloor x) (Qfloor y)) as [E | N].
  - unfold round_half_even. rewrite E.
    destruct (Qcompare_spec (x - inject_Z (Qfloor y)) (1 # 2)) as [Ex | Lx | Gx];
    destruct (Qcompare_spec (y - inject_Z (Qfloor y)) (1 # 2)) as [Ey | Ly | Gy];
      try lia; try (destruct (Z.even (Qfloor y)); lia); exfalso; lra.
  - destruct (round_half_even_cases x) as [[-> _] | [-> _]];
    destruct (round_half_even_cases y) as [[-> _] | [-> _]]; lia.
Qed.

Lemma round_half_even_inject n : round_half_even (inject_Z n) = n.
Proof.
  unfold round_half_even. rewrite Qfloor_Z.
  assert (C : (inject_Z n - inject_Z n ?= 1 # 2)%Q = Lt).
  { rewrite <- Qlt_alt. generalize (inject_Z n). intros q. lra. }
  now rewrite C.
Qed.

Lemma round4_compat x y : (x == y)%Q -> round4 x = round4 y.
Proof.
  intros E. unfold round4.
  now rewrite (round_half_even_compat (x * 10000) (y * 10000)) by now rewrite E.
Qed.

Lemma round4_value x : (round4 x == inject_Z (round_half_even (x * 10000)) / 10000)%Q.
Proof. unfold round4. apply Qred_correct. Qed.

Lemma round4_mono x y : (x <= y)%Q -> (round4 x <= round4 y)%Q.
Proof.
  intros L. rewrite !round4_value.
  assert (M : round_half_even (x * 10000) <= round_half_even (y * 10000)).
  { apply round_half_even_mono. lra. }
  apply Qmult_le_compat_r; [|unfold Qle; simpl; lia].
  now rewrite <- Zle_Qle.
Qed.

Lemma round4_zero : round4 0 = 0%Q.
Proof. reflexivity. Qed.

Lemma round4_one : round4 1 = 1%Q.
Proof. reflexivity. Qed.

Lemma round4_unit x : (0 <= x <= 1)%Q -> (0 <= round4 x <= 1)%Q.
Proof.
  intros [L U]. split.
  - rewrite <- round4_zero. now apply round4_mono.
  - rewrite <- round4_one. now apply round4_mono.
Qed.

Lemma py_min_Qmin a b : py_min a b = Qmin a b.
Proof.
  unfold py_min, Qmin, GenericMinMax.gmin.
  destruct (Qle_bool a b) eqn:E.
  - apply Qle_bool_iff in E.
    destruct (Qcompare_spec a b) as [_ | _ | G]; try reflexivity. exfalso; lra.
  - destruct (Qcompare_spec a b) as [Eq | L | _]; try reflexivity.
    + assert (Qle_bool a b = true) by (apply Qle_bool_iff; lra). congruence.
    + assert (Qle_bool a b = true) by (apply Qle_bool_iff; lra). congruence.
Qed.

Lemma py_min_unit a : (0 <= a)%Q -> (0 <= py_min a 1 <= 1)%Q.
Proof.
  intros L. unfold py_min. destruct (Qle_bool a 1) eqn:E.
  - apply Qle_bool_iff in E. lra.
  - lra.
Qed.

Lemma truediv_unit a b : 0 <= a <= b -> 1 <= b -> (0 <= truediv a b <= 1)%Q.
Proof.
  intros [La Lab] Lb. unfold truediv.
  assert (Hb : (0 < inject_Z b)%Q) by (change 0%Q with (inject_Z 0); rewrite <- Zlt_Qlt; lia).
  assert (Ha : (0 <= inject_Z a)%Q) by (change 0%Q with (inject_Z 0); rewrite <- Zle_Qle; lia).
  assert (Hab : (inject_Z a <= inject_Z b)%Q) by (rewrite <- Zle_Qle; lia).
  split.
  - apply Qle_shift_div_l; [assumption | lra].
  - apply Qle_shift_div_r; [assumption | lra].
Qed.

Lemma truediv_nonneg a b : 0 <= a -> 1 <= b -> (0 <= truediv a b)%Q.
Proof.
  intros La Lb. unfold truediv.
  assert (Hb : (0 < inject_Z b)%Q) by (change 0%Q with (inject_Z 0); rewrite <- Zlt_Qlt; lia).
  assert (Ha : (0 <= inject_Z a)%Q) by (change 0%Q with (inject_Z 0); rewrite <- Zle_Qle; lia).
  apply Qle_shift_div_l; [assumption | lra].
Qed.

End NumFacts.
Import NumFacts.

(* ===================================================================== *)
(** ** Facts about ranking                                                *)
(* ===================================================================== *)

Module RankingFacts.

Lemma insert_desc_perm x l : Permutation (insert_desc x l) (x :: l).
Proof.
  induction l as [|y l IH]; simpl; [reflexivity|].
  destruct (Qle_bool (score y) (score x)); [reflexivity|].
  rewrite IH. apply perm_swap.
Qed.

Lemma sort_desc_perm l : Permutation (sort_desc l) l.
Proof.
  induction l as [|x l IH]; simpl; [reflexivity|].
  rewrite insert_desc_perm. now constructor.
Qed.

Lemma sort_desc_length l : List.length (sort_desc l) = List.length l.
Proof. apply Permutation_length, sort_desc_perm. Qed.

Lemma insert_desc_sorted x l :
  StronglySorted score_ge l -> StronglySorted score_ge (insert_desc x l).
Proof.
  induction l as [|y l IH]; simpl; intros S.
  - constructor; constructor.
  - destruct (Qle_bool (score y) (score x)) eqn:E.
    + apply Qle_bool_iff in E. constructor; [assumption|].
      inversion S as [|? ? S' F]; subst. constructor; [exact E|].
      eapply Forall_impl; [|exact F]. unfold score_ge. intros a Ha. lra.
    + assert (L : (score x < score y)%Q).
      { apply Qnot_le_lt. intros C. apply Qle_bool_iff in C. congruence. }
      inversion S as [|? ? S' F]; subst. constructor; [now apply IH|].
      eapply Permutation_Forall; [symmetry; apply insert_desc_perm|].
      constructor; [unfold score_ge; lra | exact F].
Qed.

Lemma sort_desc_sorted l : StronglySorted score_ge (sort_desc l).
Proof.
  induction l as [|x l IH]; simpl; [constructor | now apply insert_desc_sorted].
Qed.

Lemma firstn_member {A} n (l : list A) x : In x (firstn n l) -> In x l.
Proof.
  revert n. induction l as [|y l IH]; intros [|n]; simpl; try tauto.
  intros [-> | Hin]; [now left | right; eapply IH, Hin].
Qed.

Lemma firstn_sorted n l : StronglySorted score_ge l -> StronglySorted score_ge (firstn n l).
Proof.
  revert n. induction l as [|x l IH]; intros [|n] S; simpl; try constructor.
  - inversion S; subst. now apply IH.
  - inversion S as [|? ? _ F]; subst.
    rewrite Forall_forall in *. intros a Ha. apply F. eapply firstn_member, Ha.
Qed.

Lemma slice_to_firstn {A} k (l : list A) : exists n, slice_to k l = firstn n l.
Proof. unfold slice_to. destruct (0 <=? k); eauto. Qed.

Lemma slice_to_sorted k l : StronglySorted score_ge l -> StronglySorted score_ge (slice_to k l).
Proof. intros S. destruct (slice_to_firstn k l) as [n ->]. now apply firstn_sorted. Qed.

Lemma slice_to_In {A} k (l : list A) x : In x (slice_to k l) -> In x l.
Proof. destruct (slice_to_firstn k l) as [n ->]. apply firstn_member. Qed.

Lemma slice_to_len {A} k (l : list A) : 0 <= k -> len (slice_to k l) = Z.min (len l) k.
Proof.
  intros Hk. unfold slice_to, len. replace (0 <=? k) with true by (symmetry; now apply Z.leb_le).
  rewrite length_firstn. lia.
Qed.

Lemma slice_to_prefix {A} k (l : list A) : exists rest, l = slice_to k l ++ rest.
Proof.
  destruct (slice_to_firstn k l) as [n ->]. exists (skipn n l).
  symmetry. apply firstn_skipn.
Qed.

End RankingFacts.
Import RankingFacts.

(* ===================================================================== *)
(** ** Facts about the search tool                                        *)
(* ===================================================================== *)

Module CourseSearchFacts.
Import CourseSearch.
Section WithRuntime.
Context `{PyRuntime}.

Lemma tokenize_eq s :
  _tokenize s = filter nonempty (split 32 (replace 12288 32 s)).
Proof. destruct s; reflexivity. Qed.

Lemma tokenize_concat s : concat (_tokenize s) = filter (fun c => negb (is_sep c)) s.
Proof.
  rewrite tokenize_eq, concat_filter_nonempty, concat_split. apply replace_filter_sep.
Qed.

Lemma tokenize_tokens s :
  Forall (fun t => t <> [] /\ forallb (fun c => negb (is_sep c)) t = true) (_tokenize s).
Proof.
  apply Forall_forall. intros t Hin. split.
  - rewrite tokenize_eq in Hin. apply filter_In in Hin. now destruct t.
  - eapply forallb_concat_in; [|exact Hin].
    rewrite tokenize_concat. apply filter_forallb.
Qed.

Lemma tokenize_not_nil s : has_text s = true -> _tokenize s <> [].
Proof.
  intros T E. pose proof (tokenize_concat s) as C. rewrite E in C. simpl in C.
  apply (filter_nonempty_has _ _ T). now symmetry.
Qed.

(** A successful call went through every stage of [_search_field]. *)
Lemma search_field_success field context traceId w r :
  fst (_search_field field context traceId w) = Return (Success r) ->
  exists term top_k container items,
    py_strip (search_term_arg (Common.parse_args context)) = Return term
    /\ term <> []
    /\ py_int (topK_arg (Common.parse_args context)) = Return top_k
    /\ _container (_init_cosmos w) = Some container
    /\ collect (query_items container (_build_query field (_tokenize (lower term)))
                  (query_params (_tokenize (lower term)))) (top_k * 3) []
       = Return items
    /\ r = {| query := term;
              field := field;
              tokens := _tokenize (lower term);
              cosmosQuery := _build_query field (_tokenize (lower term));
              matched := len (slice_to top_k
                                (sort_desc (score_items field term
                                              (_tokenize (lower term)) items)));
              topK := top_k;
              results := slice_to top_k
                           (sort_desc (score_items field term
                                         (_tokenize (lower term)) items)) |}.
Proof.
  unfold _search_field.
  destruct (py_strip _) as [term|e] eqn:Et; [|discriminate].
  destruct term as [|c term]; [discriminate|].
  destruct (py_int _) as [top_k|e] eqn:Ek; [|discriminate].
  destruct (_container (_init_cosmos w)) as [container|] eqn:Ec; [|discriminate].
  destruct (collect _ _ _) as [items|e] eqn:Ei.
  - simpl. intros [= <-]. exists (c :: term), top_k, container, items.
    repeat split; try assumption; try reflexivity. discriminate.
  - destruct (is_cosmos_http_error e); discriminate.
Qed.

(** The query of a successful call has at least one token. *)
Lemma stripped_tokens `{!LowerLaws} v term :
  py_strip v = Return term -> term <> [] -> _tokenize (lower term) <> [].
Proof.
  intros E N. destruct v; try discriminate. injection E as <-.
  apply tokenize_not_nil, lower_text. now apply strip_has_text.
Qed.

Lemma score_items_In field term tokens items h :
  In h (score_items field term tokens items) ->
  exists d, In d items
    /\ dict_get field d = VStr (fieldValue h)
    /\ forallb (fun tok => contains tok (lower (fieldValue h))) tokens = true
    /\ doc h = d
    /\ id h = dict_get (u "id") d
    /\ snippet h = make_snippet (fieldValue h)
    /\ score h =
         round4 (truediv (len (filter (fun tok => contains tok (lower (fieldValue h))) tokens))
                   (Z.max (len tokens) 1) * (7 # 10)
                 + py_min (truediv (len term) (Z.max (len (fieldValue h)) 1)) 1 * (3 # 10))%Q.
Proof.
  induction items as [|d items IH]; simpl; [tauto|].
  destruct (dict_get field d) as [| | | |val| |] eqn:Ev;
    try (intros Hin; destruct (IH Hin) as [d' [? ?]]; exists d'; tauto).
  destruct (forallb (fun tok => contains tok (lower val)) tokens) eqn:Ea.
  - simpl. intros [<- | Hin].
    + exists d. simpl. repeat split; auto.
    + destruct (IH Hin) as [d' [? ?]]. exists d'. tauto.
  - intros Hin. destruct (IH Hin) as [d' [? ?]]. exists d'. tauto.
Qed.

End WithRuntime.
End CourseSearchFacts.

(* ===================================================================== *)
(** ** Facts about binary64 scores and their ranking                      *)
(* ===================================================================== *)

Module Binary64Facts.

(** The product of two doubles does not depend on their order. *)
Lemma float_mul_comm (x y : float) : (x * y)%float = (y * x)%float.
Proof.
  apply Prim2SF_inj. rewrite !FloatAxioms.mul_spec.
  destruct (Prim2SF x) as [sx|sx| |sx mx ex], (Prim2SF y) as [sy|sy| |sy my ey];
    simpl; try reflexivity; try (now rewrite xorb_comm).
  unfold SF64mul, SFmul. now rewrite xorb_comm, Pos.mul_comm, Z.add_comm.
Qed.

Lemma SFcompare_Lt_asym a b : SFcompare a b = Some Lt -> SFcompare b a = Some Gt.
Proof.
  destruct a as [sa|sa| |sa ma ea], b as [sb|sb| |sb mb eb]; simpl;
    try discriminate; try (destruct sa; discriminate); try (destruct sb; discriminate);
    try (destruct sa, sb; now try discriminate).
  change (Pos.compare_cont Eq ma mb) with (ma ?= mb)%positive.
  change (Pos.compare_cont Eq mb ma) with (mb ?= ma)%positive.
  rewrite (Z.compare_antisym ea eb), (Pos.compare_antisym ma mb).
  destruct sa, sb; try discriminate; try reflexivity;
    destruct (ea ?= eb); simpl; try discriminate; try reflexivity;
    destruct (ma ?= mb)%positive; simpl; now try discriminate.
Qed.

Lemma SFcompare_Eq_trans a b s :
  SFcompare a s = Some Eq -> SFcompare b s = Some Eq -> SFcompare a b = Some Eq.
Proof.
  destruct a as [sa|sa| |sa ma ea], s as [ss|ss| |ss ms es], b as [sb|sb| |sb mb eb];
    simpl; try discriminate; try reflexivity;
    repeat match goal with x : bool |- _ => destruct x end;
    try discriminate; try reflexivity.
  all: change (Pos.compare_cont Eq ma ms) with (ma ?= ms)%positive;
    change (Pos.compare_cont Eq mb ms) with (mb ?= ms)%positive;
    change (Pos.compare_cont Eq ma mb) with (ma ?= mb)%positive;
    destruct (ea ?= es) eqn:Ea; try discriminate;
    destruct (eb ?= es) eqn:Eb; try discriminate;
    apply Z.compare_eq in Ea, Eb; subst; rewrite Z.compare_refl;
    destruct (ma ?= ms)%positive eqn:Ma; simpl; try discriminate;
    destruct (mb ?= ms)%positive eqn:Mb; simpl; try discriminate;
    apply Pos.compare_eq in Ma, Mb; subst; rewrite Pos.compare_refl; reflexivity.
Qed.

(** [<] on doubles is asymmetric. *)
Lemma float_ltb_asym (x y : float) :
  (x <? y)%float = true -> (y <? x)%float = false.
Proof.
  rewrite !FloatAxioms.ltb_spec. unfold SFltb.
  destruct (SFcompare (Prim2SF x) (Prim2SF y)) as [[| |]|] eqn:E; try discriminate.
  now rewrite (SFcompare_Lt_asym _ _ E).
Qed.

(** Two doubles equal to a third are not [<] one another. *)
Lemma float_eqb_not_ltb (x y s : float) :
  (x =? s)%float = true -> (y =? s)%float = true -> (x <? y)%float = false.
Proof.
  rewrite !FloatAxioms.eqb_spec, FloatAxioms.ltb_spec. unfold SFeqb, SFltb.
  destruct (SFcompare (Prim2SF x) (Prim2SF s)) as [[| |]|] eqn:Ex; try discriminate.
  destruct (SFcompare (Prim2SF y) (Prim2SF s)) as [[| |]|] eqn:Ey; try discriminate.
  now rewrite (SFcompare_Eq_trans _ _ _ Ex Ey).
Qed.

Lemma insert_desc64_perm x l : Permutation (Binary64.insert_desc x l) (x :: l).
Proof.
  induction l as [|y l IH]; simpl; [reflexivity|].
  destruct (Binary64.score x <? Binary64.score y)%float; [|reflexivity].
  rewrite IH. apply perm_swap.
Qed.

Lemma sort_desc64_perm l : Permutation (Binary64.sort_desc l) l.
Proof.
  induction l as [|x l IH]; simpl; [reflexivity|].
  rewrite insert_desc64_perm. now constructor.
Qed.

Lemma insert_desc64_sorted x l :
  Sorted not_below l -> Sorted not_below (Binary64.insert_desc x l).
Proof.
  induction l as [|y l IH]; simpl; intros S.
  - repeat constructor.
  - destruct (Binary64.score x <? Binary64.score y)%float eqn:E.
    + inversion S as [|? ? S' R]; subst. constructor; [now apply IH|].
      destruct l as [|z l]; simpl.
      * constructor. now apply float_ltb_asym.
      * destruct (Binary64.score x <? Binary64.score z)%float.
        -- inversion R; subst. now constructor.
        -- constructor. now apply float_ltb_asym.
    + constructor; [exact S|]. constructor. exact E.
Qed.

Lemma sort_desc64_sorted l : Sorted not_below (Binary64.sort_desc l).
Proof.
  induction l as [|x l IH]; simpl; [constructor | now apply insert_desc64_sorted].
Qed.

Lemma insert_desc64_stable s x l :
  with_score s (Binary64.insert_desc x l) = with_score s (x :: l).
Proof.
  unfold with_score. induction l as [|y l IH]; simpl; [reflexivity|].
  destruct (Binary64.score x <? Binary64.score y)%float eqn:E; [|reflexivity].
  simpl. rewrite IH. simpl.
  destruct (Binary64.score x =? s)%float eqn:Ex; [|reflexivity].
  destruct (Binary64.score y =? s)%float eqn:Ey; [|reflexivity].
  rewrite (float_eqb_not_ltb _ _ _ Ex Ey) in E. discriminate.
Qed.

Lemma sort_desc64_stable s l : with_score s (Binary64.sort_desc l) = with_score s l.
Proof.
  induction l as [|x l IH]; simpl; [reflexivity|].
  rewrite insert_desc64_stable. unfold with_score in *. simpl. now rewrite IH.
Qed.

Section WithRuntime.
Context `{PyRuntime}.
Import CourseSearch CourseSearchFacts.

(** A successful call went through every stage of [_search_field]. *)
Lemma search_field64_success field context traceId w r :
  fst (Binary64._search_field field context traceId w) = Return (Binary64.Success r) ->
  exists term top_k container items,
    py_strip (search_term_arg (Common.parse_args context)) = Return term
    /\ term <> []
    /\ py_int (topK_arg (Common.parse_args context)) = Return top_k
    /\ _container (_init_cosmos w) = Some container
    /\ collect (query_items container (_build_query field (_tokenize (lower term)))
                  (query_params (_tokenize (lower term)))) (top_k * 3) []
       = Return items
    /\ r = {| Binary64.query := term;
              Binary64.field := field;
              Binary64.tokens := _tokenize (lower term);
              Binary64.cosmosQuery := _build_query field (_tokenize (lower term));
              Binary64.matched :=
                len (slice_to top_k
                       (Binary64.sort_desc
                          (Binary64.score_items field term (_tokenize (lower term)) items)));
              Binary64.topK := top_k;
              Binary64.results :=
                slice_to top_k
                  (Binary64.sort_desc
                     (Binary64.score_items field term (_tokenize (lower term)) items)) |}.
Proof.
  unfold Binary64._search_field.
  destruct (py_strip _) as [term|e] eqn:Et; [|discriminate].
  destruct term as [|c term]; [discriminate|].
  destruct (py_int _) as [top_k|e] eqn:Ek; [|discriminate].
  destruct (_container (_init_cosmos w)) as [container|] eqn:Ec; [|discriminate].
  destruct (collect _ _ _) as [items|e] eqn:Ei.
  - simpl. intros [= <-]. exists (c :: term), top_k, container, items.
    repeat split; try assumption; try reflexivity. discriminate.
  - destruct (is_cosmos_http_error e); discriminate.
Qed.

(** With at least one token, all of them non-empty, the scoring loop
    computes the rows of the specification: the two [max(_, 1)] guards are
    idle, and the products do not depend on the order of their factors. *)
Lemma score_items64_spec_rows `{!LowerLaws} field term (tokens : list str) items :
  tokens <> [] -> Forall (fun t => t <> []) tokens ->
  Binary64.score_items field term tokens items = spec_rows field term tokens items.
Proof.
  intros Hne Htok. induction items as [|d items IH]; simpl; [reflexivity|].
  rewrite IH. destruct (dict_get field d) as [| | | |val| |]; try reflexivity.
  destruct (forallb (fun tok => contains tok (lower val)) tokens) eqn:Ea; [|reflexivity].
  simpl. f_equal. f_equal.
  assert (Ltok : Z.max (len tokens) 1 = len tokens).
  { pose proof (len_nonneg tokens). pose proof (len_nil_iff tokens).
    assert (len tokens <> 0) by tauto. lia. }
  assert (Lv : Z.max (len val) 1 = len val).
  { destruct tokens as [|t ts]; [congruence|].
    simpl in Ea. apply andb_true_iff in Ea. destruct Ea as [Ct _].
    inversion Htok as [|? ? Nt _]; subst.
    assert (Nv : val <> []).
    { intros ->. rewrite lower_nil in Ct. now apply (contains_nonempty _ _ Ct). }
    pose proof (len_nonneg val). pose proof (len_nil_iff val).
    assert (len val <> 0) by tauto. lia. }
  rewrite Ltok, Lv. unfold spec_score.
  now rewrite (float_mul_comm _ (Binary64.truediv _ _)), (float_mul_comm _ (Binary64.py_min _ _)).
Qed.

End WithRuntime.
End Binary64Facts.
Module EmbeddingFacts.
Section WithRuntime.
Context `{PyRuntime}.

Lemma slice_to_len_of {A B} k (l : list A) (l' : list B) :
  List.length l = List.length l' -> len (slice_to k l) = len (slice_to k l').
Proof.
  intros E. unfold slice_to, len.
  destruct (0 <=? k); rewrite ?length_firstn, E; reflexivity.
Qed.

Lemma score_items_same_rows field term tokens items :
  List.length (Binary64.score_items field term tokens items)
  = List.length (CourseSearch.score_items field term tokens items).
Proof.
  induction items as [|d items IH]; simpl; [reflexivity|].
  destruct (dict_get field d); try exact IH.
  destruct (forallb _ tokens); simpl; now rewrite ?IH.
Qed.

(** The two embeddings of [_search_field] take the same path: they leave
    the same world, raise and fail alike, and their successful replies
    differ in the scored results only. *)
Lemma binary64_same_path field context traceId w :
  snd (Binary64._search_field field context traceId w)
  = snd (CourseSearch._search_field field context traceId w)
  /\ match fst (Binary64._search_field field context traceId w),
           fst (CourseSearch._search_field field context traceId w) with
     | Raise e, Raise e' => e = e'
     | Return (Binary64.Failure p), Return (CourseSearch.Failure p') => p = p'
     | Return (Binary64.Success r), Return (CourseSearch.Success r') =>
         Binary64.query r = CourseSearch.query r'
         /\ Binary64.field r = CourseSearch.field r'
         /\ Binary64.tokens r = CourseSearch.tokens r'
         /\ Binary64.cosmosQuery r = CourseSearch.cosmosQuery r'
         /\ Binary64.matched r = CourseSearch.matched r'
         /\ Binary64.topK r = CourseSearch.topK r'
     | _, _ => False
     end.
Proof.
  unfold Binary64._search_field, CourseSearch._search_field.
  destruct (py_strip _) as [term|e]; [|now split].
  destruct term as [|c term]; [now split|].
  destruct (py_int _) as [top_k|e]; [|now split].
  destruct (_container (_init_cosmos w)); [|now split].
  destruct (collect _ _ _) as [items|e].
  - split; [reflexivity|]. cbn [fst Binary64.query Binary64.field Binary64.tokens
      Binary64.cosmosQuery Binary64.matched Binary64.topK CourseSearch.query
      CourseSearch.field CourseSearch.tokens CourseSearch.cosmosQuery
      CourseSearch.matched CourseSearch.topK].
    repeat split. apply slice_to_len_of.
    rewrite (Permutation_length (Binary64Facts.sort_desc64_perm _)).
    rewrite sort_desc_length. apply score_items_same_rows.
  - destruct (is_cosmos_http_error e); now split.
Qed.

End WithRuntime.
End EmbeddingFacts.

(* ===================================================================== *)
(** ** The claims                                                         *)
(* ===================================================================== *)

Section PredicateScoring.
Context `{PyRuntime}.
Import CourseSearch CourseSearchFacts Binary64Facts.

(** C1.  Predicate strategy, scores in binary64: the search term is trimmed
    into [query]; each fetched document whose string field contains every
    lowercase token gets one row, scored
    [round(0.7 * matched/total + 0.3 * min(len(query)/len(v), 1.0), 4)]; the
    results are the first [topK] of those rows in the one order that has no
    score followed by a larger one and keeps rows of equal score in fetch
    order. *)
Theorem C1_predicate_score_formula_stable_ties `{!LowerLaws}
    field context traceId w r :
  fst (Binary64._search_field field context traceId w) = Return (Binary64.Success r) ->
  exists container items ranked,
    py_strip (search_term_arg (Common.parse_args context)) = Return (Binary64.query r)
    /\ py_int (topK_arg (Common.parse_args context)) = Return (Binary64.topK r)
    /\ Binary64.tokens r = _tokenize (lower (Binary64.query r))
    /\ Binary64.cosmosQuery r = _build_query field (Binary64.tokens r)
    /\ _container (_init_cosmos w) = Some container
    /\ collect (query_items container (Binary64.cosmosQuery r)
                  (query_params (Binary64.tokens r)))
         (Binary64.topK r * 3) [] = Return items
    /\ Binary64.results r = slice_to (Binary64.topK r) ranked
    /\ Permutation ranked
         (spec_rows field (Binary64.query r) (Binary64.tokens r) items)
    /\ Sorted not_below ranked
    /\ forall s, with_score s ranked
                 = with_score s
                     (spec_rows field (Binary64.query r) (Binary64.tokens r) items).
Proof.
  intros E. destruct (search_field64_success _ _ _ _ _ E)
    as (term & top_k & container & items & Et & Nt & Ek & Ec & Ei & ->).
  cbn [Binary64.query Binary64.tokens Binary64.cosmosQuery Binary64.topK
       Binary64.results].
  pose proof (stripped_tokens _ _ Et Nt) as Ntok.
  assert (Htok : Forall (fun t => t <> []) (_tokenize (lower term))).
  { eapply Forall_impl; [|apply tokenize_tokens]. simpl. tauto. }
  set (rows := Binary64.score_items field term (_tokenize (lower term)) items).
  exists container, items, (Binary64.sort_desc rows).
  rewrite <- (score_items64_spec_rows field term _ items Ntok Htok). fold rows.
  repeat split; try assumption.
  - apply sort_desc64_perm.
  - apply sort_desc64_sorted.
  - intros s. apply sort_desc64_stable.
Qed.

End PredicateScoring.

Module SampleFacts.

Lemma lower_laws : @LowerLaws Sample.runtime.
Proof.
  split; [reflexivity|].
  intros s. simpl. unfold Sample.ascii_lower, has_text.
  induction s as [|c s IH]; simpl; [discriminate|].
  rewrite !orb_true_iff. intros [Hc | Hs]; [left | right; now apply IH].
  destruct ((65 <=? c) && (c <=? 90))%N eqn:E; [|exact Hc].
  apply andb_true_iff in E. destruct E as [E1 E2].
  apply N.leb_le in E1, E2. unfold is_sep.
  replace (c + 32 =? 32)%N with false by (symmetry; apply N.eqb_neq; lia).
  replace (c + 32 =? 12288)%N with false by (symmetry; apply N.eqb_neq; lia).
  reflexivity.
Qed.

End SampleFacts.

Lemma C1_witness :
  fst (Binary64._search_field (u "courseName") Sample.near_tie_context (u "trace")
         (Sample.world_of Sample.near_tie_courses))
  = Return (Binary64.Success Sample.near_tie_reply)
  /\ exists container items ranked,
       py_strip (CourseSearch.search_term_arg (Common.parse_args Sample.near_tie_context))
       = Return (Binary64.query Sample.near_tie_reply)
       /\ py_int (CourseSearch.topK_arg (Common.parse_args Sample.near_tie_context))
          = Return (Binary64.topK Sample.near_tie_reply)
       /\ Binary64.tokens Sample.near_tie_reply
          = CourseSearch._tokenize (lower (Binary64.query Sample.near_tie_reply))
       /\ Binary64.cosmosQuery Sample.near_tie_reply
          = CourseSearch._build_query (u "courseName")
              (Binary64.tokens Sample.near_tie_reply)
       /\ _container (_init_cosmos (Sample.world_of Sample.near_tie_courses))
          = Some container
       /\ collect (query_items container (Binary64.cosmosQuery Sample.near_tie_reply)
                     (CourseSearch.query_params (Binary64.tokens Sample.near_tie_reply)))
            (Binary64.topK Sample.near_tie_reply * 3) [] = Return items
       /\ Binary64.results Sample.near_tie_reply
          = slice_to (Binary64.topK Sample.near_tie_reply) ranked
       /\ Permutation ranked
            (spec_rows (u "courseName") (Binary64.query Sample.near_tie_reply)
               (Binary64.tokens Sample.near_tie_reply) items)
       /\ Sorted not_below ranked
       /\ forall s, with_score s ranked
                    = with_score s
                        (spec_rows (u "courseName") (Binary64.query Sample.near_tie_reply)
                           (Binary64.tokens Sample.near_tie_reply) items).
Proof.
  split.
  - vm_compute. reflexivity.
  - apply (@C1_predicate_score_formula_stable_ties Sample.runtime SampleFacts.lower_laws
             (u "courseName") Sample.near_tie_context (u "trace")
             (Sample.world_of Sample.near_tie_courses) Sample.near_tie_reply).
    vm_compute. reflexivity.
Defined.


Section PredicateContainment.
Context `{PyRuntime}.
Import CourseSearch CourseSearchFacts.

(** C3.  Predicate strategy: the tokens of a reply are the non-empty pieces
    of the lowercased query cut at ASCII and full-width spaces, and the
    lowercased field value of every returned result contains each of them
    as a substring. *)
Theorem C3_results_contain_every_token field context traceId w r :
  fst (_search_field field context traceId w) = Return (Success r) ->
  tokens r = _tokenize (lower (query r))
  /\ concat (tokens r) = filter (fun c => negb (is_sep c)) (lower (query r))
  /\ Forall (fun t => t <> [] /\ forallb (fun c => negb (is_sep c)) t = true) (tokens r)
  /\ Forall (fun h =>
               dict_get field (doc h) = VStr (fieldValue h)
               /\ Forall (fun t => exists pre post,
                                     lower (fieldValue h) = pre ++ t ++ post)
                    (tokens r))
       (results r).
Proof.
  intros E. destruct (search_field_success _ _ _ _ _ E)
    as (term & top_k & container & items & Et & Nt & Ek & Ec & Ei & ->).
  cbn [query tokens results].
  split; [reflexivity|]. split; [apply tokenize_concat|].
  split; [apply tokenize_tokens|].
  apply Forall_forall. intros h Hin.
  apply slice_to_In in Hin.
  apply (Permutation_in _ (sort_desc_perm _)) in Hin.
  destruct (score_items_In _ _ _ _ _ Hin) as (d & _ & Ev & Ea & Ed & _).
  split; [now rewrite Ed|].
  apply Forall_forall. intros t Ht.
  rewrite forallb_forall in Ea. apply contains_spec. now apply Ea.
Qed.

End PredicateContainment.

Lemma C3_witness :
  fst (CourseSearch._search_field (u "courseName") Sample.search_context (u "trace")
         (Sample.world_of Sample.courses))
  = Return (CourseSearch.Success Sample.search_reply)
  /\ CourseSearch.tokens Sample.search_reply = [u "python"; u "入門"]
  /\ Forall (fun h =>
               Forall (fun t => exists pre post,
                                  lower (fieldValue h) = pre ++ t ++ post)
                 (CourseSearch.tokens Sample.search_reply))
       (CourseSearch.results Sample.search_reply).
Proof.
  assert (E : fst (CourseSearch._search_field (u "courseName") Sample.search_context
                     (u "trace") (Sample.world_of Sample.courses))
              = Return (CourseSearch.Success Sample.search_reply))
    by (vm_compute; reflexivity).
  split; [exact E|]. split; [vm_compute; reflexivity|].
  destruct (C3_results_contain_every_token _ _ _ _ _ E) as (_ & _ & _ & F).
  eapply Forall_impl; [|exact F]. intros h [_ Fh]. exact Fh.
Defined.

(* ===================================================================== *)
(** ** Facts about the scan implementation and the result shape           *)
(* ===================================================================== *)

Module CoursesFacts.
Import Courses.
Section WithRuntime.
Context `{PyRuntime}.

(** A successful call went through every stage of [_handler]. *)
Lemma handler_success field context w r :
  fst (_handler field context w) = Return (Success r) ->
  exists args term top_k max_scan min_score,
    handler_args context = inr args
    /\ py_strip (py_or (dict_get (u "searchTerm") args) (VStr [])) = Return term
    /\ term <> []
    /\ py_int (py_or (dict_get (u "topK") args) (VInt 5)) = Return top_k
    /\ py_int (py_or (dict_get (u "maxScan") args) (VInt 200)) = Return max_scan
    /\ py_float (py_or (dict_get (u "minScore") args) (VFloat (4 # 10))) = Return min_score
    /\ r = fst (_fuzzy_search field term top_k max_scan min_score w).
Proof.
  unfold _handler.
  destruct (handler_args context) as [err|args]; [discriminate|].
  destruct (py_strip _) as [term|e] eqn:Et; [|discriminate].
  destruct term as [|c term]; [discriminate|].
  destruct (py_int (py_or (dict_get (u "topK") args) _)) as [top_k|e] eqn:Ek; [|discriminate].
  destruct (py_int (py_or (dict_get (u "maxScan") args) _)) as [max_scan|e] eqn:Em;
    [|discriminate].
  destruct (py_float _) as [min_score|e] eqn:Es; [|discriminate].
  destruct (_fuzzy_search field (c :: term) top_k max_scan min_score w) as [r' w'] eqn:Ef.
  simpl. intros [= <-].
  exists args, (c :: term), top_k, max_scan, min_score.
  repeat split; try assumption; try reflexivity; try discriminate.
  now rewrite Ef.
Qed.

Lemma fuzzy_search_reply field term top_k max_scan min_score w :
  fst (_fuzzy_search field term top_k max_scan min_score w)
  = let scored := sort_desc (score_docs field (lower (strip term)) min_score
                               (fst (_fetch_courses max_scan w))) in
    {| query := term;
       field := field;
       topK := top_k;
       maxScan := max_scan;
       minScore := min_score;
       matched := len (slice_to top_k scored);
       results := slice_to top_k scored |}.
Proof.
  unfold _fuzzy_search. now destruct (_fetch_courses max_scan w).
Qed.

Lemma score_docs_In field term_norm min_score docs h :
  In h (score_docs field term_norm min_score docs) ->
  exists d, In d docs
    /\ dict_get field d = VStr (fieldValue h)
    /\ (min_score <= _score term_norm (lower (fieldValue h)))%Q
    /\ score h = round4 (_score term_norm (lower (fieldValue h)))
    /\ snippet h = make_snippet (fieldValue h)
    /\ doc h = d.
Proof.
  induction docs as [|d docs IH]; simpl; [tauto|].
  destruct (dict_get field d) as [| | | |value| |] eqn:Ev;
    try (intros Hin; destruct (IH Hin) as [d' [? ?]]; exists d'; tauto).
  destruct (Qle_bool min_score (_score term_norm (lower value))) eqn:Es.
  - simpl. intros [<- | Hin].
    + exists d. simpl. apply Qle_bool_iff in Es. repeat split; auto.
    + destruct (IH Hin) as [d' [? ?]]. exists d'. tauto.
  - intros Hin. destruct (IH Hin) as [d' [? ?]]. exists d'. tauto.
Qed.

Lemma score_unit a b :
  (forall x y, 0 <= ratio x y <= 1)%Q -> (0 <= _score a b <= 1)%Q.
Proof.
  intros R. unfold _score. destruct a, b; try lra.
  destruct (contains _ _); [lra | apply R].
Qed.

End WithRuntime.
End CoursesFacts.

Module ShapeFacts.

Lemma firstn_short {A} n (l : list A) : (List.length l <= n)%nat -> firstn n l = l.
Proof.
  revert n. induction l as [|x l IH]; intros [|n] L; simpl in *; try reflexivity; try lia.
  f_equal. apply IH. lia.
Qed.

Lemma snippet_shape v :
  (len v <= 120 -> make_snippet v = v)
  /\ (120 < len v -> make_snippet v = firstn 120 v ++ u "...")
  /\ len (make_snippet v) <= 123.
Proof.
  unfold make_snippet, len. destruct (Z.of_nat (List.length v) >? 120) eqn:E.
  - assert (120 < Z.of_nat (List.length v)) by lia. repeat split; intros; try lia.
    rewrite length_app, length_firstn. change (List.length (u "...")) with 3%nat. lia.
  - assert (Z.of_nat (List.length v) <= 120) by lia. rewrite app_nil_r.
    repeat split; intros; try lia.
    + apply firstn_short. lia.
    + rewrite length_firstn. lia.
Qed.

Lemma filter_len_le {A} (p : A -> bool) (l : list A) : len (filter p l) <= len l.
Proof.
  unfold len. induction l as [|x l IH]; simpl; [lia|]. destruct (p x); simpl; lia.
Qed.

Lemma predicate_score_unit (hits total lq lv : Z) :
  0 <= hits <= total -> 0 <= lq -> 0 <= lv ->
  (0 <= round4 (truediv hits (Z.max total 1) * (7 # 10)
                + py_min (truediv lq (Z.max lv 1)) 1 * (3 # 10)) <= 1)%Q.
Proof.
  intros Hh Hq Hv. apply round4_unit.
  assert (C : (0 <= truediv hits (Z.max total 1) <= 1)%Q) by (apply truediv_unit; lia).
  assert (B : (0 <= py_min (truediv lq (Z.max lv 1)) 1 <= 1)%Q).
  { apply py_min_unit, truediv_nonneg; lia. }
  lra.
Qed.

End ShapeFacts.
Import ShapeFacts.

Section ResultShape.
Context `{PyRuntime}.

(** C7.  In both strategies every returned result has a score in [0, 1]
    and, as snippet, the first 120 characters of its field value, followed
    by "..." exactly when the value is longer than 120; so at most 123
    characters.  The scan strategy takes its score from
    [SequenceMatcher.ratio], which lies in [0, 1]. *)
Theorem C7_score_in_unit_interval_snippet_capped :
  (forall a b, 0 <= ratio a b <= 1)%Q ->
  (forall field context traceId w r,
      fst (CourseSearch._search_field field context traceId w)
      = Return (CourseSearch.Success r) ->
      Forall (fun h => dict_get field (doc h) = VStr (fieldValue h) /\ well_shaped h)
        (CourseSearch.results r))
  /\ (forall field context w r,
         fst (Courses._handler field context w) = Return (Courses.Success r) ->
         Forall (fun h => dict_get field (doc h) = VStr (fieldValue h) /\ well_shaped h)
           (Courses.results r)).
Proof.
  intros R. split.
  - intros field context traceId w r E.
    destruct (CourseSearchFacts.search_field_success _ _ _ _ _ E)
      as (term & top_k & container & items & _ & _ & _ & _ & _ & ->).
    cbn [CourseSearch.results]. apply Forall_forall. intros h Hin.
    apply slice_to_In in Hin. apply (Permutation_in _ (sort_desc_perm _)) in Hin.
    destruct (CourseSearchFacts.score_items_In _ _ _ _ _ Hin)
      as (d & _ & Ev & _ & Ed & _ & Es & Esc).
    split; [now rewrite Ed|]. unfold well_shaped. rewrite Es, Esc.
    split; [|apply snippet_shape].
    apply predicate_score_unit; try apply len_nonneg.
    split; [apply len_nonneg | apply filter_len_le].
  - intros field context w r E.
    destruct (CoursesFacts.handler_success _ _ _ _ E)
      as (args & term & top_k & max_scan & min_score & _ & _ & _ & _ & _ & _ & ->).
    rewrite CoursesFacts.fuzzy_search_reply. cbn [Courses.results].
    apply Forall_forall. intros h Hin.
    apply slice_to_In in Hin. apply (Permutation_in _ (sort_desc_perm _)) in Hin.
    destruct (CoursesFacts.score_docs_In _ _ _ _ _ Hin) as (d & _ & Ev & _ & Esc & Es & Ed).
    split; [now rewrite Ed|]. unfold well_shaped. rewrite Es, Esc.
    split; [|apply snippet_shape].
    apply round4_unit, CoursesFacts.score_unit, R.
Qed.

End ResultShape.

Lemma sample_ratio_unit : (forall a b, 0 <= Sample.ratio_table a b <= 1)%Q.
Proof.
  intros a b. unfold Sample.ratio_table.
  destruct (str_eqb a (u "ab") && str_eqb b (u "bxxx")); lra.
Qed.

Lemma C7_witness :
  (forall a b, 0 <= ratio a b <= 1)%Q
  /\ fst (CourseSearch._search_field (u "courseName") Sample.search_context (u "trace")
            (Sample.world_of Sample.courses))
     = Return (CourseSearch.Success Sample.search_reply)
  /\ Forall (fun h => dict_get (u "courseName") (doc h) = VStr (fieldValue h)
                      /\ well_shaped h)
       (CourseSearch.results Sample.search_reply)
  /\ fst (Courses._handler (u "courseName") Sample.search_context
            (Sample.world_of Sample.courses))
     = Return (Courses.Success Sample.scan_reply)
  /\ Forall (fun h => dict_get (u "courseName") (doc h) = VStr (fieldValue h)
                      /\ well_shaped h)
       (Courses.results Sample.scan_reply).
Proof.
  destruct (C7_score_in_unit_interval_snippet_capped (H:=Sample.runtime) sample_ratio_unit)
    as [P S].
  split; [exact sample_ratio_unit|].
  split; [vm_compute; reflexivity|].
  split; [apply (P _ Sample.search_context (u "trace") (Sample.world_of Sample.courses));
          vm_compute; reflexivity|].
  split; [vm_compute; reflexivity|].
  apply (S _ Sample.search_context (Sample.world_of Sample.courses)); vm_compute; reflexivity.
Defined.

Section Ranking.
Context `{PyRuntime}.

(** C2 (as amended).  In both strategies the results of a successful
    search are sorted by non-increasing score and [matched] is their number;
    when the effective [topK] is not negative there are at most [topK] of
    them and [matched] is the minimum of [topK] and the number of surviving
    candidates. *)
Theorem C2_sorted_and_capped_for_nonnegative_topK :
  (forall field context traceId w r,
      fst (CourseSearch._search_field field context traceId w)
      = Return (CourseSearch.Success r) ->
      StronglySorted score_ge (CourseSearch.results r)
      /\ CourseSearch.matched r = len (CourseSearch.results r)
      /\ exists container items,
           _container (_init_cosmos w) = Some container
           /\ collect (query_items container (CourseSearch.cosmosQuery r)
                         (CourseSearch.query_params (CourseSearch.tokens r)))
                (CourseSearch.topK r * 3) [] = Return items
           /\ (0 <= CourseSearch.topK r ->
               len (CourseSearch.results r) <= CourseSearch.topK r
               /\ CourseSearch.matched r
                  = Z.min (len (CourseSearch.score_items field (CourseSearch.query r)
                                  (CourseSearch.tokens r) items))
                      (CourseSearch.topK r)))
  /\ (forall field context w r,
         fst (Courses._handler field context w) = Return (Courses.Success r) ->
         StronglySorted score_ge (Courses.results r)
         /\ Courses.matched r = len (Courses.results r)
         /\ (0 <= Courses.topK r ->
             len (Courses.results r) <= Courses.topK r
             /\ Courses.matched r
                = Z.min (len (Courses.score_docs field (lower (strip (Courses.query r)))
                                (Courses.minScore r)
                                (fst (Courses._fetch_courses (Courses.maxScan r) w))))
                    (Courses.topK r))).
Proof.
  split.
  - intros field context traceId w r E.
    destruct (CourseSearchFacts.search_field_success _ _ _ _ _ E)
      as (term & top_k & container & items & _ & _ & _ & Ec & Ei & ->).
    cbn [CourseSearch.results CourseSearch.matched CourseSearch.topK
         CourseSearch.query CourseSearch.tokens CourseSearch.cosmosQuery].
    split; [apply slice_to_sorted, sort_desc_sorted|]. split; [reflexivity|].
    exists container, items. split; [exact Ec|]. split; [exact Ei|].
    intros K. rewrite (slice_to_len _ _ K).
    set (rows := CourseSearch.score_items field term
                   (CourseSearch._tokenize (lower term)) items).
    assert (L : len (sort_desc rows) = len rows)
      by (unfold len; now rewrite sort_desc_length).
    rewrite L. lia.
  - intros field context w r E.
    destruct (CoursesFacts.handler_success _ _ _ _ E)
      as (args & term & top_k & max_scan & min_score & _ & _ & _ & _ & _ & _ & ->).
    rewrite CoursesFacts.fuzzy_search_reply.
    cbn [Courses.results Courses.matched Courses.topK Courses.query
         Courses.minScore Courses.maxScan].
    split; [apply slice_to_sorted, sort_desc_sorted|]. split; [reflexivity|].
    intros K. rewrite (slice_to_len _ _ K).
    set (rows := Courses.score_docs field (lower (strip term)) min_score
                   (fst (Courses._fetch_courses max_scan w))).
    assert (L : len (sort_desc rows) = len rows)
      by (unfold len; now rewrite sort_desc_length).
    rewrite L. lia.
Qed.

End Ranking.

Lemma C2_witness :
  fst (CourseSearch._search_field (u "courseName") Sample.search_context (u "trace")
         (Sample.world_of Sample.courses))
  = Return (CourseSearch.Success Sample.search_reply)
  /\ fst (Courses._handler (u "courseName") Sample.search_context
            (Sample.world_of Sample.courses))
     = Return (Courses.Success Sample.scan_reply)
  /\ 0 <= CourseSearch.topK Sample.search_reply
  /\ 0 <= Courses.topK Sample.scan_reply
  /\ StronglySorted score_ge (CourseSearch.results Sample.search_reply)
  /\ len (CourseSearch.results Sample.search_reply) <= CourseSearch.topK Sample.search_reply
  /\ StronglySorted score_ge (Courses.results Sample.scan_reply)
  /\ len (Courses.results Sample.scan_reply) <= Courses.topK Sample.scan_reply.
Proof.
  assert (E1 : fst (CourseSearch._search_field (u "courseName") Sample.search_context
                      (u "trace") (Sample.world_of Sample.courses))
               = Return (CourseSearch.Success Sample.search_reply))
    by (vm_compute; reflexivity).
  assert (E2 : fst (Courses._handler (u "courseName") Sample.search_context
                      (Sample.world_of Sample.courses))
               = Return (Courses.Success Sample.scan_reply))
    by (vm_compute; reflexivity).
  assert (K1 : 0 <= CourseSearch.topK Sample.search_reply) by (vm_compute; discriminate).
  assert (K2 : 0 <= Courses.topK Sample.scan_reply) by (vm_compute; discriminate).
  destruct (C2_sorted_and_capped_for_nonnegative_topK (H:=Sample.runtime)) as [P S].
  destruct (P _ _ _ _ _ E1) as (S1 & _ & c & items & _ & _ & B1).
  destruct (S _ _ _ _ E2) as (S2 & _ & B2).
  destruct (B1 K1) as [L1 _]. destruct (B2 K2) as [L2 _].
  exact (conj E1 (conj E2 (conj K1 (conj K2 (conj S1 (conj L1 (conj S2 L2))))))).
Defined.

(** With [topK = -1] the predicate tool stops after the first document and
    returns [results[:-1]], the scan tool returns all but the last of its
    four survivors: neither list is bounded by [topK], and [matched] is not
    the minimum of the survivors and [topK]. *)
Lemma C2_counterexample_negative_topK :
  (exists r items,
      fst (CourseSearch.search_courses_by_name_mcp Sample.negative_topK_context
             (u "trace") (Sample.world_of Sample.courses))
      = Return (CourseSearch.Success r)
      /\ collect (Sample.feed_of Sample.courses) (CourseSearch.topK r * 3) [] = Return items
      /\ CourseSearch.topK r = -1
      /\ len (CourseSearch.score_items (u "courseName") (CourseSearch.query r)
                (CourseSearch.tokens r) items) = 1
      /\ CourseSearch.matched r = 0
      /\ ~ len (CourseSearch.results r) <= CourseSearch.topK r
      /\ CourseSearch.matched r
         <> Z.min (len (CourseSearch.score_items (u "courseName") (CourseSearch.query r)
                          (CourseSearch.tokens r) items))
              (CourseSearch.topK r))
  /\ (exists r,
         fst (Courses._handler (u "courseName") Sample.negative_topK_context
                (Sample.world_of Sample.courses))
         = Return (Courses.Success r)
         /\ Courses.topK r = -1
         /\ len (Courses.results r) = 3
         /\ ~ len (Courses.results r) <= Courses.topK r
         /\ Courses.matched r
            <> Z.min (len (Courses.score_docs (u "courseName")
                             (lower (strip (Courses.query r))) (Courses.minScore r)
                             (fst (Courses._fetch_courses (Courses.maxScan r)
                                     (Sample.world_of Sample.courses)))))
                 (Courses.topK r)).
Proof.
  split.
  - eexists. eexists. split; [vm_compute; reflexivity|].
    split; [vm_compute; reflexivity|].
    repeat split; by_evaluation.
  - eexists. split; [vm_compute; reflexivity|].
    repeat split; by_evaluation.
Qed.

Module StripFacts.

Lemma lstrip_idem s : lstrip (lstrip s) = lstrip s.
Proof.
  induction s as [|c s IH]; simpl; [reflexivity|].
  destruct (is_space c) eqn:E; [exact IH|]. simpl. now rewrite E.
Qed.

Lemma strip_idem s : strip (strip s) = strip s.
Proof.
  assert (L : lstrip (strip s) = strip s).
  { destruct (strip s) as [|c r] eqn:E; [reflexivity|].
    apply lstrip_fixed. eapply strip_head, E. }
  unfold strip at 1. rewrite L. unfold strip, rstrip.
  now rewrite rev_involutive, lstrip_idem.
Qed.

End StripFacts.

Section ScanThreshold.
Context `{PyRuntime}.
Import Courses.

(** C4 (as amended).  Scan strategy: the threshold is applied to the
    unrounded similarity [s] of the lowercased trimmed query and the
    lowercased field value, and the reported score is [round(s, 4)]: every
    result has [s >= minScore] and [score >= round(minScore, 4)], hence
    [score >= minScore] whenever [minScore] has at most four decimals, as
    the default 0.4 has; and when the query is a literal substring of the
    field value the score is exactly 1. *)
Theorem C4_threshold_on_unrounded_similarity `{!LowerLaws} field context w r :
  fst (_handler field context w) = Return (Success r) ->
  Forall (fun h =>
            let s := _score (lower (strip (query r))) (lower (fieldValue h)) in
            (minScore r <= s)%Q
            /\ score h = round4 s
            /\ (round4 (minScore r) <= score h)%Q
            /\ ((round4 (minScore r) == minScore r)%Q -> (minScore r <= score h)%Q)
            /\ (contains (lower (strip (query r))) (lower (fieldValue h)) = true ->
                score h = 1%Q))
    (results r)
  /\ (forall args, handler_args context = inr args ->
                   truthy (dict_get (u "minScore") args) = false ->
                   minScore r = (4 # 10)%Q /\ (round4 (minScore r) == minScore r)%Q).
Proof.
  intros E. destruct (CoursesFacts.handler_success _ _ _ _ E)
    as (args & term & top_k & max_scan & min_score & Ea & Et & Nt & _ & _ & Em & ->).
  rewrite CoursesFacts.fuzzy_search_reply. cbn [results minScore query]. split.
  - apply Forall_forall. intros h Hin.
    apply slice_to_In in Hin. apply (Permutation_in _ (sort_desc_perm _)) in Hin.
    destruct (CoursesFacts.score_docs_In _ _ _ _ _ Hin) as (d & _ & _ & Ls & Es & _).
    cbv zeta. split; [exact Ls|]. split; [exact Es|].
    assert (M : (round4 min_score <= score h)%Q) by (rewrite Es; now apply round4_mono).
    split; [exact M|]. split; [intros Q4; now rewrite <- Q4|].
    intros C. rewrite Es.
    assert (Nq : lower (strip term) <> []).
    { destruct (py_or _ _); try discriminate. injection Et as <-.
      rewrite StripFacts.strip_idem.
      apply has_text_nonempty, lower_text. now apply strip_has_text. }
    pose proof (contains_nonempty _ _ C Nq) as Nv.
    unfold _score. destruct (lower (strip term)); [congruence|].
    destruct (lower (fieldValue h)); [congruence|]. now rewrite C.
  - intros args' Ea' F. rewrite Ea in Ea'. injection Ea' as <-.
    unfold py_or in Em. rewrite F in Em. simpl in Em. injection Em as <-.
    split; reflexivity.
Qed.

End ScanThreshold.

Lemma C4_witness :
  fst (Courses._handler (u "courseName") Sample.search_context
         (Sample.world_of Sample.courses))
  = Return (Courses.Success Sample.scan_reply)
  /\ Forall (fun h => (Courses.minScore Sample.scan_reply <= score h)%Q
                      /\ score h = 1%Q)
       (Courses.results Sample.scan_reply).
Proof.
  assert (E : fst (Courses._handler (u "courseName") Sample.search_context
                     (Sample.world_of Sample.courses))
              = Return (Courses.Success Sample.scan_reply))
    by (vm_compute; reflexivity).
  split; [exact E|].
  destruct (@C4_threshold_on_unrounded_similarity Sample.runtime SampleFacts.lower_laws
              _ _ _ _ E) as [F _].
  rewrite Forall_forall in *. intros h Hin.
  destruct (F h Hin) as (_ & _ & _ & Q4 & C). split.
  - apply Q4. vm_compute. reflexivity.
  - apply C. clear Q4 C F. revert h Hin. apply Forall_forall.
    repeat constructor.
Defined.

(** The document ["bxxx"] has similarity 1/3 to the query ["ab"]; it passes
    [minScore = 0.33333] and is reported with score 0.3333, below the
    threshold. *)
Lemma C4_counterexample_rounded_below_threshold :
  exists r h,
    fst (Courses._handler (u "courseName") Sample.threshold_context
           (Sample.world_of [Sample.course "x1" "bxxx"]))
    = Return (Courses.Success r)
    /\ In h (Courses.results r)
    /\ Courses.minScore r = (33333 # 100000)%Q
    /\ score h = (3333 # 10000)%Q
    /\ ~ (Courses.minScore r <= score h)%Q.
Proof.
  eexists. eexists. split; [vm_compute; reflexivity|].
  split; [left; reflexivity|]. repeat split; by_evaluation.
Qed.

Section BlankQuery.
Context `{PyRuntime}.

(** C5 (as amended).  A search whose query is empty or blank after
    trimming is rejected before anything touches the store: the world,
    with its globals and its journal of store calls, is returned as it was.
    The predicate tool answers with a [ValidationError] envelope; the scan
    handler answers with the bare map [{"error": "searchTerm は必須です"}],
    which carries no [type]. *)
Theorem C5_blank_query_rejected_before_store :
  (forall field context traceId w s,
      CourseSearch.search_term_arg (Common.parse_args context) = VStr s ->
      strip s = [] ->
      exists payload,
        CourseSearch._search_field field context traceId w
        = (Return (CourseSearch.Failure payload), w)
        /\ dict_get (u "type") payload = VStr (u "ValidationError")
        /\ dict_get (u "error") payload = VStr (u "searchTerm は必須です")
        /\ dict_get (u "traceId") payload = VStr traceId)
  /\ (forall field context w args s,
         Courses.handler_args context = inr args ->
         py_or (dict_get (u "searchTerm") args) (VStr []) = VStr s ->
         strip s = [] ->
         Courses._handler field context w
         = (Return (Courses.Failure [(u "error", VStr (u "searchTerm は必須です"))]), w)).
Proof.
  split.
  - intros field context traceId w s Es Eb.
    unfold CourseSearch._search_field. rewrite Es. simpl. rewrite Eb.
    eexists. split; [reflexivity|]. repeat split; reflexivity.
  - intros field context w args s Ea Es Eb.
    unfold Courses._handler. rewrite Ea, Es. simpl. now rewrite Eb.
Qed.

End BlankQuery.

Lemma C5_witness :
  CourseSearch.search_term_arg (Common.parse_args Sample.blank_context) = VStr (u "   ")
  /\ Courses.handler_args Sample.blank_context = inr [(u "searchTerm", VStr (u "   "))]
  /\ strip (u "   ") = []
  /\ (exists payload,
         CourseSearch._search_field (u "courseName") Sample.blank_context (u "trace")
           (Sample.world_of Sample.courses)
         = (Return (CourseSearch.Failure payload), Sample.world_of Sample.courses)
         /\ dict_get (u "type") payload = VStr (u "ValidationError"))
  /\ Courses._handler (u "courseName") Sample.blank_context (Sample.world_of Sample.courses)
     = (Return (Courses.Failure [(u "error", VStr (u "searchTerm は必須です"))]),
        Sample.world_of Sample.courses).
Proof.
  destruct (C5_blank_query_rejected_before_store (H:=Sample.runtime)) as [P S].
  split; [reflexivity|]. split; [reflexivity|]. split; [reflexivity|]. split.
  - destruct (P (u "courseName") Sample.blank_context (u "trace")
                (Sample.world_of Sample.courses) (u "   ") eq_refl eq_refl)
      as (payload & E & T & _).
    exists payload. now split.
  - apply (S (u "courseName") Sample.blank_context (Sample.world_of Sample.courses)
             [(u "searchTerm", VStr (u "   "))] (u "   ")); reflexivity.
Defined.

(** The scan handler's answer to a blank query has no [type] entry. *)
Lemma C5_counterexample_scan_error_untyped :
  exists payload,
    Courses._handler (u "courseName") Sample.blank_context (Sample.world_of Sample.courses)
    = (Return (Courses.Failure payload), Sample.world_of Sample.courses)
    /\ dict_get (u "type") payload = VNone
    /\ dict_get (u "type") payload <> VStr (u "ValidationError").
Proof.
  eexists. split; [reflexivity|]. split; [reflexivity|]. discriminate.
Qed.

(* ===================================================================== *)
(** ** Facts about the lookup tools                                       *)
(* ===================================================================== *)

Module LookupFacts.
Section WithRuntime.
Context `{PyRuntime}.

Lemma unhandled_type e tool traceId :
  dict_get (u "type") (Common.log_and_build_unhandled e tool traceId)
  = VStr (u "UnhandledException").
Proof.
  unfold Common.log_and_build_unhandled, Common.build_error.
  destruct (slice_last 4000 (format_exception e)); reflexivity.
Qed.

Lemma str_in_spec i found : UserQuery.str_in i found = true <-> In (VStr i) found.
Proof.
  unfold UserQuery.str_in. rewrite existsb_exists. split.
  - intros [v [Hin E]]. destruct v; try discriminate.
    apply str_eqb_eq in E. now subst.
  - intros Hin. exists (VStr i). split; [exact Hin | now apply str_eqb_eq].
Qed.

Lemma normalize_ids_eq s :
  UserQuery._normalize_ids (VStr s)
  = filter nonempty (List.map strip (split 44 (replace 10 44 (strip s)))).
Proof.
  unfold UserQuery._normalize_ids. destruct (strip s) eqn:E; reflexivity.
Qed.

(** The body of [get_users_by_ids_mcp] reports exactly the requested ids
    that no fetched document carries. *)
Lemma users_reply context traceId w query requested count missingIds results :
  fst (UserQuery.get_users_by_ids_mcp context traceId w)
  = Return (UserQuery.Users query requested count missingIds results) ->
  let ids := UserQuery._normalize_ids (dict_get (u "userIds") (Common.parse_args context)) in
  requested = len ids
  /\ count = len results
  /\ missingIds
     = filter (fun i => negb (UserQuery.str_in i (List.map (dict_get (u "id")) results))) ids.
Proof.
  unfold UserQuery.get_users_by_ids_mcp, UserQuery.get_users_by_ids_body.
  destruct (UserQuery._normalize_ids _) as [|i ids] eqn:En; [discriminate|].
  destruct (_container (_init_cosmos w)) as [container|]; [|discriminate].
  destruct (collect _ _ _) as [items|e].
  - unfold UserQuery.id_set.
    destruct (forallb UserQuery.hashable _); [|discriminate].
    simpl. intros [= <- <- <- <- <-]. repeat split; reflexivity.
  - destruct (is_cosmos_http_error e); discriminate.
Qed.

(** Both ids given, a [topK] that converts: the survey tool rejects the
    call. *)
Lemma survey_both_ids context traceId w course_id user_id top_k :
  let args := Common.parse_args context in
  py_strip (py_or (dict_get (u "courseId") args) (VStr [])) = Return course_id ->
  py_strip (py_or (dict_get (u "userId") args) (VStr [])) = Return user_id ->
  py_int (py_or (dict_get (u "topK") args) (VInt 20)) = Return top_k ->
  course_id <> [] -> user_id <> [] ->
  exists payload,
    SurveyQuery.query_surveys_mcp context traceId w
    = (Return (SurveyQuery.Failure payload), w)
    /\ dict_get (u "type") payload = VStr (u "ValidationError").
Proof.
  intros args Ec Eu Ek Nc Nu. unfold SurveyQuery.query_surveys_mcp.
  fold args. rewrite Ec, Eu, Ek.
  destruct course_id; [congruence|]. destruct user_id; [congruence|].
  simpl. eexists. split; reflexivity.
Qed.

(** No id given, a [topK] that converts: the survey tool answers with its
    help text and examples. *)
Lemma survey_no_id context traceId w top_k :
  let args := Common.parse_args context in
  py_strip (py_or (dict_get (u "courseId") args) (VStr [])) = Return [] ->
  py_strip (py_or (dict_get (u "userId") args) (VStr [])) = Return [] ->
  py_int (py_or (dict_get (u "topK") args) (VInt 20)) = Return top_k ->
  exists info raw,
    SurveyQuery.query_surveys_mcp context traceId w
    = (Return (SurveyQuery.Usage 0 [] info raw SurveyQuery.usage_examples), w).
Proof.
  intros args Ec Eu Ek. unfold SurveyQuery.query_surveys_mcp.
  fold args. rewrite Ec, Eu, Ek. simpl.
  destruct (truthy (dict_get (u "raw") args)); eexists; eexists; reflexivity.
Qed.

End WithRuntime.
End LookupFacts.

Section GetByIds.
Context `{PyRuntime}.
Import UserQuery.

(** C8.  Get-by-ids: [missingIds] is the list of requested ids, in request
    order, that are the id of no returned document, so no returned document
    carries a missing id; and a call whose normalized id list is empty -
    the argument is not a string, or nothing is left after splitting its
    trimmed text at commas and newlines, trimming the pieces and dropping
    the empty ones - gets the usage guide with count 0, and the store is
    not touched. *)
Theorem C8_missing_ids_are_requested_minus_found context traceId w :
  let ids := _normalize_ids (dict_get (u "userIds") (Common.parse_args context)) in
  (forall query requested count missingIds results,
      fst (get_users_by_ids_mcp context traceId w)
      = Return (Users query requested count missingIds results) ->
      requested = len ids
      /\ count = len results
      /\ (forall i, In i missingIds
                    <-> In i ids /\ ~ In (VStr i) (List.map (dict_get (u "id")) results))
      /\ (forall i d, In i missingIds -> In d results -> dict_get (u "id") d <> VStr i)
      /\ missingIds
         = filter (fun i => negb (str_in i (List.map (dict_get (u "id")) results))) ids)
  /\ (ids = [] ->
      exists info usageExample,
        get_users_by_ids_mcp context traceId w = (Return (Usage 0 [] info usageExample), w))
  /\ (forall v, (forall s, v <> VStr s) -> _normalize_ids v = [])
  /\ (forall s, _normalize_ids (VStr s)
                = filter nonempty (List.map strip (split 44 (replace 10 44 (strip s))))).
Proof.
  intros ids. split; [|split; [|split]].
  - intros query requested count missingIds results E.
    destruct (LookupFacts.users_reply _ _ _ _ _ _ _ _ E) as (Er & Ec & Em).
    fold ids in Er, Em.
    assert (M : forall i, In i missingIds
                          <-> In i ids /\ ~ In (VStr i) (List.map (dict_get (u "id")) results)).
    { intros i. rewrite Em, filter_In, negb_true_iff, <- LookupFacts.str_in_spec.
      destruct (str_in i _); intuition congruence. }
    split; [exact Er|]. split; [exact Ec|]. split; [exact M|]. split; [|exact Em].
    intros i d Hi Hd Eid. apply M in Hi. destruct Hi as [_ Hn]. apply Hn.
    rewrite <- Eid. now apply in_map.
  - intros E. unfold get_users_by_ids_mcp, get_users_by_ids_body.
    fold ids. rewrite E. eexists. eexists. reflexivity.
  - intros v Hv. destruct v; try reflexivity. now destruct (Hv s).
  - apply LookupFacts.normalize_ids_eq.
Qed.

End GetByIds.

(** The scenario of the specification: [ids = "u1,u2,u3"] where only [u1]
    and [u3] exist. *)
Lemma C8_witness :
  fst (UserQuery.get_users_by_ids_mcp Sample.users_context (u "trace")
         (Sample.world_of [Sample.user "u1"; Sample.user "u3"]))
  = Return (UserQuery.Users (u "SELECT * FROM c WHERE ARRAY_CONTAINS(@ids, c.id)") 3 2
              [u "u2"] [Sample.user "u1"; Sample.user "u3"])
  /\ (forall i, In i [u "u2"]
                <-> In i (UserQuery._normalize_ids
                            (dict_get (u "userIds") (Common.parse_args Sample.users_context)))
                    /\ ~ In (VStr i) (List.map (dict_get (u "id"))
                                        [Sample.user "u1"; Sample.user "u3"]))
  /\ UserQuery._normalize_ids (dict_get (u "userIds") (Common.parse_args (VDict []))) = []
  /\ exists info usageExample,
       UserQuery.get_users_by_ids_mcp (VDict []) (u "trace") (Sample.world_of [])
       = (Return (UserQuery.Usage 0 [] info usageExample), Sample.world_of []).
Proof.
  assert (E : fst (UserQuery.get_users_by_ids_mcp Sample.users_context (u "trace")
                     (Sample.world_of [Sample.user "u1"; Sample.user "u3"]))
              = Return (UserQuery.Users (u "SELECT * FROM c WHERE ARRAY_CONTAINS(@ids, c.id)")
                          3 2 [u "u2"] [Sample.user "u1"; Sample.user "u3"]))
    by (vm_compute; reflexivity).
  split; [exact E|].
  destruct (C8_missing_ids_are_requested_minus_found (H:=Sample.runtime)
              Sample.users_context (u "trace")
              (Sample.world_of [Sample.user "u1"; Sample.user "u3"])) as [P _].
  destruct (P _ _ _ _ _ E) as (_ & _ & M & _).
  split; [exact M|]. split; [reflexivity|].
  destruct (C8_missing_ids_are_requested_minus_found (H:=Sample.runtime)
              (VDict []) (u "trace") (Sample.world_of [])) as (_ & U & _).
  apply U. reflexivity.
Defined.

Section ErrorPropagation.
Context `{PyRuntime}.

(** C6.  The code at [{"searchTerm": "python", "topK": "abc"}]:
    [int("abc")] raises [ValueError] outside every [try] of [_search_field]
    (and of the scan handler), so the exception leaves the tool; [topK] is
    not replaced by 5.  The user lookups keep their whole body in one [try]:
    [get_users_by_ids_mcp] returns on every input, and
    [get_users_by_company_mcp] turns the same [topK] into an
    [UnhandledException] envelope. *)
Theorem C6_word_topK_escapes_search_tool :
  (forall field traceId w,
      CourseSearch._search_field field Sample.word_topK_context traceId w
      = (Raise (mk_exn ValueError (u "invalid literal for int() with base 10")), w))
  /\ (forall field w,
         Courses._handler field Sample.word_topK_context w
         = (Raise (mk_exn ValueError (u "invalid literal for int() with base 10")), w))
  /\ (forall context traceId w,
         exists reply, fst (UserQuery.get_users_by_ids_mcp context traceId w) = Return reply)
  /\ (forall traceId w,
         exists payload,
           UserQuery.get_users_by_company_mcp Sample.company_word_topK_context traceId w
           = (Return (UserQuery.Failure payload), w)
           /\ dict_get (u "type") payload = VStr (u "UnhandledException")).
Proof.
  split; [reflexivity|]. split; [reflexivity|]. split.
  - intros context traceId w. unfold UserQuery.get_users_by_ids_mcp.
    destruct (UserQuery.get_users_by_ids_body context traceId w) as [[reply|e] w'];
      eexists; reflexivity.
  - intros traceId w. eexists. split; [reflexivity|].
    apply LookupFacts.unhandled_type.
Qed.

(** C9.  The code at [{"courseId": "c1", "userId": "u1", "topK": "abc"}]:
    [int("abc")] on source line 51 raises [ValueError] before the check for
    two ids on line 69 is reached, and nothing in [query_surveys_mcp]
    catches it. *)
Theorem C9_word_topK_raises_before_id_check traceId w :
  SurveyQuery.query_surveys_mcp Sample.survey_word_topK_context traceId w
  = (Raise (mk_exn ValueError (u "invalid literal for int() with base 10")), w).
Proof. reflexivity. Qed.

End ErrorPropagation.

Section ZeroLimits.
Context `{PyRuntime}.

(** C10 (as amended).  In both search tools a [topK] argument that is
    falsy - absent, [None], [False], the number 0 or 0.0, an empty string -
    is replaced by 5, and so are, in the scan variant, [maxScan] by 200 and
    [minScore] by 0.4. *)
Theorem C10_falsy_limits_take_defaults :
  (forall field context traceId w r,
      fst (CourseSearch._search_field field context traceId w)
      = Return (CourseSearch.Success r) ->
      truthy (dict_get (u "topK") (Common.parse_args context)) = false ->
      CourseSearch.topK r = 5)
  /\ (forall field context w r args,
         fst (Courses._handler field context w) = Return (Courses.Success r) ->
         Courses.handler_args context = inr args ->
         (truthy (dict_get (u "topK") args) = false -> Courses.topK r = 5)
         /\ (truthy (dict_get (u "maxScan") args) = false -> Courses.maxScan r = 200)
         /\ (truthy (dict_get (u "minScore") args) = false ->
             Courses.minScore r = (4 # 10)%Q))
  /\ truthy VNone = false /\ truthy (VInt 0) = false /\ truthy (VFloat 0) = false.
Proof.
  split; [|split].
  - intros field context traceId w r E F.
    destruct (CourseSearchFacts.search_field_success _ _ _ _ _ E)
      as (term & top_k & container & items & _ & _ & Ek & _ & _ & ->).
    unfold CourseSearch.topK_arg, py_or in Ek. rewrite F in Ek.
    simpl in Ek. now injection Ek as <-.
  - intros field context w r args E Ea.
    destruct (CoursesFacts.handler_success _ _ _ _ E)
      as (args' & term & top_k & max_scan & min_score & Ea' & _ & _ & Ek & Em & Es & ->).
    rewrite Ea in Ea'. injection Ea' as <-.
    rewrite CoursesFacts.fuzzy_search_reply.
    cbn [Courses.topK Courses.maxScan Courses.minScore].
    unfold py_or in Ek, Em, Es.
    repeat split; intros F.
    + rewrite F in Ek. simpl in Ek. now injection Ek as <-.
    + rewrite F in Em. simpl in Em. now injection Em as <-.
    + rewrite F in Es. simpl in Es. now injection Es as <-.
  - repeat split; reflexivity.
Qed.

End ZeroLimits.

Lemma C10_witness :
  fst (CourseSearch._search_field (u "courseName") Sample.zero_limits_context (u "trace")
         (Sample.world_of Sample.courses))
  = Return (CourseSearch.Success Sample.zero_limits_search_reply)
  /\ fst (Courses._handler (u "courseName") Sample.zero_limits_context
            (Sample.world_of Sample.courses))
     = Return (Courses.Success Sample.zero_limits_scan_reply)
  /\ dict_get (u "topK") (Common.parse_args Sample.zero_limits_context) = VInt 0
  /\ CourseSearch.topK Sample.zero_limits_search_reply = 5
  /\ Courses.topK Sample.zero_limits_scan_reply = 5
  /\ Courses.maxScan Sample.zero_limits_scan_reply = 200
  /\ Courses.minScore Sample.zero_limits_scan_reply = (4 # 10)%Q.
Proof.
  assert (E1 : fst (CourseSearch._search_field (u "courseName") Sample.zero_limits_context
                      (u "trace") (Sample.world_of Sample.courses))
               = Return (CourseSearch.Success Sample.zero_limits_search_reply))
    by (vm_compute; reflexivity).
  assert (E2 : fst (Courses._handler (u "courseName") Sample.zero_limits_context
                      (Sample.world_of Sample.courses))
               = Return (Courses.Success Sample.zero_limits_scan_reply))
    by (vm_compute; reflexivity).
  destruct (C10_falsy_limits_take_defaults (H:=Sample.runtime)) as (P & S & _).
  pose proof (P _ _ _ _ _ E1 eq_refl) as K1.
  destruct (S _ _ _ _ _ E2 eq_refl) as (K2 & M2 & S2).
  exact (conj E1 (conj E2 (conj eq_refl
           (conj K1 (conj (K2 eq_refl) (conj (M2 eq_refl) (S2 eq_refl))))))).
Defined.

(** A truthy argument that converts to zero is passed through: the strings
    ["0"] give [topK = 0] (no results), [maxScan = 0] and [minScore = 0],
    and so does the number 0.5 for [topK]. *)
Lemma C10_counterexample_zero_from_truthy_argument :
  (exists r,
      fst (CourseSearch.search_courses_by_name_mcp Sample.zero_string_limits_context
             (u "trace") (Sample.world_of Sample.courses))
      = Return (CourseSearch.Success r)
      /\ CourseSearch.topK r = 0 /\ CourseSearch.results r = [])
  /\ (exists r,
         fst (CourseSearch.search_courses_by_name_mcp Sample.half_topK_context
                (u "trace") (Sample.world_of Sample.courses))
         = Return (CourseSearch.Success r)
         /\ CourseSearch.topK r = 0 /\ CourseSearch.results r = [])
  /\ (exists r,
         fst (Courses._handler (u "courseName") Sample.zero_string_limits_context
                (Sample.world_of Sample.courses))
         = Return (Courses.Success r)
         /\ Courses.topK r = 0 /\ Courses.results r = []
         /\ Courses.maxScan r = 0 /\ Courses.minScore r = 0%Q).
Proof.
  split; [|split]; eexists; (split; [vm_compute; reflexivity|]);
    repeat split; reflexivity.
Qed.

(* ===================================================================== *)
(** ** Further properties: argument parsing and error envelopes           *)
(* ===================================================================== *)

Module CommonFacts.
Section WithRuntime.
Context `{PyRuntime}.

Lemma str_eqb_refl a : str_eqb a a = true.
Proof. now apply str_eqb_eq. Qed.

Lemma str_eqb_neq a b : a <> b -> str_eqb a b = false.
Proof.
  intros N. destruct (str_eqb a b) eqn:E; [|reflexivity].
  apply str_eqb_eq in E. contradiction.
Qed.

Lemma dict_get_set k k' v d :
  dict_get k (Common.dict_set k' v d) = if str_eqb k k' then v else dict_get k d.
Proof.
  induction d as [|[k0 v0] d IH]; simpl.
  - reflexivity.
  - destruct (str_eqb k' k0) eqn:E0; simpl.
    + apply str_eqb_eq in E0. subst k0. now destruct (str_eqb k k').
    + destruct (str_eqb k k0) eqn:E1.
      * apply str_eqb_eq in E1. subst k0.
        destruct (str_eqb k k') eqn:E2; [|reflexivity].
        apply str_eqb_eq in E2. subst k'. rewrite str_eqb_refl in E0. discriminate.
      * exact IH.
Qed.

Lemma dict_get_update_other k d extra :
  ~ In k (keys extra) -> dict_get k (Common.dict_update d extra) = dict_get k d.
Proof.
  unfold Common.dict_update. revert d.
  induction extra as [|[k' v'] extra IH]; intros d N; simpl; [reflexivity|].
  simpl in N. rewrite IH by tauto. rewrite dict_get_set.
  rewrite str_eqb_neq; [reflexivity|]. intros ->. tauto.
Qed.

Lemma dict_get_update_in k v d extra :
  NoDup (keys extra) -> In (k, v) extra ->
  dict_get k (Common.dict_update d extra) = v.
Proof.
  unfold Common.dict_update. revert d.
  induction extra as [|[k' v'] extra IH]; intros d N Hin; simpl; [destruct Hin|].
  simpl in N. inversion N as [|? ? Nk N']; subst.
  destruct Hin as [[= -> ->] | Hin].
  - fold (Common.dict_update (Common.dict_set k v d) extra).
    rewrite dict_get_update_other by exact Nk.
    now rewrite dict_get_set, str_eqb_refl.
  - now apply IH.
Qed.

Lemma slice_last_suffix {A} k (l : list A) : suffix_of (slice_last k l) l.
Proof.
  exists (firstn (List.length l - k) l). unfold slice_last.
  symmetry. apply firstn_skipn.
Qed.

Lemma slice_last_len {A} k (l : list A) :
  len (slice_last k l) = Z.min (len l) (Z.of_nat k).
Proof. unfold slice_last, len. rewrite length_skipn. lia. Qed.

Lemma slice_last_short {A} k (l : list A) :
  len l <= Z.of_nat k -> slice_last k l = l.
Proof.
  unfold slice_last, len. intros L.
  replace (List.length l - k)%nat with 0%nat by lia. reflexivity.
Qed.

End WithRuntime.
End CommonFacts.

Section ArgumentParsing.
Context `{PyRuntime}.

(** X1.  A context that is a plain, non-JSON string is searched for as it
    stands: [parse_args] files its trimmed text under ["raw"], and the
    search tool treats the call exactly as one with that text as
    [searchTerm]. *)
Theorem X1_plain_string_context_is_the_search_term field s traceId w e :
  json_loads (strip s) = Raise e ->
  strip s <> [] ->
  Common.parse_args (VStr s) = [(u "raw", VStr (strip s))]
  /\ CourseSearch._search_field field (VStr s) traceId w
     = CourseSearch._search_field field
         (VDict [(u "searchTerm", VStr (strip s))]) traceId w.
Proof.
  intros Ej Ns.
  assert (P : Common.parse_args (VStr s) = [(u "raw", VStr (strip s))]).
  { unfold Common.parse_args. destruct (strip s) as [|c t]; [congruence|].
    now rewrite Ej. }
  split; [exact P|].
  unfold CourseSearch._search_field. rewrite P.
  destruct (strip s) as [|c t]; [congruence|]. reflexivity.
Qed.

(** X2.  A context that is a JSON-encoded string is handled as the value it
    decodes to; and of a dict context, the dict under ["arguments"] is
    taken if there is one, else the dict under ["mcpToolArgs"], else the
    dict itself. *)
Theorem X2_json_string_context_is_its_decoded_value :
  (forall s v,
      json_loads (strip s) = Return v -> strip s <> [] -> (forall t, v <> VStr t) ->
      Common.parse_args (VStr s) = Common.parse_args v)
  /\ (forall d a,
         dict_get (u "arguments") d = VDict a -> Common.parse_args (VDict d) = a)
  /\ (forall d m,
         (forall a, dict_get (u "arguments") d <> VDict a) ->
         dict_get (u "mcpToolArgs") d = VDict m ->
         Common.parse_args (VDict d) = m)
  /\ (forall d,
         (forall a, dict_get (u "arguments") d <> VDict a) ->
         (forall m, dict_get (u "mcpToolArgs") d <> VDict m) ->
         Common.parse_args (VDict d) = d).
Proof.
  split; [|split; [|split]].
  - intros s v Ej Ns Nv. unfold Common.parse_args at 1.
    destruct (strip s) as [|c t]; [congruence|]. rewrite Ej.
    destruct v; try reflexivity. now destruct (Nv s0).
  - intros d a E. simpl. now rewrite E.
  - intros d m Na E. simpl.
    destruct (dict_get (u "arguments") d) eqn:Ea; rewrite ?E; try reflexivity.
    now destruct (Na d0).
  - intros d Na Nm. simpl.
    destruct (dict_get (u "arguments") d) eqn:Ea;
      try (destruct (dict_get (u "mcpToolArgs") d) eqn:Em; try reflexivity;
           now destruct (Nm d0)).
    now destruct (Na d0).
Qed.

(** X3.  The error envelope: [build_error] reports the message under
    ["error"], the kind under ["type"] and the trace id under ["traceId"],
    adds ["details"] only when details are given and not empty, and carries
    every entry of [extra]. *)
Theorem X3_error_envelope_fields message details kind extra traceId :
  let payload := Common.build_error message details kind extra traceId in
  (~ In (u "error") (keys extra) -> dict_get (u "error") payload = VStr message)
  /\ (~ In (u "type") (keys extra) -> dict_get (u "type") payload = VStr kind)
  /\ (~ In (u "traceId") (keys extra) -> dict_get (u "traceId") payload = VStr traceId)
  /\ (~ In (u "details") (keys extra) ->
      dict_get (u "details") payload
      = match details with
        | Some (c :: d) => VStr (c :: d)
        | _ => VNone
        end)
  /\ (NoDup (keys extra) ->
      forall k v, In (k, v) extra -> dict_get k payload = v).
Proof.
  unfold Common.build_error. cbv zeta.
  repeat split.
  - intros N. rewrite CommonFacts.dict_get_update_other by exact N.
    destruct details as [[|c d]|]; reflexivity.
  - intros N. rewrite CommonFacts.dict_get_update_other by exact N.
    destruct details as [[|c d]|]; reflexivity.
  - intros N. rewrite CommonFacts.dict_get_update_other by exact N.
    destruct details as [[|c d]|]; reflexivity.
  - intros N. rewrite CommonFacts.dict_get_update_other by exact N.
    destruct details as [[|c d]|]; reflexivity.
  - intros N k v Hin. now apply CommonFacts.dict_get_update_in.
Qed.

(** X4.  The envelope of an unexpected exception has type
    [UnhandledException], names the tool, and carries as details the last
    4000 characters of the formatted traceback (all of it when it is
    shorter; no details entry when it is empty). *)
Theorem X4_unhandled_envelope_keeps_traceback_tail e tool traceId :
  let payload := Common.log_and_build_unhandled e tool traceId in
  dict_get (u "type") payload = VStr (u "UnhandledException")
  /\ dict_get (u "tool") payload = VStr tool
  /\ dict_get (u "traceId") payload = VStr traceId
  /\ ((format_exception e = [] /\ dict_get (u "details") payload = VNone)
      \/ exists d,
           dict_get (u "details") payload = VStr d
           /\ d <> []
           /\ suffix_of d (format_exception e)
           /\ len d = Z.min (len (format_exception e)) 4000).
Proof.
  unfold Common.log_and_build_unhandled, Common.build_error. cbv zeta.
  pose proof (CommonFacts.slice_last_suffix 4000 (format_exception e)) as S.
  pose proof (CommonFacts.slice_last_len 4000 (format_exception e)) as L.
  destruct (slice_last 4000 (format_exception e)) as [|c d] eqn:E.
  - repeat split; try reflexivity. left. split; [|reflexivity].
    apply len_nil_iff. pose proof (len_nonneg (format_exception e)).
    change (len (@nil N)) with 0 in L. lia.
  - repeat split; try reflexivity. right. exists (c :: d).
    repeat split; try assumption; try reflexivity. discriminate.
Qed.

End ArgumentParsing.

Lemma X1_witness :
  json_loads (strip (u " Python 入門 "))
  = Raise (mk_exn JSONDecodeError (u "Expecting value"))
  /\ strip (u " Python 入門 ") <> []
  /\ Common.parse_args (VStr (u " Python 入門 ")) = [(u "raw", VStr (u "Python 入門"))]
  /\ fst (CourseSearch._search_field (u "courseName") (VStr (u " Python 入門 "))
            (u "trace") (Sample.world_of Sample.courses))
     = fst (CourseSearch._search_field (u "courseName")
              (VDict [(u "searchTerm", VStr (u "Python 入門"))])
              (u "trace") (Sample.world_of Sample.courses)).
Proof.
  assert (N : strip (u " Python 入門 ") <> []) by (vm_compute; discriminate).
  destruct (X1_plain_string_context_is_the_search_term (H:=Sample.runtime)
              (u "courseName") (u " Python 入門 ") (u "trace")
              (Sample.world_of Sample.courses) _ eq_refl N) as [P S].
  split; [reflexivity|]. split; [exact N|]. split; [exact P|].
  now rewrite S.
Defined.

Lemma X2_witness :
  json_loads (PyRuntime:=Sample.literal_runtime) (strip (u " {} ")) = Return (VDict [])
  /\ strip (u " {} ") <> []
  /\ Common.parse_args (H:=Sample.literal_runtime) (VStr (u " {} "))
     = Common.parse_args (H:=Sample.literal_runtime) (VDict [])
  /\ Common.parse_args
       (VDict [(u "arguments", VDict [(u "topK", VInt 1)]);
               (u "mcpToolArgs", VDict [(u "topK", VInt 2)])])
     = [(u "topK", VInt 1)]
  /\ Common.parse_args (VDict [(u "arguments", VInt 7);
                               (u "mcpToolArgs", VDict [(u "topK", VInt 2)])])
     = [(u "topK", VInt 2)]
  /\ Common.parse_args (VDict [(u "topK", VInt 3)]) = [(u "topK", VInt 3)].
Proof.
  assert (N : strip (u " {} ") <> []) by (vm_compute; discriminate).
  destruct (X2_json_string_context_is_its_decoded_value (H:=Sample.literal_runtime))
    as (J & _).
  destruct (X2_json_string_context_is_its_decoded_value (H:=Sample.runtime))
    as (_ & A & M & D).
  split; [reflexivity|]. split; [exact N|].
  split; [apply J; [reflexivity | exact N | discriminate]|].
  split; [apply A; reflexivity|].
  split; [apply M; [discriminate | reflexivity]|].
  apply D; discriminate.
Defined.

Lemma X3_witness :
  ~ In (u "type") (keys [(u "field", VStr (u "searchTerm"))])
  /\ NoDup (keys [(u "field", VStr (u "searchTerm"))])
  /\ dict_get (u "type")
       (Common.build_error (u "searchTerm は必須です") None (u "ValidationError")
          [(u "field", VStr (u "searchTerm"))] (u "trace"))
     = VStr (u "ValidationError")
  /\ dict_get (u "field")
       (Common.build_error (u "searchTerm は必須です") None (u "ValidationError")
          [(u "field", VStr (u "searchTerm"))] (u "trace"))
     = VStr (u "searchTerm").
Proof.
  assert (N : ~ In (u "type") (keys [(u "field", VStr (u "searchTerm"))])).
  { simpl. intros [C | []]. discriminate C. }
  assert (D : NoDup (keys [(u "field", VStr (u "searchTerm"))])).
  { repeat constructor. simpl. tauto. }
  destruct (X3_error_envelope_fields (u "searchTerm は必須です") None (u "ValidationError")
              [(u "field", VStr (u "searchTerm"))] (u "trace")) as (_ & T & _ & _ & X).
  split; [exact N|]. split; [exact D|]. split; [exact (T N)|].
  apply (X D). now left.
Defined.

(* ===================================================================== *)
(** ** Further properties: the store handle, query text and tokens        *)
(* ===================================================================== *)

Module QueryFacts.
Import CourseSearch CourseSearchFacts.

Lemma map_fst_combine {A B C} (g : A -> C) (l : list A) (l' : list B) :
  List.length l = List.length l' ->
  List.map (fun it => g (fst it)) (combine l l') = List.map g l.
Proof.
  revert l'. induction l as [|x l IH]; intros [|y l'] E; simpl in *;
    try reflexivity; try discriminate.
  f_equal. apply IH. lia.
Qed.

Lemma map_snd_combine {A B C} (g : B -> C) (l : list A) (l' : list B) :
  List.length l = List.length l' ->
  List.map (fun it => g (snd it)) (combine l l') = List.map g l'.
Proof.
  revert l'. induction l as [|x l IH]; intros [|y l'] E; simpl in *;
    try reflexivity; try discriminate.
  f_equal. apply IH. lia.
Qed.

Lemma split_app sep a b : split sep (a ++ sep :: b) = split sep a ++ split sep b.
Proof.
  induction a as [|c a IH]; simpl.
  - now rewrite N.eqb_refl.
  - destruct (c =? sep)%N; [now rewrite IH|].
    rewrite IH. destruct (split sep a) as [|w ws] eqn:E; [|reflexivity].
    now destruct (split_not_nil sep a).
Qed.

Lemma split_free sep t :
  forallb (fun c => negb (c =? sep)%N) t = true -> split sep t = [t].
Proof.
  induction t as [|c t IH]; simpl; [reflexivity|].
  rewrite andb_true_iff, negb_true_iff. intros [Ec Et].
  rewrite Ec, (IH Et). reflexivity.
Qed.

Lemma replace_app a b x y s :
  replace a b (x ++ y :: s) = replace a b x ++ (if (y =? a)%N then b else y) :: replace a b s.
Proof. unfold replace. now rewrite map_app. Qed.

Lemma replace_free t :
  forallb (fun c => negb (is_sep c)) t = true -> replace 12288 32 t = t.
Proof.
  unfold replace, is_sep. induction t as [|c t IH]; simpl; [reflexivity|].
  rewrite andb_true_iff, negb_true_iff, orb_false_iff. intros [[_ E] Et].
  now rewrite E, (IH Et).
Qed.

Lemma forallb_weaken {A} (p q : A -> bool) l :
  (forall x, p x = true -> q x = true) -> forallb p l = true -> forallb q l = true.
Proof.
  intros I. induction l as [|x l IH]; simpl; [reflexivity|].
  rewrite !andb_true_iff. intros [Hx Hl]. split; [now apply I | now apply IH].
Qed.

Lemma tokenize_app a c b :
  is_sep c = true -> _tokenize (a ++ c :: b) = _tokenize a ++ _tokenize b.
Proof.
  intros S. rewrite !tokenize_eq, replace_app.
  assert (E : (if (c =? 12288)%N then 32%N else c) = 32%N).
  { unfold is_sep in S. destruct (c =? 12288)%N; [reflexivity|].
    rewrite orb_false_r in S. now apply N.eqb_eq in S. }
  rewrite E, split_app. apply filter_app.
Qed.

Lemma tokenize_single t :
  t <> [] -> forallb (fun c => negb (is_sep c)) t = true -> _tokenize t = [t].
Proof.
  intros N F. rewrite tokenize_eq, (replace_free _ F), split_free.
  - simpl. now destruct t.
  - eapply forallb_weaken; [|exact F]. intros c. unfold is_sep.
    rewrite negb_orb. now intros [E _]%andb_true_iff.
Qed.

Lemma tokenize_join ts :
  Forall (fun t => t <> [] /\ forallb (fun c => negb (is_sep c)) t = true) ts ->
  _tokenize (join (u " ") ts) = ts.
Proof.
  induction ts as [|t ts IH]; intros F; [reflexivity|].
  inversion F as [|? ? [Nt Ft] F']; subst.
  destruct ts as [|t' ts].
  - simpl. now apply tokenize_single.
  - change (join (u " ") (t :: t' :: ts)) with (t ++ 32%N :: join (u " ") (t' :: ts)).
    rewrite tokenize_app by reflexivity.
    now rewrite (tokenize_single _ Nt Ft), (IH F').
Qed.

Lemma forallb_perm {A} (p : A -> bool) l l' :
  Permutation l l' -> forallb p l = forallb p l'.
Proof.
  intros P. induction P; simpl; try congruence.
  now destruct (p x), (p y).
Qed.

Lemma filter_perm {A} (p : A -> bool) l l' :
  Permutation l l' -> Permutation (filter p l) (filter p l').
Proof.
  intros P. induction P; simpl.
  - constructor.
  - destruct (p x); [now constructor | assumption].
  - destruct (p x), (p y); try reflexivity. apply perm_swap.
  - etransitivity; eassumption.
Qed.

Lemma len_perm {A} (l l' : list A) : Permutation l l' -> len l = len l'.
Proof. intros P. unfold len. now rewrite (Permutation_length P). Qed.

End QueryFacts.

Section StoreHandle.

(** X5.  The store handle is set up lazily and kept: once the client
    exists, and whenever endpoint or key is missing, [_init_cosmos] changes
    nothing and makes no call; otherwise it makes one connection attempt.
    A container, once held, is never replaced.  A second [_init_cosmos]
    repeats nothing, except after a failed client construction, which
    leaves [_client] unset and is attempted again. *)
Theorem X5_store_handle_initialised_once (w : world) :
  (_client w = true -> _init_cosmos w = w)
  /\ (unset (COSMOS_ENDPOINT w) || unset (COSMOS_KEY w) = true -> _init_cosmos w = w)
  /\ (exists attempts,
         calls (_init_cosmos w) = calls w ++ attempts
         /\ (attempts = [] \/ attempts = [Connect]))
  /\ (globals_consistent w -> globals_consistent (_init_cosmos w))
  /\ (forall c, globals_consistent w -> _container w = Some c ->
                _container (_init_cosmos w) = Some c)
  /\ (cosmos w <> ClientFails -> _init_cosmos (_init_cosmos w) = _init_cosmos w)
  /\ (cosmos w = ClientFails -> _client w = false ->
      unset (COSMOS_ENDPOINT w) || unset (COSMOS_KEY w) = false ->
      calls (_init_cosmos (_init_cosmos w)) = calls w ++ [Connect; Connect]).
Proof.
  unfold globals_consistent.
  split; [|split; [|split; [|split; [|split; [|split]]]]].
  - intros C. unfold _init_cosmos. now rewrite C.
  - intros U. unfold _init_cosmos. rewrite U. now destruct (_client w).
  - unfold _init_cosmos. destruct (_client w).
    + exists []. rewrite app_nil_r. auto.
    + destruct (unset _ || unset _).
      * exists []. rewrite app_nil_r. auto.
      * exists [Connect]. destruct (cosmos w); simpl; auto.
  - intros G. unfold _init_cosmos. destruct (_client w) eqn:C; [intros _; exact C|].
    destruct (unset _ || unset _); [rewrite C; exact G|].
    destruct (cosmos w); simpl; auto.
  - intros c G E. assert (C : _client w = true) by (apply G; congruence).
    unfold _init_cosmos. now rewrite C.
  - intros N. unfold _init_cosmos. destruct (_client w) eqn:C.
    + now rewrite C.
    + destruct (unset _ || unset _) eqn:U.
      * now rewrite C, U.
      * destruct (cosmos w); [congruence | reflexivity | reflexivity].
  - intros F C U. unfold _init_cosmos. rewrite C, U, F. simpl. rewrite U. simpl.
    now rewrite <- app_assoc.
Qed.

End StoreHandle.

Lemma X5_witness :
  globals_consistent (Sample.world_of Sample.courses)
  /\ cosmos (Sample.world_of Sample.courses) <> ClientFails
  /\ _init_cosmos (_init_cosmos (Sample.world_of Sample.courses))
     = _init_cosmos (Sample.world_of Sample.courses)
  /\ calls (_init_cosmos (Sample.world_of Sample.courses)) = [Connect]
  /\ _init_cosmos Sample.unconfigured_world = Sample.unconfigured_world
  /\ globals_consistent (_init_cosmos (Sample.world_of Sample.courses)).
Proof.
  assert (G : globals_consistent (Sample.world_of Sample.courses))
    by (intros C; now destruct C).
  assert (N : cosmos (Sample.world_of Sample.courses) <> ClientFails) by discriminate.
  destruct (X5_store_handle_initialised_once (Sample.world_of Sample.courses))
    as (_ & _ & _ & K & _ & I & _).
  destruct (X5_store_handle_initialised_once Sample.unconfigured_world)
    as (_ & U & _).
  split; [exact G|]. split; [exact N|]. split; [exact (I N)|].
  split; [reflexivity|]. split; [apply U; reflexivity|]. exact (K G).
Defined.

Section QueryText.
Context `{PyRuntime}.
Import CourseSearch.

(** X6.  The text of the search query depends on the field and on the
    number of tokens only: the tokens themselves travel as the values of
    the bound parameters, one per token and in token order, and never
    become part of the query text. *)
Theorem X6_tokens_only_in_bound_parameters field (tokens tokens' : list str) :
  (List.length tokens = List.length tokens' ->
   _build_query field tokens = _build_query field tokens')
  /\ List.map (dict_get (u "value")) (query_params tokens) = List.map VStr tokens
  /\ List.map (dict_get (u "name")) (query_params tokens)
     = List.map (fun i => VStr (u "@t" ++ str_of_nat i)) (seq 0 (List.length tokens)).
Proof.
  split; [|split].
  - intros E. unfold _build_query, enumerate.
    destruct tokens as [|t ts], tokens' as [|t' ts']; try discriminate; [reflexivity|].
    f_equal. f_equal.
    rewrite (QueryFacts.map_fst_combine
               (fun i => u "CONTAINS(LOWER(c." ++ field ++ u "), @t" ++ str_of_nat i ++ u ")")
               (seq 0 (List.length (t :: ts))) (t :: ts)) by apply length_seq.
    rewrite (QueryFacts.map_fst_combine
               (fun i => u "CONTAINS(LOWER(c." ++ field ++ u "), @t" ++ str_of_nat i ++ u ")")
               (seq 0 (List.length (t' :: ts'))) (t' :: ts')) by apply length_seq.
    now rewrite E.
  - unfold query_params, enumerate. rewrite map_map.
    apply (QueryFacts.map_snd_combine VStr). apply length_seq.
  - unfold query_params, enumerate. rewrite map_map.
    apply (QueryFacts.map_fst_combine (fun i => VStr (u "@t" ++ str_of_nat i))).
    apply length_seq.
Qed.

(** X7.  Tokenizing cuts at every ASCII or full-width space: the tokens of
    two texts joined by a separator are the tokens of the first followed by
    the tokens of the second, so leading, trailing and repeated separators
    add no token. *)
Theorem X7_tokenize_cuts_at_separators a c b :
  is_sep c = true -> _tokenize (a ++ c :: b) = _tokenize a ++ _tokenize b.
Proof. apply QueryFacts.tokenize_app. Qed.

(** X8.  Round trip: joining the tokens of a term with single spaces and
    tokenizing again gives the same tokens. *)
Theorem X8_tokenize_join_round_trip s :
  _tokenize (join (u " ") (_tokenize s)) = _tokenize s.
Proof. apply QueryFacts.tokenize_join, CourseSearchFacts.tokenize_tokens. Qed.

(** X9.  The order of the tokens does not matter to the scoring loop: it
    keeps the same documents and gives them the same scores for any
    rearrangement of the tokens. *)
Theorem X9_rows_independent_of_token_order field term tokens tokens' items :
  Permutation tokens tokens' ->
  score_items field term tokens items = score_items field term tokens' items.
Proof.
  intros P. induction items as [|d items IH]; simpl; [reflexivity|].
  rewrite IH. destruct (dict_get field d) as [| | | |val| |]; try reflexivity.
  rewrite (QueryFacts.forallb_perm (fun tok => contains tok (lower val)) _ _ P).
  rewrite (QueryFacts.len_perm _ _ P).
  rewrite (QueryFacts.len_perm _ _
             (QueryFacts.filter_perm (fun tok => contains tok (lower val)) _ _ P)).
  reflexivity.
Qed.

End QueryText.

Lemma X6_witness :
  List.length [u "python"; u "入門"] = List.length [u "x') OR 1=1 --"; u "b"]
  /\ CourseSearch._build_query (u "courseName") [u "python"; u "入門"]
     = CourseSearch._build_query (u "courseName") [u "x') OR 1=1 --"; u "b"]
  /\ CourseSearch._build_query (u "courseName") [u "x') OR 1=1 --"; u "b"]
     = u "SELECT * FROM c WHERE CONTAINS(LOWER(c.courseName), @t0) AND CONTAINS(LOWER(c.courseName), @t1)".
Proof.
  destruct (X6_tokens_only_in_bound_parameters (u "courseName")
              [u "python"; u "入門"] [u "x') OR 1=1 --"; u "b"]) as (Q & _).
  split; [reflexivity|]. split; [exact (Q eq_refl)|]. vm_compute. reflexivity.
Defined.

Lemma X7_witness :
  is_sep 12288 = true
  /\ CourseSearch._tokenize (u "  python " ++ 12288%N :: u " 入門 ")
     = CourseSearch._tokenize (u "  python ") ++ CourseSearch._tokenize (u " 入門 ")
  /\ CourseSearch._tokenize (u "  python " ++ 12288%N :: u " 入門 ") = [u "python"; u "入門"].
Proof.
  split; [reflexivity|].
  split; [apply X7_tokenize_cuts_at_separators; reflexivity | vm_compute; reflexivity].
Defined.

Lemma X9_witness :
  Permutation [u "python"; u "入門"] [u "入門"; u "python"]
  /\ CourseSearch.score_items (u "courseName") (u "python 入門") [u "python"; u "入門"]
       Sample.courses
     = CourseSearch.score_items (u "courseName") (u "python 入門") [u "入門"; u "python"]
         Sample.courses.
Proof.
  assert (P : Permutation [u "python"; u "入門"] [u "入門"; u "python"]) by apply perm_swap.
  split; [exact P|].
  now apply (X9_rows_independent_of_token_order (H:=Sample.runtime)).
Defined.

(* ===================================================================== *)
(** ** Further properties: reading from the store                         *)
(* ===================================================================== *)

Module FeedFacts.

Lemma firstn_snoc {A} n (x : A) l acc :
  (acc ++ [x]) ++ firstn n l = acc ++ firstn (S n) (x :: l).
Proof. simpl. now rewrite <- app_assoc. Qed.

Lemma len_app {A} (a b : list A) : len (a ++ b) = len a + len b.
Proof. unfold len. rewrite length_app. lia. Qed.

(** What the reading loop returns: what it was given, then a prefix of the
    feed; it stops at the first length that reaches the limit. *)
Lemma geb_true a b : (a >=? b) = true -> b <= a.
Proof. rewrite Z.geb_leb. apply Z.leb_le. Qed.

Lemma geb_false a b : (a >=? b) = false -> a < b.
Proof. rewrite Z.geb_leb. apply Z.leb_gt. Qed.

Ltac len_arith :=
  unfold len in *; repeat rewrite length_app in *; simpl List.length in *; lia.

Lemma collect_spec f limit acc items :
  collect f limit acc = Return items ->
  exists n,
    items = acc ++ firstn n (docs_of f)
    /\ len items <= Z.max limit (len acc + 1)
    /\ (len items < limit -> items = acc ++ docs_of f).
Proof.
  revert acc. induction f as [d rest IH| |e]; intros acc; simpl.
  - destruct (len (acc ++ [d]) >=? limit) eqn:E.
    + apply geb_true in E. intros [= <-]. exists 1%nat. simpl.
      split; [reflexivity|]. split; len_arith.
    + apply geb_false in E. intros C. destruct (IH _ C) as (n & -> & B & F).
      exists (S n). rewrite firstn_snoc. split; [reflexivity|].
      rewrite <- firstn_snoc. split; [len_arith|].
      intros L. rewrite (F L). now rewrite <- app_assoc.
  - intros [= <-]. exists 0%nat. simpl. rewrite app_nil_r.
    split; [reflexivity|]. split; [lia | reflexivity].
  - discriminate.
Qed.

Lemma collect_flag_spec f top_k acc items truncated :
  UserQuery.collect_flag f top_k acc = Return (items, truncated) ->
  exists n,
    items = acc ++ firstn n (docs_of f)
    /\ len items <= Z.max top_k (len acc + 1)
    /\ (truncated = true -> top_k <= len items /\ len acc < len items)
    /\ (truncated = false -> items = acc ++ docs_of f
                             /\ (len acc < len items -> len items < top_k)).
Proof.
  revert acc. induction f as [d rest IH| |e]; intros acc; simpl.
  - destruct (len (acc ++ [d]) >=? top_k) eqn:E.
    + apply geb_true in E. intros [= <- <-]. exists 1%nat. simpl.
      split; [reflexivity|]. split; [len_arith|].
      split; [intros _; len_arith | discriminate].
    + apply geb_false in E. intros C. destruct (IH _ C) as (n & -> & B & T & F).
      exists (S n). rewrite firstn_snoc. split; [reflexivity|].
      rewrite <- firstn_snoc. split; [len_arith|]. split.
      * intros Et. destruct (T Et). len_arith.
      * intros Ef. destruct (F Ef) as [Fi Fl]. split.
        -- rewrite Fi. now rewrite <- app_assoc.
        -- intros _.
           destruct (firstn n (docs_of rest)) as [|x xs] eqn:Efn.
           ++ rewrite app_nil_r. exact E.
           ++ apply Fl. len_arith.
  - intros [= <- <-]. exists 0%nat. simpl. rewrite app_nil_r.
    split; [reflexivity|]. split; [lia|]. split; [discriminate|].
    intros _. split; [reflexivity | lia].
  - discriminate.
Qed.

Lemma read_up_to_spec f max_items acc :
  exists n,
    Courses.read_up_to f max_items acc = acc ++ firstn n (docs_of f)
    /\ len (Courses.read_up_to f max_items acc) <= Z.max max_items (len acc + 1).
Proof.
  revert acc. induction f as [d rest IH| |e]; intros acc; simpl.
  - destruct (len (acc ++ [d]) >=? max_items) eqn:E.
    + apply geb_true in E. exists 1%nat. simpl. split; [reflexivity | len_arith].
    + apply geb_false in E. destruct (IH (acc ++ [d])) as (n & R & B).
      exists (S n). rewrite R, firstn_snoc. split; [reflexivity|].
      rewrite <- firstn_snoc, <- R. len_arith.
  - exists 0%nat. simpl. rewrite app_nil_r. split; [reflexivity | lia].
  - exists 0%nat. simpl. rewrite app_nil_r. split; [reflexivity | lia].
Qed.

Lemma score_items_len `{PyRuntime} field term tokens items :
  len (CourseSearch.score_items field term tokens items) <= len items.
Proof.
  unfold len. induction items as [|d items IH]; simpl; [lia|].
  destruct (dict_get field d); simpl; try lia.
  destruct (forallb _ tokens); simpl; lia.
Qed.

Lemma slice_to_len_le {A} k (l : list A) : len (slice_to k l) <= len l.
Proof.
  destruct (slice_to_firstn k l) as [n ->]. unfold len. rewrite length_firstn. lia.
Qed.

End FeedFacts.

Module ScoreFacts.

Lemma filter_all {A} (p : A -> bool) l : forallb p l = true -> filter p l = l.
Proof.
  induction l as [|x l IH]; simpl; [reflexivity|].
  rewrite andb_true_iff. intros [Hx Hl]. now rewrite Hx, (IH Hl).
Qed.

Lemma truediv_self n : 1 <= n -> (truediv n n == 1)%Q.
Proof.
  intros L. unfold truediv. apply Qmult_inv_r.
  intros C. unfold Qeq in C. simpl in C. lia.
Qed.

Lemma inject_pos b : 1 <= b -> (0 < inject_Z b)%Q.
Proof. intros L. change 0%Q with (inject_Z 0). rewrite <- Zlt_Qlt. lia. Qed.

Lemma truediv_antitone a b1 b2 :
  0 <= a -> 1 <= b1 <= b2 -> (truediv a b2 <= truediv a b1)%Q.
Proof.
  intros La [L1 L2]. unfold truediv.
  pose proof (inject_pos b1 L1) as P1.
  assert (P2 : (0 < inject_Z b2)%Q) by (apply inject_pos; lia).
  assert (Ha : (0 <= inject_Z a)%Q)
    by (change 0%Q with (inject_Z 0); rewrite <- Zle_Qle; lia).
  assert (Hb : (inject_Z b1 <= inject_Z b2)%Q) by (rewrite <- Zle_Qle; lia).
  assert (N1 : ~ (inject_Z b1 == 0)%Q) by (intros C; rewrite C in P1; lra).
  assert (D : (0 <= inject_Z a / inject_Z b1)%Q)
    by (apply Qle_shift_div_l; [exact P1 | lra]).
  pose proof (Qmult_div_r (inject_Z a) (inject_Z b1) N1) as E.
  pose proof (Qmult_le_compat_r _ _ _ Hb D) as M.
  apply Qle_shift_div_r; [exact P2|].
  revert D E M. generalize (inject_Z a / inject_Z b1)%Q.
  generalize (inject_Z a) (inject_Z b1) (inject_Z b2). intros x y1 y2 q D E M.
  rewrite (Qmult_comm q y2). lra.
Qed.

Lemma py_min_mono a b : (a <= b)%Q -> (py_min a 1 <= py_min b 1)%Q.
Proof.
  intros L. unfold py_min.
  destruct (Qle_bool a 1) eqn:Ea, (Qle_bool b 1) eqn:Eb;
    try apply Qle_bool_iff in Ea; try apply Qle_bool_iff in Eb; try lra.
  assert (C : Qle_bool a 1 = true) by (apply Qle_bool_iff; lra). congruence.
Qed.

Lemma py_min_one a : (1 <= a)%Q -> (py_min a 1 == 1)%Q.
Proof.
  intros L. unfold py_min. destruct (Qle_bool a 1) eqn:E; [|reflexivity].
  apply Qle_bool_iff in E. lra.
Qed.

Section WithRuntime.
Context `{PyRuntime}.

(** The score of a row when there is at least one token: full coverage
    plus the length bonus. *)
Lemma row_score field term (tokens : list str) items h :
  tokens <> [] ->
  In h (CourseSearch.score_items field term tokens items) ->
  score h = round4 ((7 # 10)
                    + py_min (truediv (len term) (Z.max (len (fieldValue h)) 1)) 1
                      * (3 # 10))%Q.
Proof.
  intros Nt Hin.
  destruct (CourseSearchFacts.score_items_In _ _ _ _ _ Hin)
    as (d & _ & _ & Ea & _ & _ & _ & Es).
  rewrite Es, (filter_all _ _ Ea). apply round4_compat.
  assert (L : 1 <= len tokens).
  { pose proof (len_nonneg tokens). pose proof (len_nil_iff tokens).
    assert (len tokens <> 0) by tauto. lia. }
  replace (Z.max (len tokens) 1) with (len tokens) by lia.
  rewrite (truediv_self _ L). ring.
Qed.

End WithRuntime.

End ScoreFacts.

Section PredicateScores.
Context `{PyRuntime}.
Import CourseSearch.

(** X10.  Predicate strategy: every returned score is at least 0.7; a
    result whose field value is no longer than the query scores exactly 1;
    and of two results of one search, the one with the shorter field value
    never has the lower score. *)
Theorem X10_predicate_scores_favour_short_values `{!LowerLaws}
    field context traceId w r :
  fst (_search_field field context traceId w) = Return (Success r) ->
  Forall (fun h => (7 # 10 <= score h)%Q
                   /\ (len (fieldValue h) <= len (query r) -> score h = 1%Q))
    (results r)
  /\ forall h1 h2,
       In h1 (results r) -> In h2 (results r) ->
       len (fieldValue h1) <= len (fieldValue h2) -> (score h2 <= score h1)%Q.
Proof.
  intros E. destruct (CourseSearchFacts.search_field_success _ _ _ _ _ E)
    as (term & top_k & container & items & Et & Nt & _ & _ & _ & ->).
  cbn [query results].
  pose proof (CourseSearchFacts.stripped_tokens _ _ Et Nt) as Ntok.
  assert (Lt : 1 <= len term).
  { pose proof (len_nonneg term). pose proof (len_nil_iff term).
    assert (len term <> 0) by tauto. lia. }
  assert (Row : forall h,
             In h (slice_to top_k (sort_desc (score_items field term
                                                (_tokenize (lower term)) items))) ->
             score h = round4 ((7 # 10)
                               + py_min (truediv (len term)
                                           (Z.max (len (fieldValue h)) 1)) 1
                                 * (3 # 10))%Q).
  { intros h Hin. apply slice_to_In in Hin.
    apply (Permutation_in _ (sort_desc_perm _)) in Hin.
    exact (ScoreFacts.row_score field term (_tokenize (lower term)) items h Ntok Hin). }
  split.
  - apply Forall_forall. intros h Hin. rewrite (Row h Hin).
    pose proof (len_nonneg (fieldValue h)) as Lv. split.
    + change (7 # 10)%Q with (round4 (7 # 10)) at 1. apply round4_mono.
      assert (B : (0 <= py_min (truediv (len term) (Z.max (len (fieldValue h)) 1)) 1 <= 1)%Q)
        by (apply py_min_unit, truediv_nonneg; lia).
      lra.
    + intros Le. rewrite <- round4_one. apply round4_compat.
      assert (O : (1 <= truediv (len term) (Z.max (len (fieldValue h)) 1))%Q).
      { rewrite <- (ScoreFacts.truediv_self (len term) Lt).
        apply ScoreFacts.truediv_antitone; lia. }
      rewrite (ScoreFacts.py_min_one _ O). reflexivity.
  - intros h1 h2 H1 H2 Le. rewrite (Row h1 H1), (Row h2 H2).
    pose proof (len_nonneg (fieldValue h1)). apply round4_mono.
    assert (M : (py_min (truediv (len term) (Z.max (len (fieldValue h2)) 1)) 1
                 <= py_min (truediv (len term) (Z.max (len (fieldValue h1)) 1)) 1)%Q).
    { apply ScoreFacts.py_min_mono, ScoreFacts.truediv_antitone; lia. }
    lra.
Qed.

(** X11.  A successful search has made exactly one query to the store,
    after the handle was set up, and has read no more than
    [max(3 * topK, 1)] documents from the front of its answer; every result
    is one of the documents read. *)
Theorem X11_one_bounded_query_per_search field context traceId w r :
  fst (_search_field field context traceId w) = Return (Success r) ->
  exists container items n,
    _container (_init_cosmos w) = Some container
    /\ snd (_search_field field context traceId w)
       = record_call (QueryItems (cosmosQuery r) (query_params (tokens r)))
           (_init_cosmos w)
    /\ items = firstn n (docs_of (query_items container (cosmosQuery r)
                                    (query_params (tokens r))))
    /\ len items <= Z.max (topK r * 3) 1
    /\ matched r <= len items
    /\ Forall (fun h => In (doc h) items) (results r).
Proof.
  unfold _search_field.
  destruct (py_strip _) as [term|e]; [|discriminate].
  destruct term as [|c term]; [discriminate|].
  destruct (py_int _) as [top_k|e]; [|discriminate].
  destruct (_container (_init_cosmos w)) as [container|]; [|discriminate].
  destruct (collect _ _ _) as [items|e] eqn:Ei;
    [|destruct (is_cosmos_http_error e); discriminate].
  cbn [fst snd]. intros [= <-]. cbn [cosmosQuery tokens topK matched results].
  destruct (FeedFacts.collect_spec _ _ _ _ Ei) as (n & En & Bn & _).
  exists container, items, n. simpl in En, Bn.
  split; [reflexivity|]. split; [reflexivity|]. split; [exact En|].
  split; [exact Bn|]. split.
  - pose proof (FeedFacts.slice_to_len_le top_k
                  (sort_desc (score_items field (c :: term)
                                (_tokenize (lower (c :: term))) items))) as S.
    pose proof (FeedFacts.score_items_len field (c :: term)
                  (_tokenize (lower (c :: term))) items) as L.
    unfold len in *. rewrite sort_desc_length in S. lia.
  - apply Forall_forall. intros h Hin. apply slice_to_In in Hin.
    apply (Permutation_in _ (sort_desc_perm _)) in Hin.
    destruct (CourseSearchFacts.score_items_In _ _ _ _ _ Hin) as (d & Hd & _ & _ & Ed & _).
    now rewrite Ed.
Qed.

(** X12.  When the store handle cannot be set up, the predicate tool
    answers with a [DependencyNotReady] envelope, while the scan handler
    answers as for an empty collection: success, no results, matched 0. *)
Theorem X12_store_not_ready :
  (forall field context traceId w term top_k,
      py_strip (search_term_arg (Common.parse_args context)) = Return term ->
      term <> [] ->
      py_int (topK_arg (Common.parse_args context)) = Return top_k ->
      _container (_init_cosmos w) = None ->
      exists payload,
        _search_field field context traceId w
        = (Return (Failure payload), _init_cosmos w)
        /\ dict_get (u "type") payload = VStr (u "DependencyNotReady")
        /\ dict_get (u "traceId") payload = VStr traceId)
  /\ (forall field context w r,
         fst (Courses._handler field context w) = Return (Courses.Success r) ->
         _container (_init_cosmos w) = None ->
         Courses.results r = [] /\ Courses.matched r = 0).
Proof.
  split.
  - intros field context traceId w term top_k Et Nt Ek Ec.
    unfold _search_field. rewrite Et. destruct term as [|c term]; [congruence|].
    rewrite Ek, Ec. eexists. split; [reflexivity|]. split; reflexivity.
  - intros field context w r E Ec.
    destruct (CoursesFacts.handler_success _ _ _ _ E)
      as (args & term & top_k & max_scan & min_score & _ & _ & _ & _ & _ & _ & ->).
    rewrite CoursesFacts.fuzzy_search_reply. cbn [Courses.results Courses.matched].
    unfold Courses._fetch_courses. rewrite Ec. simpl.
    unfold slice_to. destruct (0 <=? top_k); rewrite firstn_nil; split; reflexivity.
Qed.

(** X13.  When iterating the query raises, the predicate tool answers with
    an envelope: a [CosmosHttpResponseError] becomes [CosmosQueryError]
    carrying the query text and the error message, any other exception
    becomes [UnhandledException] naming the tool [search_<field>]. *)
Theorem X13_search_store_failure_envelopes
    field context traceId w term top_k container e :
  py_strip (search_term_arg (Common.parse_args context)) = Return term ->
  term <> [] ->
  py_int (topK_arg (Common.parse_args context)) = Return top_k ->
  _container (_init_cosmos w) = Some container ->
  collect (query_items container (_build_query field (_tokenize (lower term)))
             (query_params (_tokenize (lower term)))) (top_k * 3) [] = Raise e ->
  exists payload,
    fst (_search_field field context traceId w) = Return (Failure payload)
    /\ dict_get (u "traceId") payload = VStr traceId
    /\ (is_cosmos_http_error e = true ->
        dict_get (u "type") payload = VStr (u "CosmosQueryError")
        /\ dict_get (u "query") payload
           = VStr (_build_query field (_tokenize (lower term)))
        /\ (exn_str e <> [] -> dict_get (u "details") payload = VStr (exn_str e)))
    /\ (is_cosmos_http_error e = false ->
        dict_get (u "type") payload = VStr (u "UnhandledException")
        /\ dict_get (u "tool") payload = VStr (u "search_" ++ field)).
Proof.
  intros Et Nt Ek Ec Ei. unfold _search_field. rewrite Et.
  destruct term as [|c term]; [congruence|]. rewrite Ek, Ec, Ei.
  destruct (is_cosmos_http_error e) eqn:Eh; cbn [fst]; eexists;
    (split; [reflexivity|]).
  - unfold Common.build_error. destruct (exn_str e) as [|x xs].
    + repeat split; try reflexivity; try discriminate. intros C. now destruct C.
    + repeat split; try reflexivity; discriminate.
  - unfold Common.log_and_build_unhandled, Common.build_error.
    destruct (slice_last 4000 (format_exception e)); repeat split;
      try reflexivity; discriminate.
Qed.

End PredicateScores.

Lemma X10_witness :
  fst (CourseSearch._search_field (u "courseName") Sample.search_context (u "trace")
         (Sample.world_of Sample.courses))
  = Return (CourseSearch.Success Sample.search_reply)
  /\ Forall (fun h => (7 # 10 <= score h)%Q) (CourseSearch.results Sample.search_reply).
Proof.
  assert (E : fst (CourseSearch._search_field (u "courseName") Sample.search_context
                     (u "trace") (Sample.world_of Sample.courses))
              = Return (CourseSearch.Success Sample.search_reply))
    by (vm_compute; reflexivity).
  split; [exact E|].
  destruct (@X10_predicate_scores_favour_short_values Sample.runtime SampleFacts.lower_laws
              _ _ _ _ _ E) as [F _].
  eapply Forall_impl; [|exact F]. intros h [L _]. exact L.
Defined.

Lemma X11_witness :
  fst (CourseSearch._search_field (u "courseName") Sample.search_context (u "trace")
         (Sample.world_of Sample.courses))
  = Return (CourseSearch.Success Sample.search_reply)
  /\ exists container items n,
       _container (_init_cosmos (Sample.world_of Sample.courses)) = Some container
       /\ snd (CourseSearch._search_field (u "courseName") Sample.search_context
                 (u "trace") (Sample.world_of Sample.courses))
          = record_call (QueryItems (CourseSearch.cosmosQuery Sample.search_reply)
                           (CourseSearch.query_params
                              (CourseSearch.tokens Sample.search_reply)))
              (_init_cosmos (Sample.world_of Sample.courses))
       /\ items = firstn n (docs_of (query_items container
                                       (CourseSearch.cosmosQuery Sample.search_reply)
                                       (CourseSearch.query_params
                                          (CourseSearch.tokens Sample.search_reply))))
       /\ len items <= Z.max (CourseSearch.topK Sample.search_reply * 3) 1
       /\ CourseSearch.matched Sample.search_reply <= len items
       /\ Forall (fun h => In (doc h) items) (CourseSearch.results Sample.search_reply).
Proof.
  assert (E : fst (CourseSearch._search_field (u "courseName") Sample.search_context
                     (u "trace") (Sample.world_of Sample.courses))
              = Return (CourseSearch.Success Sample.search_reply))
    by (vm_compute; reflexivity).
  split; [exact E|].
  exact (X11_one_bounded_query_per_search (H:=Sample.runtime) _ _ _ _ _ E).
Defined.

Lemma X12_witness :
  py_strip (CourseSearch.search_term_arg (Common.parse_args Sample.search_context))
  = Return (u "Python 入門")
  /\ py_int (CourseSearch.topK_arg (Common.parse_args Sample.search_context)) = Return 5
  /\ _container (_init_cosmos Sample.unconfigured_world) = None
  /\ (exists payload,
         CourseSearch._search_field (u "courseName") Sample.search_context (u "trace")
           Sample.unconfigured_world
         = (Return (CourseSearch.Failure payload), _init_cosmos Sample.unconfigured_world)
         /\ dict_get (u "type") payload = VStr (u "DependencyNotReady")
         /\ dict_get (u "traceId") payload = VStr (u "trace"))
  /\ fst (Courses._handler (u "courseName") Sample.search_context Sample.unconfigured_world)
     = Return (Courses.Success
                 {| Courses.query := u "Python 入門";
                    Courses.field := u "courseName";
                    Courses.topK := 5;
                    Courses.maxScan := 200;
                    Courses.minScore := 4 # 10;
                    Courses.matched := 0;
                    Courses.results := [] |}).
Proof.
  destruct (X12_store_not_ready (H:=Sample.runtime)) as [P _].
  split; [reflexivity|]. split; [reflexivity|]. split; [reflexivity|]. split.
  - apply (P (u "courseName") Sample.search_context (u "trace") Sample.unconfigured_world
             (u "Python 入門") 5); try reflexivity. discriminate.
  - vm_compute. reflexivity.
Defined.

Lemma X13_witness :
  exists payload,
    fst (CourseSearch._search_field (u "courseName") Sample.search_context (u "trace")
           (Sample.broken_world_of [Sample.course "c1" "Python 入門講座"] Sample.throttled))
    = Return (CourseSearch.Failure payload)
    /\ dict_get (u "type") payload = VStr (u "CosmosQueryError")
    /\ dict_get (u "details") payload = VStr (u "429 Too Many Requests").
Proof.
  destruct (X13_search_store_failure_envelopes (H:=Sample.runtime)
              (u "courseName") Sample.search_context (u "trace")
              (Sample.broken_world_of [Sample.course "c1" "Python 入門講座"] Sample.throttled)
              (u "Python 入門") 5
              {| query_items := fun _ _ =>
                   Sample.broken_feed_of [Sample.course "c1" "Python 入門講座"] Sample.throttled;
                 read_all_items := fun _ =>
                   Sample.broken_feed_of [Sample.course "c1" "Python 入門講座"] Sample.throttled |}
              Sample.throttled)
    as (payload & E & _ & Hh & _); try reflexivity; try discriminate.
  exists payload. split; [exact E|].
  destruct (Hh eq_refl) as (T & _ & D). split; [exact T|].
  apply D. discriminate.
Defined.

(* ===================================================================== *)
(** ** Further properties: the lookup and listing tools                   *)
(* ===================================================================== *)

Module IdFacts.

Lemma forallb_lstrip (p : N -> bool) s :
  forallb p s = true -> forallb p (lstrip s) = true.
Proof.
  induction s as [|c s IH]; simpl; [reflexivity|].
  rewrite andb_true_iff. intros [Hc Hs].
  destruct (is_space c); [now apply IH | simpl; now rewrite Hc, Hs].
Qed.

Lemma forallb_rev (p : N -> bool) s : forallb p (rev s) = forallb p s.
Proof.
  induction s as [|c s IH]; simpl; [reflexivity|].
  rewrite forallb_app, IH. simpl. rewrite andb_true_r. apply andb_comm.
Qed.

Lemma forallb_strip (p : N -> bool) s :
  forallb p s = true -> forallb p (strip s) = true.
Proof.
  intros F. unfold strip, rstrip. rewrite forallb_rev.
  apply forallb_lstrip. rewrite forallb_rev. now apply forallb_lstrip.
Qed.

Lemma rev_strip s : rev (strip s) = lstrip (rev (lstrip s)).
Proof. unfold strip, rstrip. apply rev_involutive. Qed.

Lemma stripped_ends s :
  strip s = s -> s <> [] -> clean_head s /\ clean_head (rev s).
Proof.
  intros E Ne. split.
  - destruct s as [|c r]; [congruence|]. simpl. eapply strip_head, E.
  - pose proof (rev_strip s) as R. rewrite E in R.
    assert (L : lstrip s = s).
    { destruct s as [|c r]; [congruence|]. apply lstrip_fixed. eapply strip_head, E. }
    rewrite L in R.
    destruct (rev s) as [|c r] eqn:Er.
    + apply (f_equal (@rev N)) in Er. rewrite rev_involutive in Er. simpl in Er. congruence.
    + simpl. symmetry in R. eapply lstrip_head, R.
Qed.

Lemma clean_ends_strip s : clean_head s -> clean_head (rev s) -> strip s = s.
Proof.
  intros Hs Hr. unfold strip, rstrip.
  destruct s as [|c r]; [destruct Hs|]. simpl in Hs. rewrite (lstrip_fixed _ _ Hs).
  destruct (rev (c :: r)) as [|x xs] eqn:Er; [destruct Hr|]. simpl in Hr.
  rewrite (lstrip_fixed _ _ Hr), <- Er. apply rev_involutive.
Qed.

Lemma clean_head_app a b : clean_head a -> clean_head (a ++ b).
Proof. now destruct a. Qed.

Lemma join_clean_ends sep ids :
  ids <> [] ->
  Forall (fun i => clean_head i /\ clean_head (rev i)) ids ->
  clean_head (join sep ids) /\ clean_head (rev (join sep ids)).
Proof.
  induction ids as [|p ps IH]; intros N F; [congruence|].
  inversion F as [|? ? [Hp Hr] F']; subst.
  destruct ps as [|q ps]; [now split|].
  change (join sep (p :: q :: ps)) with (p ++ sep ++ join sep (q :: ps)).
  destruct (IH ltac:(discriminate) F') as [_ Hj]. split.
  - now apply clean_head_app.
  - rewrite !rev_app_distr, <- app_assoc. now apply clean_head_app.
Qed.

Lemma replace_id a b s :
  forallb (fun c => negb (c =? a)%N) s = true -> replace a b s = s.
Proof.
  unfold replace. induction s as [|c s IH]; simpl; [reflexivity|].
  rewrite andb_true_iff, negb_true_iff. intros [E F]. now rewrite E, (IH F).
Qed.

Lemma forallb_join (p : N -> bool) sep ids :
  forallb p sep = true -> Forall (fun i => forallb p i = true) ids ->
  forallb p (join sep ids) = true.
Proof.
  intros Hs. induction ids as [|q qs IH]; intros F; [reflexivity|].
  inversion F as [|? ? Hq F']; subst.
  destruct qs as [|q' qs]; [exact Hq|].
  change (join sep (q :: q' :: qs)) with (q ++ sep ++ join sep (q' :: qs)).
  rewrite !forallb_app, Hq, Hs. simpl. now apply IH.
Qed.

Lemma split_join sep ids :
  ids <> [] ->
  Forall (fun i => forallb (fun c => negb (c =? sep)%N) i = true) ids ->
  split sep (join [sep] ids) = ids.
Proof.
  induction ids as [|p ps IH]; intros N F; [congruence|].
  inversion F as [|? ? Hp F']; subst.
  destruct ps as [|q ps]; [now apply QueryFacts.split_free|].
  change (join [sep] (p :: q :: ps)) with (p ++ sep :: join [sep] (q :: ps)).
  rewrite QueryFacts.split_app, (QueryFacts.split_free _ _ Hp).
  now rewrite (IH ltac:(discriminate) F').
Qed.

Lemma map_id_on {A} (f : A -> A) l : Forall (fun x => f x = x) l -> List.map f l = l.
Proof.
  induction l as [|x l IH]; intros F; [reflexivity|].
  inversion F; subst. simpl. now rewrite H1, IH.
Qed.

Lemma normalize_ids_normal v : Forall normal_id (UserQuery._normalize_ids v).
Proof.
  destruct v; try constructor. rewrite LookupFacts.normalize_ids_eq.
  apply Forall_forall. intros i Hin. apply filter_In in Hin. destruct Hin as [Hin Ne].
  apply in_map_iff in Hin. destruct Hin as (p & <- & Hp).
  split; [now destruct (strip p)|]. split; [apply StripFacts.strip_idem|].
  apply forallb_strip.
  assert (C : forallb (fun c => negb (c =? 44)%N && negb (c =? 10)%N)
                (concat (split 44 (replace 10 44 (strip s)))) = true).
  { rewrite concat_split. generalize (strip s). intros t. unfold replace.
    induction t as [|c t IH]; simpl; [reflexivity|].
    destruct (c =? 10)%N eqn:E10; simpl; [exact IH|].
    destruct (c =? 44)%N eqn:E44; simpl; [exact IH|].
    now rewrite E44, E10. }
  eapply forallb_concat_in; eassumption.
Qed.

Lemma normalize_join ids :
  Forall normal_id ids -> UserQuery._normalize_ids (VStr (join (u ",") ids)) = ids.
Proof.
  intros F. destruct ids as [|p ps]; [reflexivity|].
  rewrite LookupFacts.normalize_ids_eq.
  assert (Ends : Forall (fun i => clean_head i /\ clean_head (rev i)) (p :: ps)).
  { eapply Forall_impl; [|exact F]. intros i (Ni & Si & _). now apply stripped_ends. }
  destruct (join_clean_ends (u ",") (p :: ps) ltac:(discriminate) Ends) as [Hh Hr].
  rewrite (clean_ends_strip _ Hh Hr).
  rewrite replace_id.
  - change (u ",") with [44%N]. rewrite split_join.
    + rewrite map_id_on.
      * apply ScoreFacts.filter_all. apply forallb_forall. intros i Hi.
        rewrite Forall_forall in F. destruct (F i Hi) as (Ni & _). now destruct i.
      * eapply Forall_impl; [|exact F]. intros i (_ & Si & _). exact Si.
    + discriminate.
    + eapply Forall_impl; [|exact F]. intros i (_ & _ & Ci).
      eapply QueryFacts.forallb_weaken; [|exact Ci].
      intros c. now intros [E _]%andb_true_iff.
  - apply forallb_join; [reflexivity|].
    eapply Forall_impl; [|exact F]. intros i (_ & _ & Ci).
    eapply QueryFacts.forallb_weaken; [|exact Ci].
    intros c. now intros [_ E]%andb_true_iff.
Qed.

End IdFacts.

Section Lookups.
Context `{PyRuntime}.

(** X14.  Get-by-ids reads from the front of the store's answer and stops
    at the number of ids asked for: a reply never has more documents than
    ids requested, nor more missing ids. *)
Theorem X14_users_found_no_more_than_requested
    context traceId w query requested count missingIds results :
  fst (UserQuery.get_users_by_ids_mcp context traceId w)
  = Return (UserQuery.Users query requested count missingIds results) ->
  1 <= requested
  /\ count <= requested
  /\ len missingIds <= requested
  /\ exists container params n,
       _container (_init_cosmos w) = Some container
       /\ results = firstn n (docs_of (query_items container query params)).
Proof.
  unfold UserQuery.get_users_by_ids_mcp, UserQuery.get_users_by_ids_body.
  destruct (UserQuery._normalize_ids _) as [|i ids] eqn:En; [discriminate|].
  destruct (_container (_init_cosmos w)) as [container|]; [|discriminate].
  destruct (collect _ _ _) as [items|e] eqn:Ei;
    [|destruct (is_cosmos_http_error e); discriminate].
  unfold UserQuery.id_set. destruct (forallb UserQuery.hashable _); [|discriminate].
  cbn [fst]. intros [= <- <- <- <- <-].
  destruct (FeedFacts.collect_spec _ _ _ _ Ei) as (n & En' & Bn & _).
  simpl in En', Bn.
  assert (L : 1 <= len (i :: ids)) by (unfold len; simpl; lia).
  split; [exact L|]. split; [lia|]. split.
  - exact (ShapeFacts.filter_len_le
             (fun j => negb (UserQuery.str_in j (List.map (dict_get (u "id")) items)))
             (i :: ids)).
  - eexists. eexists. exists n. split; [reflexivity | exact En'].
Qed.

(** X15.  The ids [_normalize_ids] returns are not empty, trimmed, and free
    of commas and newlines; and writing them back as a comma-separated
    string and normalizing again returns the same list. *)
Theorem X15_normalize_ids_round_trip v :
  Forall normal_id (UserQuery._normalize_ids v)
  /\ UserQuery._normalize_ids (VStr (join (u ",") (UserQuery._normalize_ids v)))
     = UserQuery._normalize_ids v.
Proof.
  split; [apply IdFacts.normalize_ids_normal|].
  apply IdFacts.normalize_join, IdFacts.normalize_ids_normal.
Qed.

(** X16.  Get-by-company asks the store one query, the fixed text with
    [@company] bound to the trimmed, non-empty company name, and returns at
    most [max(topK, 1)] documents from the front of the answer; with
    [topK >= 1], [truncated] is set exactly when [topK] documents were
    read - whether or not the store had more - and an untruncated reply is
    the whole answer. *)
Theorem X16_company_listing_capped
    context traceId w query company count truncated results :
  fst (UserQuery.get_users_by_company_mcp context traceId w)
  = Return (UserQuery.CompanyUsers query company count truncated results) ->
  exists top_k container n,
    py_strip (py_or (dict_get (u "companyName") (Common.parse_args context)) (VStr []))
    = Return company
    /\ company <> []
    /\ py_int (py_or (dict_get (u "topK") (Common.parse_args context)) (VInt 200))
       = Return top_k
    /\ _container (_init_cosmos w) = Some container
    /\ query = u "SELECT * FROM c WHERE c.companyName = @company ORDER BY c.userName"
    /\ calls (snd (UserQuery.get_users_by_company_mcp context traceId w))
       = calls (_init_cosmos w)
         ++ [QueryItems query
               [[(u "name", VStr (u "@company")); (u "value", VStr company)]]]
    /\ results
       = firstn n
           (docs_of (query_items container query
                       [[(u "name", VStr (u "@company")); (u "value", VStr company)]]))
    /\ count = len results
    /\ count <= Z.max top_k 1
    /\ (1 <= top_k -> (truncated = true <-> count = top_k))
    /\ (truncated = false ->
        results
        = docs_of (query_items container query
                     [[(u "name", VStr (u "@company")); (u "value", VStr company)]])).
Proof.
  unfold UserQuery.get_users_by_company_mcp, UserQuery.get_users_by_company_body.
  destruct (py_strip _) as [company'|e] eqn:Ec; [|discriminate].
  destruct (py_int _) as [top_k|e] eqn:Ek; [|discriminate].
  destruct company' as [|c company']; [discriminate|].
  destruct (_container (_init_cosmos w)) as [container|]; [|discriminate].
  destruct (UserQuery.collect_flag _ _ _) as [[items t]|e] eqn:Ei;
    [|destruct (is_cosmos_http_error e); discriminate].
  cbn [fst snd]. intros [= <- <- <- <- <-].
  destruct (FeedFacts.collect_flag_spec _ _ _ _ _ Ei) as (n & En & Bn & Tt & Tf).
  cbn [app] in En, Tf. change (len (@nil dict)) with 0 in Bn, Tt, Tf.
  rewrite Z.add_0_l in Bn.
  exists top_k, container, n.
  split; [reflexivity|]. split; [discriminate|]. split; [reflexivity|].
  split; [reflexivity|]. split; [reflexivity|]. split; [reflexivity|].
  split; [exact En|]. split; [reflexivity|].
  split; [exact Bn|]. split.
  - intros K. split.
    + intros Et. destruct (Tt Et). lia.
    + intros Ec'. destruct t; [reflexivity|].
      destruct (Tf eq_refl) as [_ Lt]. lia.
  - intros Ef. now destruct (Tf Ef).
Qed.

(** Reads [E : Return x = Return reply] as a definition of [reply]. *)
Ltac returned E reply :=
  let E' := fresh in
  pose proof (f_equal (fun o => match o with Return r => r | Raise _ => reply end) E) as E';
  cbv beta iota in E'; rewrite <- E'; clear E'.

(** What a survey listing says about the call that produced it. *)
Lemma survey_listing_shape context traceId w reply :
  fst (SurveyQuery.query_surveys_mcp context traceId w) = Return reply ->
  match reply with
  | SurveyQuery.Surveys mode id query count results =>
      exists course_id user_id top_k,
        py_strip (py_or (dict_get (u "courseId") (Common.parse_args context)) (VStr []))
        = Return course_id
        /\ py_strip (py_or (dict_get (u "userId") (Common.parse_args context)) (VStr []))
           = Return user_id
        /\ py_int (py_or (dict_get (u "topK") (Common.parse_args context)) (VInt 20))
           = Return top_k
        /\ ((course_id <> [] /\ user_id = [] /\ mode = u "courseId" /\ id = course_id
             /\ query = u "SELECT * FROM c WHERE c.courseId = @id")
            \/ (course_id = [] /\ user_id <> [] /\ mode = u "userId" /\ id = user_id
                /\ query = u "SELECT * FROM c WHERE c.userId = @id"))
        /\ count = len results
        /\ count <= Z.max top_k 1
  | _ => True
  end.
Proof.
  unfold SurveyQuery.query_surveys_mcp.
  destruct (py_strip (py_or (dict_get (u "courseId") _) _)) as [course_id|e];
    [|discriminate].
  destruct (py_strip (py_or (dict_get (u "userId") _) _)) as [user_id|e];
    [|discriminate].
  destruct (py_int _) as [top_k|e]; [|discriminate].
  destruct course_id as [|c cs], user_id as [|x xs]; cbn [andb negb].
  - destruct (truthy (dict_get (u "raw") (Common.parse_args context)));
      cbn [fst]; intros E; returned E reply; exact I.
  - destruct (_container (_init_cosmos w)) as [container|];
      [|cbn [fst]; intros E; returned E reply; exact I].
    destruct (collect _ _ _) as [items|e] eqn:Ei;
      [|destruct (is_cosmos_http_error e); cbn [fst]; intros E; returned E reply; exact I].
    cbn [fst]. intros E. returned E reply.
    destruct (FeedFacts.collect_spec _ _ _ _ Ei) as (n & _ & Bn & _).
    exists [], (x :: xs), top_k.
    split; [reflexivity|]. split; [reflexivity|]. split; [reflexivity|].
    split; [|split; [reflexivity | exact Bn]].
    right. split; [reflexivity|]. split; [discriminate|]. repeat split; reflexivity.
  - destruct (_container (_init_cosmos w)) as [container|];
      [|cbn [fst]; intros E; returned E reply; exact I].
    destruct (collect _ _ _) as [items|e] eqn:Ei;
      [|destruct (is_cosmos_http_error e); cbn [fst]; intros E; returned E reply; exact I].
    cbn [fst]. intros E. returned E reply.
    destruct (FeedFacts.collect_spec _ _ _ _ Ei) as (n & _ & Bn & _).
    exists (c :: cs), [], top_k.
    split; [reflexivity|]. split; [reflexivity|]. split; [reflexivity|].
    split; [|split; [reflexivity | exact Bn]].
    left. split; [discriminate|]. repeat split; reflexivity.
  - cbn [fst]. intros E. returned E reply. exact I.
Qed.

(** X17.  A survey listing is for exactly one id: either the trimmed
    [courseId] with no [userId], under mode ["courseId"], or the trimmed
    [userId] with no [courseId], under mode ["userId"]; the query text is
    the fixed text of that mode and at most [max(topK, 1)] documents are
    returned. *)
Theorem X17_survey_listing_for_one_id context traceId w mode id query count results :
  fst (SurveyQuery.query_surveys_mcp context traceId w)
  = Return (SurveyQuery.Surveys mode id query count results) ->
  exists course_id user_id top_k,
    py_strip (py_or (dict_get (u "courseId") (Common.parse_args context)) (VStr []))
    = Return course_id
    /\ py_strip (py_or (dict_get (u "userId") (Common.parse_args context)) (VStr []))
       = Return user_id
    /\ py_int (py_or (dict_get (u "topK") (Common.parse_args context)) (VInt 20))
       = Return top_k
    /\ ((course_id <> [] /\ user_id = [] /\ mode = u "courseId" /\ id = course_id
         /\ query = u "SELECT * FROM c WHERE c.courseId = @id")
        \/ (course_id = [] /\ user_id <> [] /\ mode = u "userId" /\ id = user_id
            /\ query = u "SELECT * FROM c WHERE c.userId = @id"))
    /\ count = len results
    /\ count <= Z.max top_k 1.
Proof.
  intros E. exact (survey_listing_shape _ _ _ _ E).
Qed.

End Lookups.

Section Listings.
Context `{PyRuntime}.

(** X18.  List-all returns the documents at the front of the store's answer
    to [SELECT * FROM c], at most 1000 of them, and sets [truncated] exactly
    when it stopped at 1000; an untruncated listing is the whole answer. *)
Theorem X18_course_listing_capped context traceId w query count truncated results :
  fst (CourseList.list_all_courses_mcp context traceId w)
  = Return (CourseList.Listing query count truncated results) ->
  exists container n,
    _container (_init_cosmos w) = Some container
    /\ query = u "SELECT * FROM c"
    /\ results = firstn n (docs_of (query_items container query []))
    /\ count = len results
    /\ count <= 1000
    /\ (truncated = true <-> count = 1000)
    /\ (truncated = false -> results = docs_of (query_items container query [])).
Proof.
  unfold CourseList.list_all_courses_mcp, CourseList.list_all_courses_body.
  destruct (_container (_init_cosmos w)) as [container|]; [|discriminate].
  destruct (UserQuery.collect_flag _ _ _) as [[items t]|e] eqn:Ei;
    [|destruct (is_cosmos_http_error e); discriminate].
  cbn [fst]. intros [= <- <- <- <-].
  destruct (FeedFacts.collect_flag_spec _ _ _ _ _ Ei) as (n & En & Bn & Tt & Tf).
  cbn [app] in En, Tf. change (len (@nil dict)) with 0 in Bn, Tt, Tf.
  rewrite Z.add_0_l in Bn.
  exists container, n.
  split; [reflexivity|]. split; [reflexivity|]. split; [exact En|].
  split; [reflexivity|]. split; [lia|]. split; [split|].
  - intros Et. destruct (Tt Et). lia.
  - intros Ec. destruct t; [reflexivity|]. destruct (Tf eq_refl) as [_ Lt]. lia.
  - intros Ef. now destruct (Tf Ef).
Qed.

(** X19.  The scan handler never reports a store failure.  Its fetch keeps
    the documents read before an exception - a prefix of the container's
    answer of at most [max(maxScan, 1)] documents, none without a
    container - and every outcome of the handler other than a successful
    reply returns before the store is touched. *)
Theorem X19_scan_swallows_store_failures :
  (forall max_items w,
      len (fst (Courses._fetch_courses max_items w)) <= Z.max max_items 1
      /\ match _container (_init_cosmos w) with
         | Some container =>
             exists n,
               fst (Courses._fetch_courses max_items w)
               = firstn n (docs_of (read_all_items container max_items))
         | None => fst (Courses._fetch_courses max_items w) = []
         end)
  /\ (forall field context w,
         (exists r, fst (Courses._handler field context w) = Return (Courses.Success r))
         \/ snd (Courses._handler field context w) = w).
Proof.
  split.
  - intros max_items w. unfold Courses._fetch_courses.
    destruct (_container (_init_cosmos w)) as [container|]; cbn [fst].
    + destruct (FeedFacts.read_up_to_spec (read_all_items container max_items)
                  max_items []) as (n & R & B).
      split; [exact B | exists n; exact R].
    + split; [change (len (@nil dict)) with 0; lia | reflexivity].
  - intros field context w. unfold Courses._handler.
    destruct (Courses.handler_args context) as [err|args]; [now right|].
    destruct (py_strip _) as [term|e]; [|now right].
    destruct term as [|c term]; [now right|].
    destruct (py_int (py_or (dict_get (u "topK") args) _)) as [top_k|e]; [|now right].
    destruct (py_int (py_or (dict_get (u "maxScan") args) _)) as [max_scan|e];
      [|now right].
    destruct (py_float _) as [min_score|e]; [|now right].
    destruct (Courses._fuzzy_search field (c :: term) top_k max_scan min_score w)
      as [r w'].
    left. now exists r.
Qed.

End Listings.

Lemma X14_witness :
  fst (UserQuery.get_users_by_ids_mcp Sample.users_context (u "trace")
         (Sample.world_of [Sample.user "u1"; Sample.user "u3"]))
  = Return (UserQuery.Users (u "SELECT * FROM c WHERE ARRAY_CONTAINS(@ids, c.id)") 3 2
              [u "u2"] [Sample.user "u1"; Sample.user "u3"])
  /\ 2 <= 3.
Proof.
  assert (E : fst (UserQuery.get_users_by_ids_mcp Sample.users_context (u "trace")
                     (Sample.world_of [Sample.user "u1"; Sample.user "u3"]))
              = Return (UserQuery.Users (u "SELECT * FROM c WHERE ARRAY_CONTAINS(@ids, c.id)")
                          3 2 [u "u2"] [Sample.user "u1"; Sample.user "u3"]))
    by (vm_compute; reflexivity).
  split; [exact E|].
  destruct (X14_users_found_no_more_than_requested (H:=Sample.runtime) _ _ _ _ _ _ _ _ E)
    as (_ & L & _).
  exact L.
Defined.

Lemma X16_witness :
  fst (UserQuery.get_users_by_company_mcp Sample.company_context (u "trace")
         (Sample.users_world Sample.employees))
  = Return (UserQuery.CompanyUsers
              (u "SELECT * FROM c WHERE c.companyName = @company ORDER BY c.userName")
              (u "Acme") 2 true
              [Sample.employee "u1" "Acme"; Sample.employee "u3" "Acme"])
  /\ exists n,
       [Sample.employee "u1" "Acme"; Sample.employee "u3" "Acme"]
       = firstn n [Sample.employee "u1" "Acme"; Sample.employee "u3" "Acme";
                   Sample.employee "u4" "Acme"].
Proof.
  assert (E : fst (UserQuery.get_users_by_company_mcp Sample.company_context (u "trace")
                     (Sample.users_world Sample.employees))
              = Return (UserQuery.CompanyUsers
                          (u "SELECT * FROM c WHERE c.companyName = @company ORDER BY c.userName")
                          (u "Acme") 2 true
                          [Sample.employee "u1" "Acme"; Sample.employee "u3" "Acme"]))
    by (vm_compute; reflexivity).
  split; [exact E|].
  destruct (X16_company_listing_capped (H:=Sample.runtime) _ _ _ _ _ _ _ _ E)
    as (top_k & container & n & _ & _ & _ & Ec & _ & _ & R & _).
  injection Ec as <-. exists n. exact R.
Defined.

Lemma X17_witness :
  fst (SurveyQuery.query_surveys_mcp Sample.survey_course_context (u "trace")
         (Sample.world_of Sample.surveys))
  = Return (SurveyQuery.Surveys (u "courseId") (u "c1")
              (u "SELECT * FROM c WHERE c.courseId = @id") 2
              (firstn 2 Sample.surveys))
  /\ exists top_k, 2 <= Z.max top_k 1.
Proof.
  assert (E : fst (SurveyQuery.query_surveys_mcp Sample.survey_course_context (u "trace")
                     (Sample.world_of Sample.surveys))
              = Return (SurveyQuery.Surveys (u "courseId") (u "c1")
                          (u "SELECT * FROM c WHERE c.courseId = @id") 2
                          (firstn 2 Sample.surveys)))
    by (vm_compute; reflexivity).
  split; [exact E|].
  destruct (X17_survey_listing_for_one_id (H:=Sample.runtime) _ _ _ _ _ _ _ _ E)
    as (c & x & top_k & _ & _ & _ & _ & _ & B).
  exists top_k. exact B.
Defined.

Lemma X18_witness :
  fst (CourseList.list_all_courses_mcp VNone (u "trace") (Sample.world_of Sample.courses))
  = Return (CourseList.Listing (u "SELECT * FROM c") 5 false Sample.courses)
  /\ 5 <= 1000.
Proof.
  assert (E : fst (CourseList.list_all_courses_mcp VNone (u "trace")
                     (Sample.world_of Sample.courses))
              = Return (CourseList.Listing (u "SELECT * FROM c") 5 false Sample.courses))
    by (vm_compute; reflexivity).
  split; [exact E|].
  destruct (X18_course_listing_capped (H:=Sample.runtime) _ _ _ _ _ _ _ E)
    as (c & n & _ & _ & _ & _ & B & _).
  exact B.
Defined.

Section PlainStringContexts.
Context `{PyRuntime}.

(** X20.  The scan handler has no fallback for a context that is a string
    but not JSON: it answers with the parse-error map carrying the
    exception's message, and returns before the store is touched. *)
Theorem X20_scan_rejects_plain_string_context field s w e :
  json_loads s = Raise e ->
  Courses._handler field (VStr s) w
  = (Return (Courses.Failure [(u "error", VStr (u "入力解析に失敗"));
                              (u "details", VStr (exn_str e))]), w).
Proof.
  intros Ej. unfold Courses._handler, Courses.handler_args. now rewrite Ej.
Qed.

(** X21.  The survey tool answers a plain, non-JSON string context with its
    help reply - count 0, no results, the two example payloads - echoing
    the trimmed text under ["raw"], and makes no call to the store. *)
Theorem X21_survey_help_for_plain_string_context s traceId w e :
  json_loads (strip s) = Raise e ->
  strip s <> [] ->
  SurveyQuery.query_surveys_mcp (VStr s) traceId w
  = (Return (SurveyQuery.Usage 0 []
               (u "courseId か userId を JSON で指定してください")
               (Some (VStr (strip s))) SurveyQuery.usage_examples), w).
Proof.
  intros Ej Ns.
  assert (P : Common.parse_args (VStr s) = [(u "raw", VStr (strip s))]).
  { unfold Common.parse_args. destruct (strip s) as [|c t]; [congruence|].
    now rewrite Ej. }
  unfold SurveyQuery.query_surveys_mcp. rewrite P.
  destruct (strip s) as [|c t]; [congruence|]. reflexivity.
Qed.

End PlainStringContexts.

Lemma X20_witness :
  json_loads (u "Python 入門") = Raise (mk_exn JSONDecodeError (u "Expecting value"))
  /\ Courses._handler (u "courseName") (VStr (u "Python 入門"))
       (Sample.world_of Sample.courses)
     = (Return (Courses.Failure [(u "error", VStr (u "入力解析に失敗"));
                                 (u "details", VStr (u "Expecting value"))]),
        Sample.world_of Sample.courses).
Proof.
  split; [reflexivity|].
  exact (X20_scan_rejects_plain_string_context (H:=Sample.runtime) (u "courseName")
           (u "Python 入門") (Sample.world_of Sample.courses) _ eq_refl).
Defined.

Lemma X21_witness :
  json_loads (strip (u " c1 ")) = Raise (mk_exn JSONDecodeError (u "Expecting value"))
  /\ strip (u " c1 ") <> []
  /\ SurveyQuery.query_surveys_mcp (VStr (u " c1 ")) (u "trace")
       (Sample.world_of Sample.surveys)
     = (Return (SurveyQuery.Usage 0 []
                  (u "courseId か userId を JSON で指定してください")
                  (Some (VStr (strip (u " c1 ")))) SurveyQuery.usage_examples),
        Sample.world_of Sample.surveys).
Proof.
  assert (N : strip (u " c1 ") <> []) by (vm_compute; discriminate).
  split; [reflexivity|]. split; [exact N|].
  exact (X21_survey_help_for_plain_string_context (H:=Sample.runtime) (u " c1 ")
           (u "trace") (Sample.world_of Sample.surveys) _ eq_refl N).
Defined.
